(** * University recommendation engine: filters, match score and ranking

    A shallow embedding of [src/recommendation_engine.py] (class
    [UniversityRecommender]) together with the part of Python's value
    semantics that the engine relies on:

    - Python numbers are integers ([Z]) or IEEE 754 binary64 floats.  A float
      is modelled by the rational it denotes (or an infinity, or NaN) and
      every float operation rounds its exact result to the nearest binary64
      value, ties to even ([rnd]).  The sign of zero is not tracked: the
      engine never observes it (division by either zero raises).
    - A record and a profile are dictionaries from strings to values:
      [None], a bool, a number, a string or a list of strings (the values
      the engine inspects; strings are compared and lowered bytewise, with
      [str.lower] acting on the ASCII letters).
    - Dictionaries and lists of records are objects in a store and are
      passed around by reference, so that aliasing and in-place updates
      ([append], [sort], item assignment) are visible.
    - Python exceptions are results [Raise e].
    - [list.sort] is a stable insertion sort that compares keys with [<]
      only; it orders as Python's sort does whenever no key is NaN.

    Part I holds the embedding and the definitions used in the statements,
    Part II the lemmas about them, Part III the properties of the engine.
    The float model is compared with the Standard Library's [SpecFloat] on
    the arithmetic of the worked example ([example_score_agrees]). *)

From Stdlib Require Import ZArith QArith Qround Qabs Qpower Qreduction Lia Lqa.
From Stdlib Require Import Ascii String SpecFloat.
From stdpp Require Import base option list gmap strings fin_maps sorting.

Local Open Scope Z_scope.

(* ===================================================================== *)
(** * Part I.  Definitions *)
(* ===================================================================== *)

(** ** Binary64 floating point *)

Inductive float :=
  | FNaN
  | FInf (neg : bool)
  | FFin (q : Q).

Definition pow2 (k : Z) : Q := Qpower 2 k.

(** [ilog2 q] is the binary exponent of a positive rational:
    [2^(ilog2 q) <= q < 2^(ilog2 q + 1)]. *)
Definition ilog2 (q : Q) : Z :=
  let k := Z.log2 (Qnum q) - Z.log2 (Zpos (Qden q)) in
  if Qle_bool (pow2 k) q then k else k - 1.

(** Nearest integer, ties to even. *)
Definition rhe (x : Q) : Z :=
  let f := Qfloor x in
  match Qcompare (x - inject_Z f) (1 # 2) with
  | Lt => f
  | Gt => f + 1
  | Eq => if Z.even f then f else f + 1
  end.

(** Exponent of the unit in the last place of the binade of [q]:
    53 significant bits, subnormals below [2^-1022]. *)
Definition fexp (q : Q) : Z := Z.max (ilog2 (Qabs q) - 52) (-1074).

Definition round_grid (ex : Z) (q : Q) : Q :=
  (inject_Z (rhe (q / pow2 ex)) * pow2 ex)%Q.

(** Round to nearest binary64, ties to even; overflow gives an infinity. *)
Definition rnd (q : Q) : float :=
  let v := round_grid (fexp q) q in
  if Qle_bool (pow2 1024) (Qabs v) then FInf (negb (Qle_bool 0 v))
  else FFin (Qred v).
#[global] Arguments rnd : simpl never.
#[global] Arguments pow2 : simpl never.

Definition is_nan (a : float) : bool :=
  match a with FNaN => true | _ => false end.

Definition fneg (a : float) : float :=
  match a with
  | FNaN => FNaN
  | FInf s => FInf (negb s)
  | FFin x => FFin (- x)
  end.

Definition fabs (a : float) : float :=
  match a with
  | FNaN => FNaN
  | FInf _ => FInf false
  | FFin x => FFin (Qabs x)
  end.

Definition fadd (a b : float) : float :=
  match a, b with
  | FNaN, _ | _, FNaN => FNaN
  | FInf s, FInf t => if Bool.eqb s t then FInf s else FNaN
  | FInf s, FFin _ => FInf s
  | FFin _, FInf t => FInf t
  | FFin x, FFin y => rnd (x + y)
  end.

Definition fsub (a b : float) : float := fadd a (fneg b).

Definition Qneg (x : Q) : bool := negb (Qle_bool 0 x).

Definition fmul (a b : float) : float :=
  match a, b with
  | FNaN, _ | _, FNaN => FNaN
  | FInf s, FInf t => FInf (xorb s t)
  | FInf s, FFin y => if Qeq_bool y 0 then FNaN else FInf (xorb s (Qneg y))
  | FFin x, FInf t => if Qeq_bool x 0 then FNaN else FInf (xorb (Qneg x) t)
  | FFin x, FFin y => rnd (x * y)
  end.

(** Division of floats.  The divisor is never zero when this is reached:
    Python raises [ZeroDivisionError] first (see [num_div]). *)
Definition fdiv (a b : float) : float :=
  match a, b with
  | FNaN, _ | _, FNaN => FNaN
  | FInf _, FInf _ => FNaN
  | FInf s, FFin y => FInf (xorb s (Qneg y))
  | FFin _, FInf _ => FFin 0
  | FFin x, FFin y => rnd (x / y)
  end.

(** Comparison; [None] when an operand is NaN (every ordering test is then
    false). *)
Definition fcompare (a b : float) : option comparison :=
  match a, b with
  | FNaN, _ | _, FNaN => None
  | FInf s, FInf t =>
      Some (if s then (if t then Eq else Lt) else (if t then Gt else Eq))
  | FInf s, FFin _ => Some (if s then Lt else Gt)
  | FFin _, FInf t => Some (if t then Gt else Lt)
  | FFin x, FFin y => Some (Qcompare x y)
  end.

Definition cmp_lt (c : option comparison) : bool :=
  match c with Some Lt => true | _ => false end.
Definition cmp_le (c : option comparison) : bool :=
  match c with Some Lt | Some Eq => true | _ => false end.
Definition cmp_gt (c : option comparison) : bool :=
  match c with Some Gt => true | _ => false end.
Definition cmp_ge (c : option comparison) : bool :=
  match c with Some Gt | Some Eq => true | _ => false end.

Definition fleb (a b : float) : bool := cmp_le (fcompare a b).
Definition fltb (a b : float) : bool := cmp_lt (fcompare a b).

(** ** Exceptions *)

Inductive exn :=
  | TypeError
  | AttributeError
  | KeyError
  | OverflowError
  | ZeroDivisionError
  | SystemError.  (* a reference to no object, or to one of the wrong kind:
                     cannot arise from Python code *)

Inductive result (A : Type) :=
  | Ok (a : A)
  | Raise (e : exn).
Arguments Ok {A} a.
Arguments Raise {A} e.

#[export] Instance result_ret : MRet result := fun A a => Ok a.
#[export] Instance result_bind : MBind result := fun A B f m =>
  match m with
  | Ok a => f a
  | Raise e => Raise e
  end.

#[export] Instance result_fmap : FMap result := fun A B f m =>
  match m with
  | Ok a => Ok (f a)
  | Raise e => Raise e
  end.

(** ** Python numbers *)

Inductive num :=
  | NInt (z : Z)
  | NFloat (f : float).

(** The value a number denotes, without rounding. *)
Definition num_exact (n : num) : float :=
  match n with
  | NInt z => FFin (inject_Z z)
  | NFloat f => f
  end.

(** Conversion of an operand to float ([PyLong_AsDouble] for an int). *)
Definition to_float (n : num) : result float :=
  match n with
  | NInt z =>
      match rnd (inject_Z z) with
      | FInf _ => Raise OverflowError
      | f => Ok f
      end
  | NFloat f => Ok f
  end.

Definition num_add (a b : num) : result num :=
  match a, b with
  | NInt x, NInt y => Ok (NInt (x + y))
  | _, _ => x ← to_float a; y ← to_float b; Ok (NFloat (fadd x y))
  end.

Definition num_sub (a b : num) : result num :=
  match a, b with
  | NInt x, NInt y => Ok (NInt (x - y))
  | _, _ => x ← to_float a; y ← to_float b; Ok (NFloat (fsub x y))
  end.

Definition num_mul (a b : num) : result num :=
  match a, b with
  | NInt x, NInt y => Ok (NInt (x * y))
  | _, _ => x ← to_float a; y ← to_float b; Ok (NFloat (fmul x y))
  end.

Definition is_zero (a : float) : bool :=
  match a with FFin x => Qeq_bool x 0 | _ => false end.

(** True division [a / b]: always a float. *)
Definition num_div (a b : num) : result num :=
  match a, b with
  | NInt x, NInt y =>
      if Z.eqb y 0 then Raise ZeroDivisionError
      else match fdiv (FFin (inject_Z x)) (FFin (inject_Z y)) with
           | FInf _ => Raise OverflowError
           | f => Ok (NFloat f)
           end
  | _, _ =>
      x ← to_float a; y ← to_float b;
      if is_zero y then Raise ZeroDivisionError else Ok (NFloat (fdiv x y))
  end.

Definition num_abs (a : num) : num :=
  match a with
  | NInt x => NInt (Z.abs x)
  | NFloat f => NFloat (fabs f)
  end.

(** Ordering of numbers is exact, also between an int and a float. *)
Definition num_compare (a b : num) : option comparison :=
  fcompare (num_exact a) (num_exact b).
Definition num_ltb (a b : num) : bool := cmp_lt (num_compare a b).
Definition num_leb (a b : num) : bool := cmp_le (num_compare a b).

(** [min(a, b)] and [max(a, b)]: the first argument is kept unless the
    second is strictly smaller (resp. greater). *)
Definition num_min (a b : num) : num := if num_ltb b a then b else a.
Definition num_max (a b : num) : num := if num_ltb a b then b else a.

(** [round(x, ndigits)] for [ndigits >= 0]: an int is returned unchanged;
    a finite float is rounded, half to even on its exact value, to a
    multiple of [10^-ndigits], and the nearest float to that decimal is
    returned. *)
Definition py_round (x : num) (ndigits : nat) : result num :=
  match x with
  | NInt z => Ok (NInt z)
  | NFloat (FFin q) =>
      let scale := inject_Z (10 ^ Z.of_nat ndigits) in
      match rnd (inject_Z (rhe (q * scale)) / scale)%Q with
      | FInf _ => Raise OverflowError
      | f => Ok (NFloat f)
      end
  | NFloat f => Ok (NFloat f)
  end.

(** ** Python values *)

Inductive value :=
  | VNone
  | VBool (b : bool)
  | VNum (n : num)
  | VStr (s : string)
  | VList (l : list string).

Abbreviation VInt z := (VNum (NInt z)).
Abbreviation VFloat f := (VNum (NFloat f)).

(** A float literal of the source denotes the nearest float. *)
Definition float_lit (q : Q) : float := rnd q.
Definition inf : float := FInf false.

(** Numeric operands; [bool] is a subtype of [int]. *)
Definition as_num (v : value) : result num :=
  match v with
  | VNum n => Ok n
  | VBool b => Ok (NInt (if b then 1 else 0))
  | _ => Raise TypeError
  end.

Fixpoint list_compare (l m : list string) : comparison :=
  match l, m with
  | [], [] => Eq
  | [], _ :: _ => Lt
  | _ :: _, [] => Gt
  | s :: l', t :: m' =>
      match String.compare s t with
      | Eq => list_compare l' m'
      | c => c
      end
  end.

Definition py_compare (a b : value) : result (option comparison) :=
  match a, b with
  | VStr s, VStr t => Ok (Some (String.compare s t))
  | VList l, VList m => Ok (Some (list_compare l m))
  | _, _ => x ← as_num a; y ← as_num b; Ok (num_compare x y)
  end.

Definition py_lt (a b : value) : result bool := cmp_lt <$> py_compare a b.
Definition py_le (a b : value) : result bool := cmp_le <$> py_compare a b.
Definition py_gt (a b : value) : result bool := cmp_gt <$> py_compare a b.
Definition py_ge (a b : value) : result bool := cmp_ge <$> py_compare a b.

Definition py_sub (a b : value) : result num :=
  x ← as_num a; y ← as_num b; num_sub x y.
Definition py_div (a b : value) : result num :=
  x ← as_num a; y ← as_num b; num_div x y.

(** Truth value of an object. *)
Definition py_bool (v : value) : bool :=
  match v with
  | VNone => false
  | VBool b => b
  | VNum n => negb (is_zero (num_exact n))
  | VStr s => negb (String.eqb s EmptyString)
  | VList l => match l with [] => false | _ => true end
  end.

(** Strings are byte strings; [str.lower] is modelled on ASCII letters. *)
Definition ascii_lower (c : ascii) : ascii :=
  let n := N_of_ascii c in
  if ((65 <=? n) && (n <=? 90))%N then ascii_of_N (n + 32) else c.

Fixpoint str_lower (s : string) : string :=
  match s with
  | EmptyString => EmptyString
  | String c s' => String (ascii_lower c) (str_lower s')
  end.

(** [needle in hay] on strings. *)
Fixpoint str_contains (needle hay : string) : bool :=
  if String.prefix needle hay then true
  else match hay with
       | EmptyString => false
       | String _ hay' => str_contains needle hay'
       end.

Definition py_lower (v : value) : result string :=
  match v with
  | VStr s => Ok (str_lower s)
  | _ => Raise AttributeError
  end.

Definition value_eqb_str (v : value) (s : string) : bool :=
  match v with VStr t => String.eqb t s | _ => false end.

(** [x in container]. *)
Definition py_in (x container : value) : result bool :=
  match container with
  | VList l => Ok (existsb (value_eqb_str x) l)
  | VStr t => match x with
              | VStr s => Ok (str_contains s t)
              | _ => Raise TypeError
              end
  | _ => Raise TypeError
  end.

Fixpoint chars (s : string) : list string :=
  match s with
  | EmptyString => []
  | String c s' => String c EmptyString :: chars s'
  end.

(** The strings a [for] loop over the value yields. *)
Definition py_iter (v : value) : result (list string) :=
  match v with
  | VList l => Ok l
  | VStr s => Ok (chars s)
  | _ => Raise TypeError
  end.

(** ** Dictionaries and the object store *)

Abbreviation dict := (gmap string value).

(** [d.get(key, default)] *)
Definition get (d : dict) (key : string) (dflt : value) : value :=
  default dflt (d !! key).

Definition loc := nat.

Inductive object :=
  | ODict (d : dict)
  | OList (l : list loc).

Abbreviation store := (list object).

(** Computations that read and update the store and may raise. *)
Definition M (A : Type) : Type := store -> result (A * store).

#[export] Instance M_ret : MRet M := fun A a h => Ok (a, h).
#[export] Instance M_bind : MBind M := fun A B f m h =>
  match m h with
  | Ok (a, h') => f a h'
  | Raise e => Raise e
  end.

Definition lift {A} (r : result A) : M A := fun h =>
  match r with
  | Ok a => Ok (a, h)
  | Raise e => Raise e
  end.

Definition lookup_dict (h : store) (l : loc) : result dict :=
  match h !! l with
  | Some (ODict d) => Ok d
  | _ => Raise SystemError
  end.

Definition lookup_list (h : store) (l : loc) : result (list loc) :=
  match h !! l with
  | Some (OList us) => Ok us
  | _ => Raise SystemError
  end.

Definition read_dict (l : loc) : M dict := fun h =>
  d ← lookup_dict h l; Ok (d, h).
Definition read_list (l : loc) : M (list loc) := fun h =>
  us ← lookup_list h l; Ok (us, h).

(** A new object gets the next free location. *)
Definition alloc (o : object) : M loc := fun h => Ok (length h, h ++ [o]).

(** [d[key] = v] *)
Definition dict_setitem (l : loc) (key : string) (v : value) : M unit := fun h =>
  d ← lookup_dict h l; Ok (tt, <[l := ODict (<[key := v]> d)]> h).

(** [d.copy()] and [l.copy()]: a new object with the same entries. *)
Definition dict_copy (l : loc) : M loc :=
  d ← read_dict l; alloc (ODict d).
Definition list_copy (l : loc) : M loc :=
  us ← read_list l; alloc (OList us).

(** [l.append(x)] *)
Definition list_append (l : loc) (x : loc) : M unit := fun h =>
  us ← lookup_list h l; Ok (tt, <[l := OList (us ++ [x])]> h).

(** [filterR f l] keeps the elements on which [f] answers [true], in
    order, and raises as soon as [f] does. *)
Fixpoint filterR {A} (f : A -> result bool) (l : list A) : result (list A) :=
  match l with
  | [] => Ok []
  | x :: l' =>
      b ← f x; r ← filterR f l'; Ok (if b : bool then x :: r else r)
  end.

(** The list comprehension [[u for u in universities if cond(u)]]: a new
    list object; [cond] only reads the records. *)
Definition list_comp (cond : dict -> result bool) (universities : loc) : M loc :=
  fun h =>
    us ← lookup_list h universities;
    out ← filterR (fun u => d ← lookup_dict h u; cond d) us;
    alloc (OList out) h.

(** [for x in xs: body(x)] *)
Fixpoint for_each {A} (body : A -> M unit) (xs : list A) : M unit :=
  match xs with
  | [] => mret tt
  | x :: xs' => body x;; for_each body xs'
  end.

(** ** The recommender *)

Record recommender := { universities : loc }.

Definition get_all_universities (self : recommender) : M loc :=
  mret (universities self).

Definition filter_by_gpa (universities : loc) (gpa : value) : M loc :=
  list_comp (fun u => py_ge gpa (get u "gpa_min" (VInt 0))) universities.

Definition filter_by_budget (universities : loc) (budget : value) : M loc :=
  list_comp (fun u => py_le (get u "tuition_usd" (VInt 0)) budget) universities.

(** [abs(u.get('test_benchmark', 0) - test_score) <= tolerance or
     test_score >= u.get('test_benchmark', 0)] *)
Definition test_score_cond (test_score tolerance : value) (u : dict) : result bool :=
  diff ← py_sub (get u "test_benchmark" (VInt 0)) test_score;
  within ← py_le (VNum (num_abs diff)) tolerance;
  if within : bool then Ok true
  else py_ge test_score (get u "test_benchmark" (VInt 0)).

Definition filter_by_test_score (universities : loc) (test_score : value)
    (tolerance : option value) : M loc :=
  let tolerance := default (VInt 50) tolerance in
  list_comp (test_score_cond test_score tolerance) universities.

Definition filter_by_ielts (universities : loc) (ielts_score : value) : M loc :=
  list_comp (fun u => py_ge ielts_score (get u "ielts_min" (VInt 0))) universities.

Definition filter_by_country (universities : loc) (countries : value) : M loc :=
  if negb (py_bool countries) then mret universities
  else list_comp (fun u => py_in (get u "country" VNone) countries) universities.

(** [any(sector.lower() in top_sectors for sector in sectors)] *)
Definition any_sector (top_sectors : string) (sectors : value) : result bool :=
  ss ← py_iter sectors;
  Ok (existsb (fun sector => str_contains (str_lower sector) top_sectors) ss).

Definition filter_by_sectors (universities : loc) (sectors : value) : M loc :=
  if negb (py_bool sectors) then mret universities
  else
    filtered ← alloc (OList []);
    us ← read_list universities;
    for_each (fun u =>
      d ← read_dict u;
      top_sectors ← lift (py_lower (get d "top_sectors" (VStr EmptyString)));
      hit ← lift (any_sector top_sectors sectors);
      if hit : bool then list_append filtered u else mret tt) us;;
    mret filtered.

(** GPA score (30 points max), source lines 162-168. *)
Definition add_gpa_score (score : num) (university user_profile : dict) : result num :=
  let gpa := get user_profile "gpa" (VInt 0) in
  let gpa_competitive := get university "gpa_competitive" (VInt 0) in
  c ← py_gt gpa_competitive (VInt 0);
  if c : bool then
    q ← py_div gpa gpa_competitive;
    let gpa_ratio := num_min q (NFloat (float_lit (11 # 10))) in
    t ← num_mul gpa_ratio (NInt 30);
    num_add score t
  else Ok score.

(** [1 - (tuition / budget) if tuition <= budget else 0] *)
Definition affordability (tuition budget : value) : result num :=
  le ← py_le tuition budget;
  if le : bool then q ← py_div tuition budget; num_sub (NInt 1) q
  else Ok (NInt 0).

(** Budget score (25 points max), source lines 170-176. *)
Definition add_budget_score (score : num) (university user_profile : dict) : result num :=
  let budget := get user_profile "budget" (VInt 0) in
  let tuition := get university "tuition_usd" (VInt 0) in
  c ← py_gt budget (VInt 0);
  if c : bool then
    a ← affordability tuition budget;
    t ← num_mul a (NInt 25);
    num_add score t
  else Ok score.

(** Test score proximity (20 points max), source lines 178-184. *)
Definition add_test_score (score : num) (university user_profile : dict) : result num :=
  let test_score := get user_profile "test_score" (VInt 0) in
  let test_benchmark := get university "test_benchmark" (VInt 0) in
  c ← py_gt test_benchmark (VInt 0);
  if c : bool then
    d ← py_sub test_score test_benchmark;
    let score_diff := num_abs d in
    q ← num_div score_diff (NInt 200);
    r ← num_sub (NInt 1) q;
    let proximity := num_max (NInt 0) r in
    t ← num_mul proximity (NInt 20);
    num_add score t
  else Ok score.

(** World rank score (25 points max), source lines 186-190. *)
Definition add_rank_score (score : num) (university : dict) : result num :=
  let world_rank := get university "world_rank" (VInt 100) in
  q ← py_div world_rank (VInt 100);
  r ← num_sub (NInt 1) q;
  let rank_score := num_max (NInt 0) r in
  t ← num_mul rank_score (NInt 25);
  num_add score t.

Definition calculate_match_score (university user_profile : dict) : result num :=
  let score := NInt 0 in
  score ← add_gpa_score score university user_profile;
  score ← add_budget_score score university user_profile;
  score ← add_test_score score university user_profile;
  score ← add_rank_score score university;
  py_round score 2.

(** [list.sort(key=..., reverse=True)] on keys that are numbers.  The
    sort is stable and compares keys with [<] only; with [reverse=True]
    the list is reversed, sorted in ascending order and reversed again,
    which keeps equal keys in their original order. *)
Fixpoint insert_by_key {A} (x : num * A) (l : list (num * A)) : list (num * A) :=
  match l with
  | [] => [x]
  | y :: l' => if num_ltb (fst y) (fst x) then y :: insert_by_key x l'
               else x :: y :: l'
  end.

Fixpoint sort_by_key {A} (l : list (num * A)) : list (num * A) :=
  match l with
  | [] => []
  | x :: l' => insert_by_key x (sort_by_key l')
  end.

Definition sort_reverse {A} (l : list (num * A)) : list (num * A) :=
  reverse (sort_by_key (reverse l)).

(** The key function [lambda x: x['match_score']]. *)
Definition match_score_key (h : store) (x : loc) : result (num * loc) :=
  d ← lookup_dict h x;
  match d !! "match_score" with
  | Some v => k ← as_num v; Ok (k, x)
  | None => Raise KeyError
  end.

Definition list_sort_by_match_score (l : loc) : M unit := fun h =>
  xs ← lookup_list h l;
  keyed ← mapM (match_score_key h) xs;
  Ok (tt, <[l := OList (snd <$> sort_reverse keyed)]> h).

Definition rank_universities (universities : loc) (user_profile : dict) : M loc :=
  ranked ← alloc (OList []);
  us ← read_list universities;
  for_each (fun university =>
    d ← read_dict university;
    match_score ← lift (calculate_match_score d user_profile);
    university_with_score ← dict_copy university;
    dict_setitem university_with_score "match_score" (VNum match_score);;
    list_append ranked university_with_score) us;;
  list_sort_by_match_score ranked;;
  mret ranked.

Definition recommend (self : recommender) (user_profile : dict) : M loc :=
  universities ← list_copy (universities self);
  universities ← filter_by_gpa universities (get user_profile "gpa" (VInt 0));
  universities ← filter_by_budget universities
                   (get user_profile "budget" (VFloat inf));
  universities ← filter_by_test_score universities
                   (get user_profile "test_score" (VInt 0)) (Some (VInt 100));
  universities ← filter_by_ielts universities
                   (get user_profile "ielts_score" (VInt 0));
  let preferred_countries := get user_profile "preferred_countries" (VList []) in
  universities ← (if py_bool preferred_countries
                  then filter_by_country universities preferred_countries
                  else mret universities);
  let preferred_sectors := get user_profile "preferred_sectors" (VList []) in
  universities ← (if py_bool preferred_sectors
                  then filter_by_sectors universities preferred_sectors
                  else mret universities);
  rank_universities universities user_profile.

(** ** Auxiliary definitions used in the statements *)

Definition reads (cond : dict -> result bool) (h : store) (u : loc) : result bool :=
  d ← lookup_dict h u; cond d.

Definition is_list_object (o : object) : Prop :=
  match o with OList _ => True | ODict _ => False end.

(** The loop of [filter_by_sectors] builds the list that the comprehension
    with the same test builds. *)
Definition sector_cond (sectors : value) (d : dict) : result bool :=
  top_sectors ← py_lower (get d "top_sectors" (VStr EmptyString));
  any_sector top_sectors sectors.

Definition sectors_body (sectors : value) (filtered : loc) (u : loc) : M unit :=
  d ← read_dict u;
  top_sectors ← lift (py_lower (get d "top_sectors" (VStr EmptyString)));
  hit ← lift (any_sector top_sectors sectors);
  if hit : bool then list_append filtered u else mret tt.

(** The score of a record and its annotated copy. *)
Definition scored (h : store) (p : dict) (u : loc) : result (num * dict) :=
  d ← lookup_dict h u;
  s ← calculate_match_score d p;
  Ok (s, <["match_score" := VNum s]> d).

Definition rank_body (p : dict) (ranked : loc) (university : loc) : M unit :=
  d ← read_dict university;
  match_score ← lift (calculate_match_score d p);
  university_with_score ← dict_copy university;
  dict_setitem university_with_score "match_score" (VNum match_score);;
  list_append ranked university_with_score.

Definition gpa_cond (p : dict) (u : dict) : result bool :=
  py_ge (get p "gpa" (VInt 0)) (get u "gpa_min" (VInt 0)).
Definition budget_cond (p : dict) (u : dict) : result bool :=
  py_le (get u "tuition_usd" (VInt 0)) (get p "budget" (VFloat inf)).
Definition ielts_cond (p : dict) (u : dict) : result bool :=
  py_ge (get p "ielts_score" (VInt 0)) (get u "ielts_min" (VInt 0)).
Definition country_cond (countries : value) (u : dict) : result bool :=
  py_in (get u "country" VNone) countries.

(** The lists of the stages of the pipeline and the scored copies. *)
Record stages := {
  st_all : list loc;      (* the dataset *)
  st_gpa : list loc;
  st_budget : list loc;
  st_test : list loc;
  st_ielts : list loc;
  st_country : list loc;
  st_sectors : list loc;  (* the survivors *)
  st_scored : list (num * dict)
}.

Definition pipeline (h : store) (self : recommender) (p : dict) (s : stages) : Prop :=
  lookup_list h (universities self) = Ok (st_all s) /\
  filterR (reads (gpa_cond p) h) (st_all s) = Ok (st_gpa s) /\
  filterR (reads (budget_cond p) h) (st_gpa s) = Ok (st_budget s) /\
  filterR (reads (test_score_cond (get p "test_score" (VInt 0)) (VInt 100)) h)
          (st_budget s) = Ok (st_test s) /\
  filterR (reads (ielts_cond p) h) (st_test s) = Ok (st_ielts s) /\
  (let pc := get p "preferred_countries" (VList []) in
   if py_bool pc then filterR (reads (country_cond pc) h) (st_ielts s) = Ok (st_country s)
   else st_country s = st_ielts s) /\
  (let ps := get p "preferred_sectors" (VList []) in
   if py_bool ps then filterR (reads (sector_cond ps) h) (st_country s) = Ok (st_sectors s)
   else st_sectors s = st_country s) /\
  mapM (scored h p) (st_sectors s) = Ok (st_scored s).

Definition fle (a b : float) : Prop := fleb a b = true.
Definition num_is_nan (n : num) : bool := is_nan (num_exact n).
Definition num_eqb (a b : num) : bool :=
  match num_compare a b with Some Eq => true | _ => false end.

Definition key_le {A} (x y : num * A) : Prop := num_leb (fst x) (fst y) = true.
Definition key_ok {A} (x : num * A) : Prop := num_is_nan (fst x) = false.
Definition key_is {A} (k : num) (x : num * A) : Prop := num_eqb (fst x) k = true.

(** The rounded value before the overflow test. *)
Definition rounded (q : Q) : Q := round_grid (fexp q) q.

(** Ordered, unless one side is NaN. *)
Definition flew (a b : float) : Prop :=
  is_nan a = true \/ is_nan b = true \/ fle a b.

(** Integers of at most 53 bits: the ones a float holds exactly. *)
Definition json_int (z : Z) : Prop := - 2 ^ 53 <= z <= 2 ^ 53.

(** [number v q]: the value is a finite number denoting [q] -- a bool, an
    integer of at most 53 bits or a finite float. *)
Inductive number : value -> Q -> Prop :=
  | number_int z : json_int z -> number (VInt z) (inject_Z z)
  | number_bool b : number (VBool b) (inject_Z (if b then 1 else 0))
  | number_float q : number (VFloat (FFin q)) q.

(** [round(x, ndigits)] on a float, when it does not raise. *)
Definition round_float (ndigits : nat) (f : float) : float :=
  match f with
  | FFin q =>
      let scale := inject_Z (10 ^ Z.of_nat ndigits) in
      rnd (inject_Z (rhe (q * scale)) / scale)%Q
  | _ => f
  end.

(** A score so far: the int [0], or a float between [0] and [hi]. *)
Definition bounded (hi : Q) (n : num) : Prop :=
  n = NInt 0 \/ exists q, n = NFloat (FFin q) /\ (0 <= q <= hi)%Q.

(** Not below [lo], possibly [+inf]. *)
Definition at_least (lo : Q) (f : float) : Prop :=
  f = FInf false \/ exists q, f = FFin q /\ (lo <= q)%Q.

(** Not above [hi], possibly [-inf]. *)
Definition at_most (hi : Q) (f : float) : Prop :=
  f = FInf true \/ exists q, f = FFin q /\ (q <= hi)%Q.

(** The float literal [1.1], the float [1/100] and the float [1 - 1/100]. *)
Definition q_1_1 : Q :=
  Eval vm_compute in match rnd (11 # 10) with FFin q => q | _ => 0%Q end.
Definition q_0_01 : Q :=
  Eval vm_compute in match rnd (1 # 100) with FFin q => q | _ => 0%Q end.
Definition q_0_99 : Q :=
  Eval vm_compute in match rnd (1 + - q_0_01) with FFin q => q | _ => 0%Q end.

(** ** The returned records *)

(** [c] is the scored copy of the record [u]. *)
Definition copy_of (h h' : store) (p : dict) (c u : loc) : Prop :=
  exists d sc, lookup_dict h u = Ok d /\
               calculate_match_score d p = Ok sc /\
               lookup_dict h' c = Ok (<["match_score" := VNum sc]> d).

(** The match score stored in the record at [c]. *)
Definition score_at (h : store) (c : loc) : option num :=
  match h !! c with
  | Some (ODict d) =>
      match d !! "match_score" with
      | Some (VNum k) => Some k
      | _ => None
      end
  | _ => None
  end.

(** [a] is ranked no lower than [b]: its score is not smaller. *)
Definition score_ge (h : store) (a b : loc) : Prop :=
  exists ka kb, score_at h a = Some ka /\ score_at h b = Some kb /\ num_leb kb ka = true.

(** The record at [c] has a score equal to [k]. *)
Definition has_score (h : store) (k : num) (c : loc) : Prop :=
  match score_at h c with
  | Some x => num_eqb x k = true
  | None => False
  end.

#[export] Instance has_score_dec h k c : Decision (has_score h k c).
Proof. unfold has_score. destruct (score_at h c); apply _. Defined.

(** ** The conditions of the test-score filter *)

(** The test does not answer [False]. *)
Definition not_false (c : result bool) : Prop := forall b, c = Ok b -> b = true.

(** [abs(benchmark - test_score) <= tolerance] *)
Definition within_tolerance (test_score tolerance : value) (d : dict) : Prop :=
  exists diff, py_sub (get d "test_benchmark" (VInt 0)) test_score = Ok diff /\
               py_le (VNum (num_abs diff)) tolerance = Ok true.

(** [test_score >= benchmark] *)
Definition at_benchmark (test_score : value) (d : dict) : Prop :=
  py_ge test_score (get d "test_benchmark" (VInt 0)) = Ok true.

(** ** Profiles with the same inputs *)

(** Profiles that the engine cannot tell apart. *)
Definition same_inputs (p1 p2 : dict) : Prop :=
  (forall k, k ∈ ["gpa"; "budget"; "test_score"; "ielts_score"] -> p1 !! k = p2 !! k) /\
  get p1 "preferred_countries" (VList []) = get p2 "preferred_countries" (VList []) /\
  get p1 "preferred_sectors" (VList []) = get p2 "preferred_sectors" (VList []).

(** ** Worked examples *)

(** The profile and the record of the example in the specification. *)
Definition example_profile : dict :=
  <["gpa" := VFloat (float_lit (35 # 10))]> (
  <["budget" := VInt 40000]> (
  <["test_score" := VInt 1400]> (
  <["ielts_score" := VFloat (float_lit 7)]> ∅))).

Definition example_record : dict :=
  <["gpa_min" := VFloat (float_lit 3)]> (
  <["gpa_competitive" := VFloat (float_lit (36 # 10))]> (
  <["tuition_usd" := VInt 30000]> (
  <["test_benchmark" := VInt 1380]> (
  <["ielts_min" := VFloat (float_lit (65 # 10))]> (
  <["world_rank" := VInt 40]> ∅))))).

(** A dataset of three records; the list names the first one twice. *)
Definition example_store : store :=
  [ ODict example_record;
    ODict (<["tuition_usd" := VInt 50000]> example_record);
    ODict (<["world_rank" := VInt 10]> example_record);
    OList [0; 1; 2; 0]%nat ].

Definition example_self : recommender := {| universities := 3%nat |}.

Definition example_result : loc * store :=
  match recommend example_self example_profile example_store with
  | Ok x => x
  | Raise _ => (0%nat, [])
  end.

(** The dataset that holds only the record of the example. *)
Definition single_store : store := [ODict example_record; OList [0%nat]].

Definition example_profile_no_budget : dict := delete "budget" example_profile.

Definition example_result_no_budget : loc * store :=
  match recommend example_self example_profile_no_budget example_store with
  | Ok x => x
  | Raise _ => (0%nat, [])
  end.

(** A record and a profile within the documented ranges. *)
Definition top_record : dict :=
  <["gpa_competitive" := VFloat (float_lit 3)]> (
  <["tuition_usd" := VInt 0]> (
  <["test_benchmark" := VInt 1600]> (
  <["world_rank" := VInt 1]> ∅))).

Definition top_profile : dict :=
  <["gpa" := VFloat (float_lit 4)]> (
  <["budget" := VInt 50000]> (
  <["test_score" := VInt 1600]> (
  <["ielts_score" := VFloat (float_lit 9)]> ∅))).

(** The float [3.6] and scores of the example at two GPAs. *)
Definition q_3_6 : Q :=
  Eval vm_compute in match rnd (36 # 10) with FFin q => q | _ => 0%Q end.

Definition score_with_gpa (g : Q) : num :=
  match calculate_match_score example_record
          (<["gpa" := VFloat (FFin g)]> example_profile) with
  | Ok s => s
  | Raise _ => NInt 0
  end.

(** ** The same arithmetic in the Standard Library's IEEE 754 specification *)

Definition sf (z : Z) : spec_float := binary_normalize 53 1024 z 0 false.

Definition of_spec_float (s : spec_float) : float :=
  match s with
  | S754_zero _ => FFin 0
  | S754_infinity s => FInf s
  | S754_nan => FNaN
  | S754_finite s m e =>
      FFin (Qred ((if s then -1 else 1) * inject_Z (Zpos m) * pow2 e))
  end.

Definition sf_div := SFdiv 53 1024.
Definition sf_mul := SFmul 53 1024.
Definition sf_add := SFadd 53 1024.
Definition sf_sub := SFsub 53 1024.

(** The score of the example before [round], computed with [SpecFloat]. *)
Definition example_score_spec : spec_float :=
  let g := sf_mul (sf_div (sf_div (sf 35) (sf 10)) (sf_div (sf 36) (sf 10))) (sf 30) in
  let a := sf_mul (sf_sub (sf 1) (sf_div (sf 30000) (sf 40000))) (sf 25) in
  let t := sf_mul (sf_sub (sf 1) (sf_div (sf 20) (sf 200))) (sf 20) in
  let r := sf_mul (sf_sub (sf 1) (sf_div (sf 40) (sf 100))) (sf 25) in
  sf_add (sf_add (sf_add (sf_add (sf 0) g) a) t) r.

Definition example_score_unrounded : result num :=
  score ← add_gpa_score (NInt 0) example_record example_profile;
  score ← add_budget_score score example_record example_profile;
  score ← add_test_score score example_record example_profile;
  add_rank_score score example_record.

(** An optional filter of [recommend]: applied when the preference is
    truthy. *)
Definition optional_stage (cond : value -> dict -> result bool) (pref : value)
    (h : store) (l : list loc) : result (list loc) :=
  if py_bool pref then filterR (reads (cond pref) h) l else Ok l.

(** The lists of the stages of [recommend] and the scored copies, computed
    from the store in the order in which [recommend] computes them. *)
Definition run_pipeline (h : store) (self : recommender) (p : dict) : result stages :=
  l0 ← lookup_list h (universities self);
  l1 ← filterR (reads (gpa_cond p) h) l0;
  l2 ← filterR (reads (budget_cond p) h) l1;
  l3 ← filterR (reads (test_score_cond (get p "test_score" (VInt 0)) (VInt 100)) h) l2;
  l4 ← filterR (reads (ielts_cond p) h) l3;
  l5 ← optional_stage country_cond (get p "preferred_countries" (VList [])) h l4;
  l6 ← optional_stage sector_cond (get p "preferred_sectors" (VList [])) h l5;
  sds ← mapM (scored h p) l6;
  Ok {| st_all := l0; st_gpa := l1; st_budget := l2; st_test := l3; st_ielts := l4;
        st_country := l5; st_sectors := l6; st_scored := sds |}.

(** The list objects that [recommend] allocates before it ranks. *)
Definition stage_lists (p : dict) (s : stages) : list object :=
  [OList (st_all s); OList (st_gpa s); OList (st_budget s); OList (st_test s);
   OList (st_ielts s)]
  ++ (if py_bool (get p "preferred_countries" (VList [])) then [OList (st_country s)] else [])
  ++ (if py_bool (get p "preferred_sectors" (VList [])) then [OList (st_sectors s)] else []).

(** The location that [recommend] returns and the store it leaves. *)
Definition result_loc (h : store) (p : dict) (s : stages) : loc :=
  (length h + length (stage_lists p s))%nat.

Definition result_store (h : store) (p : dict) (s : stages) : store :=
  h ++ stage_lists p s
    ++ [OList (snd <$> sort_reverse
                 (zip (fst <$> st_scored s)
                      (seq (S (result_loc h p s)) (length (st_scored s)))))]
    ++ (ODict ∘ snd <$> st_scored s).

(** Every element of the list is a record of the store. *)
Definition records (h : store) (l : list loc) : Prop :=
  Forall (fun u => exists d, lookup_dict h u = Ok d) l.

(** The exceptions of arithmetic on values. *)
Definition value_error (e : exn) : Prop := e = TypeError \/ e = OverflowError.

(** Applying the filter to its own result gives a list with the same
    elements. *)
Definition idempotent (f : loc -> M loc) : Prop :=
  forall us usl h r h',
    lookup_list h us = Ok usl -> f us h = Ok (r, h') ->
    exists out r2 h2,
      lookup_list h' r = Ok out /\ f r h' = Ok (r2, h2) /\ lookup_list h2 r2 = Ok out.

(** The filter returns a new list: the records of its argument on which
    [cond] is true, in their order; no object of the store is changed. *)
Definition keeps (cond : dict -> result bool) (f : loc -> M loc) : Prop :=
  forall us h r h',
    f us h = Ok (r, h') ->
    exists usl outl,
      lookup_list h us = Ok usl /\ h !! r = None /\ lookup_list h' r = Ok outl /\
      (forall l o, h !! l = Some o -> h' !! l = Some o) /\
      sublist outl usl /\
      forall u, u ∈ outl <->
                u ∈ usl /\ exists d, lookup_dict h u = Ok d /\ cond d = Ok true.

(** The text of [u.get('top_sectors', '')], when it is a string. *)
Definition sectors_text (d : dict) : option string :=
  match get d "top_sectors" (VStr EmptyString) with
  | VStr s => Some s
  | _ => None
  end.

(** Some keyword of the list, in lower case, occurs in the lowered text. *)
Definition keyword_match (keywords : list string) (text : string) : bool :=
  existsb (fun k => str_contains (str_lower k) (str_lower text)) keywords.

(** The scores that arise: the int [0] and floats. *)
Definition zero_or_float (n : num) : Prop := n = NInt 0 \/ exists f, n = NFloat f.

(** [max(0, r)] on a float. *)
Definition fmax0 (r : float) : float := if fltb (FFin 0) r then r else FFin 0.

(** The value is a finite number. *)
Definition is_number (v : value) : Prop := exists q, number v q.

(** A record with the documented fields: numbers, a tuition that is not
    negative, a rank of at least 1 and a text (or nothing) for the sectors. *)
Definition documented_record (d : dict) : Prop :=
  is_number (get d "gpa_min" (VInt 0)) /\
  is_number (get d "gpa_competitive" (VInt 0)) /\
  (exists t, number (get d "tuition_usd" (VInt 0)) t /\ (0 <= t)%Q) /\
  is_number (get d "test_benchmark" (VInt 0)) /\
  is_number (get d "ielts_min" (VInt 0)) /\
  (exists w, number (get d "world_rank" (VInt 100)) w /\ (1 <= w)%Q) /\
  is_Some (sectors_text d).

(** A preference that is absent, empty or a list of strings. *)
Definition list_or_falsy (v : value) : Prop :=
  py_bool v = false \/ exists l, v = VList l.

(** A profile whose numbers are finite, with a GPA that is not negative; the
    budget may be absent. *)
Definition documented_profile (p : dict) : Prop :=
  (exists g, number (get p "gpa" (VInt 0)) g /\ (0 <= g)%Q) /\
  (p !! "budget" = None \/ is_number (get p "budget" (VInt 0))) /\
  is_number (get p "test_score" (VInt 0)) /\
  is_number (get p "ielts_score" (VInt 0)) /\
  list_or_falsy (get p "preferred_countries" (VList [])) /\
  list_or_falsy (get p "preferred_sectors" (VList [])).

(** Every element of the list is a documented record of the store. *)
Definition documented_records (h : store) (l : list loc) : Prop :=
  Forall (fun u => exists d, lookup_dict h u = Ok d /\ documented_record d) l.

(** ** The request handlers of [app.py] *)

(** What [request.get_json()] returns: a JSON object or another JSON
    value. *)
Inductive payload :=
  | PObject (d : dict)
  | PValue (v : value).

(** The values of the dictionaries that the handlers pass to [jsonify]. *)
Inductive json :=
  | JBool (b : bool)
  | JInt (z : Z)
  | JStr (s : string)
  | JValue (v : value)
  | JRecord (d : dict)
  | JRecords (l : list dict)
  | JMessage (e : exn).  (* [str(e)], the message of an exception *)

Record response := { body : list (string * json); status : Z }.

Definition payload_json (data : payload) : json :=
  match data with
  | PObject d => JRecord d
  | PValue v => JValue v
  end.

(** Truth value of the payload: an empty object is false. *)
Definition payload_bool (data : payload) : bool :=
  match data with
  | PObject d => negb (bool_decide (d = ∅))
  | PValue v => py_bool v
  end.

(** [field in data] *)
Definition payload_contains (data : payload) (field : string) : result bool :=
  match data with
  | PObject d => Ok (bool_decide (is_Some (d !! field)))
  | PValue v => py_in (VStr field) v
  end.

(** [data.get(field)] *)
Definition payload_get (data : payload) (field : string) : result value :=
  match data with
  | PObject d => Ok (get d field VNone)
  | PValue _ => Raise AttributeError
  end.

(** [data[field]] *)
Definition payload_getitem (data : payload) (field : string) : result value :=
  match data with
  | PObject d =>
      match d !! field with
      | Some v => Ok v
      | None => Raise KeyError
      end
  | PValue _ => Raise TypeError
  end.

(** [isinstance(v, (int, float))] and [isinstance(v, int)]; a bool is an
    int. *)
Definition is_int_or_float (v : value) : bool :=
  match v with
  | VBool _ | VNum _ => true
  | _ => false
  end.

Definition is_int (v : value) : bool :=
  match v with
  | VBool _ | VNum (NInt _) => true
  | _ => false
  end.

(** [a or b] on tests. *)
Definition or_else (a b : result bool) : result bool :=
  x ← a; if x : bool then Ok true else b.

Definition error_response (error : json) (code : Z) : response :=
  {| body := [("success", JBool false); ("error", error)]; status := code |}.

(** [try: ... except Exception as e: return jsonify(...), 500] *)
Definition respond (m : M response) (h : store) : response :=
  match m h with
  | Ok (r, _) => r
  | Raise e => error_response (JMessage e) 500
  end.

(** [recommendations[:n]] *)
Definition list_slice_to (n : nat) (l : loc) : M loc :=
  us ← read_list l; alloc (OList (take n us)).

(** The records of a list, as [jsonify] writes them. *)
Definition json_records (l : loc) : M json := fun h =>
  us ← lookup_list h l;
  ds ← mapM (lookup_dict h) us;
  Ok (JRecords ds, h).

(** [len(l)] *)
Definition list_len (l : loc) : M Z :=
  us ← read_list l; mret (Z.of_nat (length us)).

Module app.

Definition required_fields : list string :=
  ["gpa"; "budget"; "test_score"; "ielts_score"].

(** [recommender.recommend(data)] *)
Definition call_recommend (recommender : recommender) (data : payload) : M loc :=
  match data with
  | PObject d => recommend recommender d
  | PValue _ => _ ← list_copy (universities recommender); lift (Raise AttributeError)
  end.

Definition invalid_gpa (data : payload) : result bool :=
  or_else (v ← payload_get data "gpa"; Ok (negb (is_int_or_float v)))
 (or_else (v ← payload_getitem data "gpa"; py_lt v (VInt 0))
          (v ← payload_getitem data "gpa"; py_gt v (VFloat (float_lit 4)))).

Definition invalid_budget (data : payload) : result bool :=
  or_else (v ← payload_get data "budget"; Ok (negb (is_int_or_float v)))
          (v ← payload_getitem data "budget"; py_lt v (VInt 0)).

Definition invalid_test_score (data : payload) : result bool :=
  or_else (v ← payload_get data "test_score"; Ok (negb (is_int v)))
 (or_else (v ← payload_getitem data "test_score"; py_lt v (VInt 400))
          (v ← payload_getitem data "test_score"; py_gt v (VInt 1600))).

Definition invalid_ielts_score (data : payload) : result bool :=
  or_else (v ← payload_get data "ielts_score"; Ok (negb (is_int_or_float v)))
 (or_else (v ← payload_getitem data "ielts_score"; py_lt v (VInt 0))
          (v ← payload_getitem data "ielts_score"; py_gt v (VInt 9))).

(** [POST /api/recommend]; [data] is what [request.get_json()] returned. *)
Definition recommend (recommender : recommender) (data : payload) : store -> response :=
  respond (
    if negb (payload_bool data) then
      mret (error_response (JStr "Request body must be JSON") 400)
    else
      missing_fields ← lift (filterR (fun field => negb <$> payload_contains data field)
                                     required_fields);
      if negb (bool_decide (missing_fields = [])) then
        mret (error_response
                (JStr ("Missing required fields: " ++ String.concat ", " missing_fields))
                400)
      else
        bad ← lift (invalid_gpa data);
        if bad : bool then
          mret (error_response (JStr "GPA must be a number between 0 and 4.0") 400)
        else
        bad ← lift (invalid_budget data);
        if bad : bool then
          mret (error_response (JStr "Budget must be a positive number") 400)
        else
        bad ← lift (invalid_test_score data);
        if bad : bool then
          mret (error_response
                  (JStr "Test score must be an integer between 400 and 1600") 400)
        else
        bad ← lift (invalid_ielts_score data);
        if bad : bool then
          mret (error_response (JStr "IELTS score must be a number between 0 and 9") 400)
        else
          recommendations ← call_recommend recommender data;
          top_recommendations ← list_slice_to 20 recommendations;
          count ← list_len top_recommendations;
          total_matches ← list_len recommendations;
          records ← json_records top_recommendations;
          mret {| body := [("success", JBool true);
                                   ("count", JInt count);
                                   ("total_matches", JInt total_matches);
                                   ("user_profile", payload_json data);
                                   ("recommendations", records)];
                  status := 200 |}).

(** [GET /api/universities]; the arguments are what [request.args.get]
    returned for [country], [max_tuition] ([type=float]), [min_rank] and
    [max_rank] ([type=int]). *)
Definition get_universities (recommender : recommender)
    (country : option string) (max_tuition : option float)
    (min_rank max_rank : option Z) : store -> response :=
  respond (
    universities ← get_all_universities recommender;
    universities ←
      match country with
      | Some c =>
          if py_bool (VStr c)
          then list_comp (fun u => Ok (value_eqb_str (get u "country" VNone) c)) universities
          else mret universities
      | None => mret universities
      end;
    universities ←
      match max_tuition with
      | Some m => list_comp (fun u => py_le (get u "tuition_usd" (VInt 0)) (VFloat m))
                            universities
      | None => mret universities
      end;
    universities ←
      match min_rank with
      | Some m => list_comp (fun u => py_ge (get u "world_rank" (VInt 999)) (VInt m))
                            universities
      | None => mret universities
      end;
    universities ←
      match max_rank with
      | Some m => list_comp (fun u => py_le (get u "world_rank" (VInt 999)) (VInt m))
                            universities
      | None => mret universities
      end;
    count ← list_len universities;
    records ← json_records universities;
    mret {| body := [("success", JBool true);
                             ("count", JInt count);
                             ("universities", records)];
            status := 200 |}).

End app.

(** A bool or a number that is neither below [lo] nor above [hi]; NaN is
    neither. *)
Definition not_outside (lo hi : Q) (v : value) : bool :=
  match as_num v with
  | Ok n =>
      match num_exact n with
      | FNaN => true
      | FInf _ => false
      | FFin q => Qle_bool lo q && Qle_bool q hi
      end
  | Raise _ => false
  end.

(** A bool or a number that is not below 0; NaN and [inf] are not. *)
Definition not_negative (v : value) : bool :=
  match as_num v with
  | Ok n =>
      match num_exact n with
      | FNaN => true
      | FInf s => negb s
      | FFin q => Qle_bool 0 q
      end
  | Raise _ => false
  end.

(** An int (not a bool) between [lo] and [hi]. *)
Definition int_between (lo hi : Z) (v : value) : bool :=
  match v with
  | VNum (NInt z) => (lo <=? z) && (z <=? hi)
  | _ => false
  end.

Definition field_ok (d : dict) (field : string) (ok : value -> bool) : bool :=
  match d !! field with
  | Some v => ok v
  | None => false
  end.

(** The requests that [POST /api/recommend] does not reject. *)
Definition valid_request (d : dict) : bool :=
  field_ok d "gpa" (not_outside 0 4) &&
  field_ok d "budget" not_negative &&
  field_ok d "test_score" (int_between 400 1600) &&
  field_ok d "ielts_score" (not_outside 0 9).

(** The response to a request that passed the validation. *)
Definition recommendations_response (data : payload) (total : nat) (top : list dict)
    : response :=
  {| body := [("success", JBool true);
              ("count", JInt (Z.of_nat (length top)));
              ("total_matches", JInt (Z.of_nat total));
              ("user_profile", payload_json data);
              ("recommendations", JRecords top)];
     status := 200 |}.

(** [a and b] on tests. *)
Definition and_then (a b : result bool) : result bool :=
  x ← a; if x : bool then b else Ok false.

(** The test of an optional query parameter. *)
Definition when_given {A} (o : option A) (test : A -> dict -> result bool)
    (u : dict) : result bool :=
  match o with
  | Some a => test a u
  | None => Ok true
  end.

(** The records that [GET /api/universities] selects: those that pass the
    test of every parameter that is given. *)
Definition query_cond (country : option string) (max_tuition : option float)
    (min_rank max_rank : option Z) (u : dict) : result bool :=
  and_then (and_then (and_then
    (when_given country (fun c u =>
       Ok (negb (py_bool (VStr c)) || value_eqb_str (get u "country" VNone) c)) u)
    (when_given max_tuition (fun m u =>
       py_le (get u "tuition_usd" (VInt 0)) (VFloat m)) u))
    (when_given min_rank (fun m u =>
       py_ge (get u "world_rank" (VInt 999)) (VInt m)) u))
    (when_given max_rank (fun m u =>
       py_le (get u "world_rank" (VInt 999)) (VInt m)) u).

Definition universities_response (ds : list dict) : response :=
  {| body := [("success", JBool true);
              ("count", JInt (Z.of_nat (length ds)));
              ("universities", JRecords ds)];
     status := 200 |}.

(** A finite number not below [lo], decided on the value. *)
Definition number_from (lo : Q) (v : value) : bool :=
  match v with
  | VBool b => Qle_bool lo (inject_Z (if b then 1 else 0))
  | VNum (NInt z) => (- 2 ^ 53 <=? z) && (z <=? 2 ^ 53) && Qle_bool lo (inject_Z z)
  | VNum (NFloat (FFin q)) => Qle_bool lo q
  | _ => false
  end.

Definition is_numberb (v : value) : bool :=
  match v with
  | VBool _ | VNum (NFloat (FFin _)) => true
  | VNum (NInt z) => (- 2 ^ 53 <=? z) && (z <=? 2 ^ 53)
  | _ => false
  end.

(** [documented_record], decided on the record. *)
Definition documented_recordb (d : dict) : bool :=
  is_numberb (get d "gpa_min" (VInt 0)) &&
  is_numberb (get d "gpa_competitive" (VInt 0)) &&
  number_from 0 (get d "tuition_usd" (VInt 0)) &&
  is_numberb (get d "test_benchmark" (VInt 0)) &&
  is_numberb (get d "ielts_min" (VInt 0)) &&
  number_from 1 (get d "world_rank" (VInt 100)) &&
  bool_decide (is_Some (sectors_text d)).

Definition list_or_falsyb (v : value) : bool :=
  match v with
  | VList _ => true
  | _ => negb (py_bool v)
  end.

(** [documented_profile], decided on the profile. *)
Definition documented_profileb (p : dict) : bool :=
  number_from 0 (get p "gpa" (VInt 0)) &&
  (bool_decide (p !! "budget" = None) || is_numberb (get p "budget" (VInt 0))) &&
  is_numberb (get p "test_score" (VInt 0)) &&
  is_numberb (get p "ielts_score" (VInt 0)) &&
  list_or_falsyb (get p "preferred_countries" (VList [])) &&
  list_or_falsyb (get p "preferred_sectors" (VList [])).

Definition is_record (h : store) (u : loc) : bool :=
  match h !! u with
  | Some (ODict _) => true
  | _ => false
  end.

Definition is_documented (h : store) (u : loc) : bool :=
  match h !! u with
  | Some (ODict d) => documented_recordb d
  | _ => false
  end.

(** A dataset with countries and sectors. *)
Definition example_catalogue : store :=
  [ ODict (<["country" := VStr "United States"]>
          (<["top_sectors" := VStr "Engineering, Computer Science"]> example_record));
    ODict (<["country" := VStr "Canada"]>
          (<["top_sectors" := VStr "Medicine"]>
          (<["tuition_usd" := VInt 40000]> example_record)));
    ODict (<["world_rank" := VInt 10]> example_record);
    OList [0; 1; 2]%nat ].

(** A record whose sectors are not a text. *)
Definition example_broken_store : store :=
  [ ODict (<["top_sectors" := VNone]> example_record); OList [0%nat] ].

Definition example_empty_store : store := [ OList [] ].

(** The score of the example record with another rank or tuition. *)
Definition score_with (field : string) (z : Z) : num :=
  match calculate_match_score (<[field := VInt z]> example_record) example_profile with
  | Ok s => s
  | Raise _ => NInt 0
  end.


(** A truthy preference that is neither a list nor a string. *)
Definition scalar_preference (v : value) : Prop :=
  py_bool v = true /\ (exists b, v = VBool b) \/ py_bool v = true /\ (exists n, v = VNum n).

(* ===================================================================== *)
(** * Part II.  Lemmas *)
(* ===================================================================== *)

(** ** The result and store monads *)
Lemma bind_Ok {A B} (m : result A) (f : A -> result B) (b : B) :
  (m ≫= f) = Ok b <-> exists a, m = Ok a /\ f a = Ok b.
Proof.
  destruct m as [a|e]; cbn.
  - split; [eauto | intros (a' & [= <-] & H); exact H].
  - split; [discriminate | intros (a' & [=] & _)].
Qed.

Lemma Ok_inj {A} (a b : A) : Ok a = Ok b -> a = b.
Proof. intros [= ->]. reflexivity. Qed.

Lemma fmap_Ok {A B} (g : A -> B) (m : result A) (b : B) :
  g <$> m = Ok b <-> exists a, m = Ok a /\ b = g a.
Proof.
  destruct m as [a|e]; cbn.
  - split; [intros [= <-]; eauto | intros (a' & [= <-] & ->); reflexivity].
  - split; [discriminate | intros (a' & [=] & _)].
Qed.

Lemma M_bind_Ok {A B} (m : M A) (f : A -> M B) (h : store) (b : B) (h' : store) :
  (m ≫= f) h = Ok (b, h') <->
  exists a h1, m h = Ok (a, h1) /\ f a h1 = Ok (b, h').
Proof.
  unfold mbind, M_bind. destruct (m h) as [[a h1]|e].
  - split; [eauto | intros (a' & h2 & [= <- <-] & H); exact H].
  - split; [discriminate | intros (a' & h2 & [=] & _)].
Qed.

Lemma lift_Ok {A} (r : result A) (h : store) (a : A) (h' : store) :
  lift r h = Ok (a, h') <-> r = Ok a /\ h' = h.
Proof.
  unfold lift. destruct r; split; try discriminate.
  - intros [= <- <-]. auto.
  - intros [[= <-] ->]. reflexivity.
  - intros [[=] _].
Qed.

Lemma read_dict_Ok l h d h' :
  read_dict l h = Ok (d, h') <-> lookup_dict h l = Ok d /\ h' = h.
Proof.
  unfold read_dict. rewrite bind_Ok. split.
  - intros (d' & H & [= <- <-]). auto.
  - intros [H ->]. eauto.
Qed.

Lemma read_list_Ok l h us h' :
  read_list l h = Ok (us, h') <-> lookup_list h l = Ok us /\ h' = h.
Proof.
  unfold read_list. rewrite bind_Ok. split.
  - intros (d' & H & [= <- <-]). auto.
  - intros [H ->]. eauto.
Qed.

Lemma lookup_dict_Ok h l d : lookup_dict h l = Ok d <-> h !! l = Some (ODict d).
Proof.
  unfold lookup_dict. destruct (h !! l) as [[d'|us]|]; split; intros H; try discriminate; congruence.
Qed.

Lemma lookup_list_Ok h l us : lookup_list h l = Ok us <-> h !! l = Some (OList us).
Proof.
  unfold lookup_list. destruct (h !! l) as [[d'|us']|]; split; intros H; try discriminate; congruence.
Qed.

(** Objects that exist are not affected by an allocation. *)
Lemma lookup_dict_app h ext l d :
  lookup_dict h l = Ok d -> lookup_dict (h ++ ext) l = Ok d.
Proof.
  rewrite !lookup_dict_Ok. intros H. rewrite lookup_app_l; [exact H|].
  eapply lookup_lt_Some, H.
Qed.

Lemma lookup_list_app h ext l us :
  lookup_list h l = Ok us -> lookup_list (h ++ ext) l = Ok us.
Proof.
  rewrite !lookup_list_Ok. intros H. rewrite lookup_app_l; [exact H|].
  eapply lookup_lt_Some, H.
Qed.

(** ** [filterR] *)
Lemma filterR_Ok_elem {A} (f : A -> result bool) l out x :
  filterR f l = Ok out -> (x ∈ out <-> x ∈ l /\ f x = Ok true).
Proof.
  revert out. induction l as [|y l IH]; intros out; cbn.
  - intros [= <-]. split; [intros H; inversion H | intros [H _]; inversion H].
  - rewrite bind_Ok. intros (b & Hb & H). apply bind_Ok in H as (r & Hr & [= <-]).
    specialize (IH r Hr). destruct b.
    + rewrite !elem_of_cons, IH. split.
      * intros [-> | [? ?]]; auto.
      * intros [[-> | ?] ?]; auto.
    + rewrite elem_of_cons, IH. split.
      * intros [? ?]; auto.
      * intros [[-> | ?] ?]; [congruence | auto].
Qed.

Lemma filterR_Ok_all {A} (f : A -> result bool) l out x :
  filterR f l = Ok out -> x ∈ l -> exists b, f x = Ok b.
Proof.
  revert out. induction l as [|y l IH]; intros out; cbn.
  - intros _ H. inversion H.
  - rewrite bind_Ok. intros (b & Hb & H). apply bind_Ok in H as (r & Hr & _).
    rewrite elem_of_cons. intros [-> | Hx]; eauto.
Qed.

Lemma filterR_sublist {A} (f : A -> result bool) l out :
  filterR f l = Ok out -> sublist out l.
Proof.
  revert out. induction l as [|y l IH]; intros out; cbn.
  - intros [= <-]. constructor.
  - rewrite bind_Ok. intros (b & Hb & H). apply bind_Ok in H as (r & Hr & [= <-]).
    destruct b; [apply sublist_skip | apply sublist_cons]; auto.
Qed.

Lemma filterR_ext {A} (f g : A -> result bool) l :
  (forall x, x ∈ l -> f x = g x) -> filterR f l = filterR g l.
Proof.
  induction l as [|y l IH]; intros H; cbn; [reflexivity|].
  rewrite (H y) by left. rewrite IH; [reflexivity|].
  intros x Hx. apply H. right. exact Hx.
Qed.

(** ** The list comprehension *)

Lemma list_comp_Ok cond us h r h' :
  list_comp cond us h = Ok (r, h') <->
  exists usl out, lookup_list h us = Ok usl /\
                  filterR (reads cond h) usl = Ok out /\
                  r = length h /\ h' = h ++ [OList out].
Proof.
  unfold list_comp. rewrite bind_Ok. split.
  - intros (usl & H1 & H). apply bind_Ok in H as (out & H2 & [= <- <-]). eauto 10.
  - intros (usl & out & H1 & H2 & -> & ->). exists usl. split; [exact H1|].
    apply bind_Ok. exists out. split; [exact H2 | reflexivity].
Qed.

Lemma lookup_dict_lists h ext u :
  Forall is_list_object ext -> lookup_dict (h ++ ext) u = lookup_dict h u.
Proof.
  intros Hext. unfold lookup_dict.
  destruct (decide (u < length h)%nat) as [Hlt|Hge].
  - rewrite lookup_app_l by exact Hlt. reflexivity.
  - assert (Hn : h !! u = None) by (apply lookup_ge_None; lia).
    rewrite lookup_app_r by lia. rewrite Hn.
    destruct (ext !! (u - length h)%nat) as [o|] eqn:E; [|reflexivity].
    apply (Forall_lookup_1 _ _ _ _ Hext) in E. destruct o; [destruct E | reflexivity].
Qed.

Lemma reads_lists cond h ext u :
  Forall is_list_object ext -> reads cond (h ++ ext) u = reads cond h u.
Proof. intros H. unfold reads. rewrite lookup_dict_lists by exact H. reflexivity. Qed.

Lemma list_comp_lists cond us h ext r h' :
  Forall is_list_object ext ->
  list_comp cond us (h ++ ext) = Ok (r, h') ->
  exists usl out, lookup_list (h ++ ext) us = Ok usl /\
                  filterR (reads cond h) usl = Ok out /\
                  r = length (h ++ ext) /\ h' = h ++ (ext ++ [OList out]).
Proof.
  intros Hext H. apply list_comp_Ok in H as (usl & out & H1 & H2 & -> & ->).
  exists usl, out. repeat split; [exact H1| |by rewrite <- app_assoc].
  rewrite <- H2. apply filterR_ext. intros x _. symmetry. apply reads_lists, Hext.
Qed.

Lemma sectors_body_Ok sectors h acc u h2 :
  sectors_body sectors (length h) u (h ++ [OList acc]) = Ok (tt, h2) ->
  exists b, reads (sector_cond sectors) h u = Ok b /\
            h2 = h ++ [OList (if b : bool then acc ++ [u] else acc)].
Proof.
  unfold sectors_body. intros H.
  apply M_bind_Ok in H as (d & h1 & Hd & H). apply read_dict_Ok in Hd as [Hd ->].
  apply M_bind_Ok in H as (ts & h1 & Hts & H). apply lift_Ok in Hts as [Hts ->].
  apply M_bind_Ok in H as (hit & h1 & Hhit & H). apply lift_Ok in Hhit as [Hhit ->].
  rewrite (lookup_dict_lists h [OList acc]) in Hd by (repeat constructor).
  exists hit. split.
  - unfold reads, sector_cond. rewrite Hd. cbn. rewrite Hts. cbn. exact Hhit.
  - destruct hit.
    + unfold list_append in H. apply bind_Ok in H as (us & Hus & [= <-]).
      apply lookup_list_Ok in Hus. rewrite lookup_app_r in Hus by lia.
      rewrite Nat.sub_diag in Hus. cbn in Hus. injection Hus as <-.
      rewrite insert_app_r_alt by lia. rewrite Nat.sub_diag. reflexivity.
    + injection H as <-. reflexivity.
Qed.

Lemma sectors_loop_Ok sectors h usl acc h2 :
  for_each (sectors_body sectors (length h)) usl (h ++ [OList acc]) = Ok (tt, h2) ->
  exists out, filterR (reads (sector_cond sectors) h) usl = Ok out /\
              h2 = h ++ [OList (acc ++ out)].
Proof.
  revert acc. induction usl as [|u usl IH]; intros acc; cbn.
  - intros [= <-]. exists []. rewrite app_nil_r. auto.
  - intros H. apply M_bind_Ok in H as ([] & h1 & Hb & H).
    apply sectors_body_Ok in Hb as (b & Hb & ->).
    apply IH in H as (out & Hout & ->).
    exists (if b then u :: out else out). split.
    + rewrite Hb. cbn. rewrite Hout. reflexivity.
    + destruct b; [rewrite <- app_assoc|]; reflexivity.
Qed.

Lemma filter_by_sectors_Ok us sectors h r h' :
  py_bool sectors = true -> (us < length h)%nat ->
  filter_by_sectors us sectors h = Ok (r, h') ->
  exists usl out, lookup_list h us = Ok usl /\
                  filterR (reads (sector_cond sectors) h) usl = Ok out /\
                  r = length h /\ h' = h ++ [OList out].
Proof.
  intros Hs Hlt. unfold filter_by_sectors. rewrite Hs. cbn [negb].
  intros H. apply M_bind_Ok in H as (filtered & h1 & Ha & H).
  unfold alloc in Ha. injection Ha as <- <-.
  apply M_bind_Ok in H as (usl & h1 & Hus & H). apply read_list_Ok in Hus as [Hus ->].
  apply M_bind_Ok in H as ([] & h1 & Hloop & [= <- <-]).
  apply lookup_list_Ok in Hus.
  rewrite lookup_app_l in Hus by exact Hlt.
  apply sectors_loop_Ok in Hloop as (out & Hout & ->).
  exists usl, out. rewrite lookup_list_Ok. auto.
Qed.

(** ** Ranking *)

Lemma mapM_cons_Ok {A B} (f : A -> result B) x l r :
  mapM f (x :: l) = Ok r <->
  exists y k, f x = Ok y /\ mapM f l = Ok k /\ r = y :: k.
Proof.
  cbn. rewrite bind_Ok. split.
  - intros (y & Hy & H). apply bind_Ok in H as (k & Hk & [= <-]). eauto 10.
  - intros (y & k & Hy & Hk & ->). exists y. split; [exact Hy|].
    apply bind_Ok. exists k. split; [exact Hk | reflexivity].
Qed.

Lemma mapM_Ok_length {A B} (f : A -> result B) l r :
  mapM f l = Ok r -> length r = length l.
Proof.
  revert r. induction l as [|x l IH]; intros r.
  - intros [= <-]. reflexivity.
  - rewrite mapM_cons_Ok. intros (y & k & _ & Hk & ->). cbn. f_equal. auto.
Qed.

Lemma mapM_Ok_lookup {A B} (f : A -> result B) l r i x :
  mapM f l = Ok r -> l !! i = Some x -> exists y, r !! i = Some y /\ f x = Ok y.
Proof.
  revert r i. induction l as [|x' l IH]; intros r i.
  - intros _ H. discriminate.
  - rewrite mapM_cons_Ok. intros (y & k & Hy & Hk & ->). destruct i as [|i]; cbn.
    + intros [= ->]. eauto.
    + intros H. eapply IH; eauto.
Qed.

Lemma rank_body_Ok p h acc ds u h2 :
  (u < length h)%nat ->
  rank_body p (length h) u (h ++ [OList acc] ++ (ODict <$> ds)) = Ok (tt, h2) ->
  exists sd, scored h p u = Ok sd /\
    h2 = h ++ [OList (acc ++ [(S (length h) + length ds)%nat])]
           ++ (ODict <$> (ds ++ [snd sd])).
Proof.
  intros Hu. unfold rank_body. intros H.
  set (hc := h ++ [OList acc] ++ (ODict <$> ds)) in *.
  assert (Hlen : length hc = (S (length h) + length ds)%nat).
  { unfold hc. rewrite !length_app, length_fmap. cbn. lia. }
  assert (Hlk : forall ext, lookup_dict (hc ++ ext) u = lookup_dict h u).
  { intros ext. unfold lookup_dict, hc. rewrite <- app_assoc.
    rewrite lookup_app_l by exact Hu. reflexivity. }
  apply M_bind_Ok in H as (d & h1 & Hd & H). apply read_dict_Ok in Hd as [Hd ->].
  apply M_bind_Ok in H as (s & h1 & Hs & H). apply lift_Ok in Hs as [Hs ->].
  apply M_bind_Ok in H as (c & h1 & Hc & H).
  unfold dict_copy in Hc. apply M_bind_Ok in Hc as (d' & h0 & Hd' & Hc).
  apply read_dict_Ok in Hd' as [Hd' ->]. unfold alloc in Hc. injection Hc as <- <-.
  assert (d' = d) as -> by congruence.
  apply M_bind_Ok in H as ([] & h1 & Hset & H).
  unfold dict_setitem in Hset. apply bind_Ok in Hset as (d0 & Hd0 & [= <-]).
  apply lookup_dict_Ok in Hd0. rewrite lookup_app_r in Hd0 by lia.
  rewrite Nat.sub_diag in Hd0. cbn in Hd0. injection Hd0 as <-.
  rewrite insert_app_r_alt in H by lia. rewrite Nat.sub_diag in H. cbn [insert list_insert] in H.
  unfold list_append in H. apply bind_Ok in H as (us & Hus & [= <-]).
  apply lookup_list_Ok in Hus. unfold hc in Hus. rewrite <- !app_assoc in Hus.
  rewrite lookup_app_r in Hus by lia. rewrite Nat.sub_diag in Hus. cbn in Hus.
  injection Hus as <-.
  exists (s, <["match_score" := VNum s]> d). split.
  - unfold scored. rewrite <- (Hlk []), app_nil_r, Hd. cbn. rewrite Hs. reflexivity.
  - rewrite Hlen. unfold hc. rewrite <- !app_assoc.
    rewrite insert_app_r_alt by lia. rewrite Nat.sub_diag. cbn.
    rewrite fmap_app. reflexivity.
Qed.

Lemma rank_loop_Ok p h usl acc ds h2 :
  Forall (fun u => u < length h)%nat usl ->
  for_each (rank_body p (length h)) usl (h ++ [OList acc] ++ (ODict <$> ds))
    = Ok (tt, h2) ->
  exists sds, mapM (scored h p) usl = Ok sds /\
    h2 = h ++ [OList (acc ++ seq (S (length h) + length ds) (length sds))]
           ++ (ODict <$> (ds ++ (snd <$> sds))).
Proof.
  revert acc ds. induction usl as [|u usl IH]; intros acc ds Hwf; cbn [for_each].
  - intros [= <-]. exists []. cbn. rewrite !app_nil_r. auto.
  - intros H. apply M_bind_Ok in H as ([] & h1 & Hb & H).
    apply Forall_cons in Hwf as [Hu Hwf].
    apply rank_body_Ok in Hb as (sd & Hsd & ->); [|exact Hu].
    apply IH in H as (sds & Hsds & ->); [|exact Hwf].
    exists (sd :: sds). split.
    + apply mapM_cons_Ok. eauto.
    + rewrite length_app. cbn [length fmap list_fmap seq].
      rewrite <- !app_assoc. cbn [app].
      replace (S (length h) + (length ds + 1))%nat
        with (S (S (length h) + length ds)) by lia.
      reflexivity.
Qed.

Lemma scored_key h p u s d :
  scored h p u = Ok (s, d) -> d !! "match_score" = Some (VNum s).
Proof.
  unfold scored. intros H. apply bind_Ok in H as (d0 & _ & H).
  apply bind_Ok in H as (s0 & _ & [= <- <-]). apply lookup_insert_eq.
Qed.

Lemma keys_of_copies (pre : store) (sds : list (num * dict)) post :
  Forall (fun sd => snd sd !! "match_score" = Some (VNum (fst sd))) sds ->
  mapM (match_score_key (pre ++ (ODict ∘ snd <$> sds) ++ post))
       (seq (length pre) (length sds))
    = Ok (zip (fst <$> sds) (seq (length pre) (length sds))).
Proof.
  revert pre. induction sds as [|[s d] sds IH]; intros pre Hk; [reflexivity|].
  apply Forall_cons in Hk as [Hsd Hk]. cbn [length seq fmap list_fmap zip zip_with].
  apply mapM_cons_Ok. exists (s, length pre).
  exists (zip (fst <$> sds) (seq (S (length pre)) (length sds))).
  split; [|split; [|reflexivity]].
  - unfold match_score_key, lookup_dict. rewrite lookup_app_r by lia.
    rewrite Nat.sub_diag. cbn. cbn in Hsd. rewrite Hsd. reflexivity.
  - specialize (IH (pre ++ [ODict d]) Hk). rewrite length_app in IH. cbn in IH.
    rewrite Nat.add_1_r in IH. rewrite <- app_assoc in IH. exact IH.
Qed.

Lemma rank_universities_Ok us p h r h' usl :
  lookup_list h us = Ok usl ->
  Forall (fun u => u < length h)%nat usl ->
  rank_universities us p h = Ok (r, h') ->
  exists sds, mapM (scored h p) usl = Ok sds /\ r = length h /\
    h' = h ++ [OList (snd <$> sort_reverse
                        (zip (fst <$> sds) (seq (S (length h)) (length sds))))]
           ++ (ODict ∘ snd <$> sds).
Proof.
  intros Hus Hwf. unfold rank_universities. intros H.
  apply M_bind_Ok in H as (ranked & h1 & Ha & H). unfold alloc in Ha.
  injection Ha as <- <-.
  apply M_bind_Ok in H as (usl' & h1 & Hus' & H). apply read_list_Ok in Hus' as [Hus' ->].
  rewrite (lookup_list_app _ _ _ _ Hus) in Hus'. injection Hus' as <-.
  apply M_bind_Ok in H as ([] & h1 & Hloop & H).
  apply (rank_loop_Ok p h usl [] []) in Hloop as (sds & Hsds & ->); [|exact Hwf].
  apply M_bind_Ok in H as ([] & h2 & Hsort & [= <- <-]).
  exists sds. split; [exact Hsds|]. split; [reflexivity|].
  cbn [app length] in Hsort. rewrite Nat.add_0_r in Hsort.
  unfold list_sort_by_match_score in Hsort.
  apply bind_Ok in Hsort as (xs & Hxs & Hsort).
  apply lookup_list_Ok in Hxs. rewrite lookup_app_r in Hxs by lia.
  rewrite Nat.sub_diag in Hxs. cbn in Hxs. injection Hxs as <-.
  apply bind_Ok in Hsort as (keyed & Hkeyed & [= <-]).
  assert (Hkeys : Forall (fun sd => snd sd !! "match_score" = Some (VNum (fst sd))) sds).
  { apply Forall_lookup_2. intros i [s d] Hi.
    destruct (mapM_Ok_lookup _ _ _ i (usl !!! i) Hsds) as (y & Hy & Hsc).
    - apply list_lookup_lookup_total_lt. apply lookup_lt_Some in Hi.
      rewrite (mapM_Ok_length _ _ _ Hsds) in Hi. exact Hi.
    - rewrite Hi in Hy. injection Hy as <-. eapply scored_key, Hsc. }
  pose proof (keys_of_copies (h ++ [OList (seq (S (length h)) (length sds))]) sds [] Hkeys) as K.
  rewrite length_app in K. cbn [length] in K. rewrite Nat.add_1_r in K.
  rewrite app_nil_r, <- app_assoc in K. rewrite list_fmap_compose in K.
  cbn [app] in K. rewrite K in Hkeyed. injection Hkeyed as <-.
  rewrite insert_app_r_alt by lia. rewrite Nat.sub_diag. cbn.
  rewrite list_fmap_compose. reflexivity.
Qed.

(** ** The pipeline of [recommend] *)

Lemma stage_Ok cond h ext us usl r h' :
  Forall is_list_object ext ->
  lookup_list (h ++ ext) us = Ok usl ->
  list_comp cond us (h ++ ext) = Ok (r, h') ->
  exists out, filterR (reads cond h) usl = Ok out /\
              h' = h ++ (ext ++ [OList out]) /\
              Forall is_list_object (ext ++ [OList out]) /\
              lookup_list h' r = Ok out.
Proof.
  intros Hext Hus H.
  apply list_comp_lists in H as (usl' & out & Hus' & Hf & -> & ->); [|exact Hext].
  assert (usl' = usl) as -> by congruence.
  exists out. split; [exact Hf|]. split; [reflexivity|]. split.
  - apply Forall_app. split; [exact Hext | repeat constructor].
  - apply lookup_list_Ok. rewrite (app_assoc h ext).
    rewrite lookup_app_r by lia. rewrite Nat.sub_diag. reflexivity.
Qed.

Lemma filterR_valid cond h l out :
  filterR (reads cond h) l = Ok out -> Forall (fun u => u < length h)%nat out.
Proof.
  intros H. apply Forall_forall. intros u Hu.
  apply (filterR_Ok_elem _ _ _ u H) in Hu as [_ Hu].
  unfold reads in Hu. apply bind_Ok in Hu as (d & Hd & _).
  apply lookup_dict_Ok in Hd. eapply lookup_lt_Some, Hd.
Qed.

Lemma filterR_Forall {A} (P : A -> Prop) (f : A -> result bool) l out :
  filterR f l = Ok out -> Forall P l -> Forall P out.
Proof.
  intros H HP. apply Forall_forall. intros x Hx.
  apply (filterR_Ok_elem _ _ _ x H) in Hx as [Hx _].
  eapply Forall_forall in HP; eauto.
Qed.

Lemma mapM_ext {A B} (f g : A -> result B) l :
  (forall x, f x = g x) -> mapM f l = mapM g l.
Proof.
  intros H. induction l as [|x l IH]; [reflexivity|]. cbn. rewrite H, IH. reflexivity.
Qed.

Lemma scored_lists h ext p u :
  Forall is_list_object ext -> scored (h ++ ext) p u = scored h p u.
Proof. intros H. unfold scored. rewrite lookup_dict_lists by exact H. reflexivity. Qed.

Theorem recommend_Ok self p h r h' :
  recommend self p h = Ok (r, h') ->
  exists s mid,
    pipeline h self p s /\
    Forall is_list_object mid /\
    r = (length h + length mid)%nat /\
    h' = h ++ mid
           ++ [OList (snd <$> sort_reverse
                        (zip (fst <$> st_scored s) (seq (S r) (length (st_scored s)))))]
           ++ (ODict ∘ snd <$> st_scored s).
Proof.
  unfold recommend. intros H.
  apply M_bind_Ok in H as (u0 & h0 & Hc & H).
  unfold list_copy in Hc. apply M_bind_Ok in Hc as (usl & h0' & Hus & Hc).
  apply read_list_Ok in Hus as [Hus ->]. unfold alloc in Hc. injection Hc as <- <-.
  assert (L0 : lookup_list (h ++ [OList usl]) (length h) = Ok usl).
  { apply lookup_list_Ok. rewrite lookup_app_r by lia. rewrite Nat.sub_diag. reflexivity. }
  assert (E0 : Forall is_list_object [OList usl]) by (repeat constructor).
  apply M_bind_Ok in H as (u1 & h1 & H1 & H).
  destruct (stage_Ok _ _ _ _ _ _ _ E0 L0 H1) as (l1 & F1 & -> & E1 & L1).
  apply M_bind_Ok in H as (u2 & h2 & H2 & H).
  destruct (stage_Ok _ _ _ _ _ _ _ E1 L1 H2) as (l2 & F2 & -> & E2 & L2).
  apply M_bind_Ok in H as (u3 & h3 & H3 & H).
  destruct (stage_Ok _ _ _ _ _ _ _ E2 L2 H3) as (l3 & F3 & -> & E3 & L3).
  apply M_bind_Ok in H as (u4 & h4 & H4 & H).
  destruct (stage_Ok _ _ _ _ _ _ _ E3 L3 H4) as (l4 & F4 & -> & E4 & L4).
  apply M_bind_Ok in H as (u5 & h5 & H5 & H).
  assert (S5 : exists l5 ext5,
             (if py_bool (get p "preferred_countries" (VList []))
              then filterR (reads (country_cond (get p "preferred_countries" (VList []))) h) l4 = Ok l5
              else l5 = l4) /\
             h5 = h ++ ext5 /\ Forall is_list_object ext5 /\ lookup_list h5 u5 = Ok l5).
  { destruct (py_bool (get p "preferred_countries" (VList []))) eqn:B.
    - unfold filter_by_country in H5. rewrite B in H5. cbn [negb] in H5.
      destruct (stage_Ok _ _ _ _ _ _ _ E4 L4 H5) as (l5 & F5 & -> & E5 & L5).
      eauto 10.
    - injection H5 as <- <-. eauto 10. }
  destruct S5 as (l5 & ext5 & F5 & -> & E5 & L5). clear H5.
  apply M_bind_Ok in H as (u6 & h6 & H6 & H).
  assert (S6 : exists l6 ext6,
             (if py_bool (get p "preferred_sectors" (VList []))
              then filterR (reads (sector_cond (get p "preferred_sectors" (VList []))) h) l5 = Ok l6
              else l6 = l5) /\
             h6 = h ++ ext6 /\ Forall is_list_object ext6 /\ lookup_list h6 u6 = Ok l6).
  { destruct (py_bool (get p "preferred_sectors" (VList []))) eqn:B.
    - apply filter_by_sectors_Ok in H6 as (l5' & l6 & L5' & F6 & -> & ->); [|exact B|].
      + assert (l5' = l5) as -> by congruence.
        exists l6, (ext5 ++ [OList l6]). split; [|split; [|split]].
        * rewrite <- F6. apply filterR_ext. intros x _. symmetry.
          apply reads_lists, E5.
        * by rewrite <- app_assoc.
        * apply Forall_app. split; [exact E5 | repeat constructor].
        * apply lookup_list_Ok. rewrite lookup_app_r by lia.
          rewrite Nat.sub_diag. reflexivity.
      + apply lookup_list_Ok in L5. eapply lookup_lt_Some, L5.
    - injection H6 as <- <-. eauto 10. }
  destruct S6 as (l6 & ext6 & F6 & -> & E6 & L6). clear H6.
  assert (V1 : Forall (fun u => u < length h)%nat l1) by (eapply filterR_valid, F1).
  assert (V4 : Forall (fun u => u < length h)%nat l4).
  { eapply filterR_Forall; [exact F4|]. eapply filterR_Forall; [exact F3|].
    eapply filterR_Forall; [exact F2|]. exact V1. }
  assert (V5 : Forall (fun u => u < length h)%nat l5).
  { destruct (py_bool (get p "preferred_countries" (VList []))).
    - eapply filterR_Forall; [exact F5 | exact V4].
    - subst l5. exact V4. }
  assert (V6 : Forall (fun u => u < length h)%nat l6).
  { destruct (py_bool (get p "preferred_sectors" (VList []))).
    - eapply filterR_Forall; [exact F6 | exact V5].
    - subst l6. exact V5. }
  apply (rank_universities_Ok _ _ _ _ _ l6 L6) in H as (sds & Hsds & -> & ->).
  - exists {| st_all := usl; st_gpa := l1; st_budget := l2; st_test := l3;
              st_ielts := l4; st_country := l5; st_sectors := l6; st_scored := sds |}.
    exists ext6. unfold pipeline. cbn [st_all st_gpa st_budget st_test st_ielts st_country st_sectors st_scored].
    split; [|split; [exact E6|split]].
    + repeat split; try assumption.
      rewrite <- Hsds. apply mapM_ext. intros x. symmetry. apply scored_lists, E6.
    + apply length_app.
    + rewrite length_app, <- app_assoc. reflexivity.
  - eapply Forall_impl; [exact V6|]. cbn. intros x Hx. rewrite length_app. lia.
Qed.

(** ** The order on floats and numbers *)

Ltac qcmp :=
  repeat match goal with
    | H : context [Qcompare ?x ?y] |- _ => destruct (Qcompare_spec x y)
    | |- context [Qcompare ?x ?y] => destruct (Qcompare_spec x y)
    end.

Ltac float_cases :=
  unfold fle, fleb, fltb, cmp_le, cmp_lt, cmp_ge, cmp_gt, fcompare, is_nan in *;
  repeat match goal with
    | a : float |- _ => destruct a as [|[]|?]
    end;
  try discriminate; try reflexivity; try tauto; qcmp;
  try discriminate; try reflexivity; try tauto; try lra; try (exfalso; lra).

Lemma fle_refl a : is_nan a = false -> fle a a.
Proof. intros H. float_cases. Qed.

Lemma fle_trans a b c : fle a b -> fle b c -> fle a c.
Proof. intros H1 H2. float_cases. Qed.

Lemma fle_not_nan a b : fle a b -> is_nan a = false /\ is_nan b = false.
Proof. intros H. float_cases. Qed.

Lemma fltb_false_fle a b :
  is_nan a = false -> is_nan b = false -> fltb a b = false -> fle b a.
Proof. intros Ha Hb H. float_cases. Qed.

Lemma fltb_true_fle a b : fltb a b = true -> fle a b.
Proof. intros H. float_cases. Qed.

Lemma fle_fin x y : fle (FFin x) (FFin y) <-> (x <= y)%Q.
Proof. split; intros H; float_cases. Qed.

Lemma fltb_eq_absurd a b k :
  fltb a b = true -> fcompare a k = Some Eq -> fcompare b k = Some Eq -> False.
Proof. intros H1 H2 H3. float_cases. Qed.

(** ** Sorting *)

Lemma num_ltb_false_leb a b :
num_is_nan a = false -> num_is_nan b = false -> num_ltb a b = false -> num_leb b a = true.
Proof. unfold num_is_nan, num_ltb, num_leb, num_compare. apply fltb_false_fle. Qed.

Lemma num_ltb_true_leb a b : num_ltb a b = true -> num_leb a b = true.
Proof. unfold num_ltb, num_leb, num_compare. apply fltb_true_fle. Qed.

Lemma num_leb_trans a b c : num_leb a b = true -> num_leb b c = true -> num_leb a c = true.
Proof. unfold num_leb, num_compare. apply fle_trans. Qed.

Lemma num_ltb_eqb_absurd a b k :
num_ltb a b = true -> num_eqb a k = true -> num_eqb b k = true -> False.
Proof.
unfold num_ltb, num_eqb, num_compare. intros H Ha Hb.
apply (fltb_eq_absurd _ _ (num_exact k) H).
- destruct (fcompare (num_exact a) (num_exact k)) as [[]|]; congruence.
- destruct (fcompare (num_exact b) (num_exact k)) as [[]|]; congruence.
Qed.

#[export] Instance key_is_dec {A} k (x : num * A) : Decision (key_is k x).
Proof. unfold key_is. apply _. Defined.

Section sort.
Context {A : Type}.
Implicit Types (x y : num * A) (l : list (num * A)).


Lemma insert_by_key_perm x l : insert_by_key x l ≡ₚ x :: l.
Proof.
  induction l as [|y l IH]; cbn; [reflexivity|].
  destruct (num_ltb (fst y) (fst x)); [|reflexivity].
  rewrite IH. apply Permutation_swap.
Qed.

Lemma sort_by_key_perm l : sort_by_key l ≡ₚ l.
Proof.
  induction l as [|x l IH]; cbn; [reflexivity|].
  rewrite insert_by_key_perm, IH. reflexivity.
Qed.

Lemma sort_reverse_perm l : sort_reverse l ≡ₚ l.
Proof.
  unfold sort_reverse. rewrite reverse_Permutation, sort_by_key_perm.
  apply reverse_Permutation.
Qed.

(** An element is inserted in front of the elements of equal key. *)
Lemma insert_by_key_stable k x l :
  filter (key_is k) (insert_by_key x l) = filter (key_is k) (x :: l).
Proof.
  induction l as [|y l IH]; cbn [insert_by_key]; [reflexivity|].
  destruct (num_ltb (fst y) (fst x)) eqn:E; [|reflexivity].
  rewrite filter_cons, IH, !filter_cons.
  destruct (decide (key_is k y)) as [Hy|Hy], (decide (key_is k x)) as [Hx|Hx];
    try reflexivity.
  exfalso. exact (num_ltb_eqb_absurd _ _ _ E Hy Hx).
Qed.

Lemma sort_by_key_stable k l :
  filter (key_is k) (sort_by_key l) = filter (key_is k) l.
Proof.
  induction l as [|x l IH]; cbn [sort_by_key]; [reflexivity|].
  rewrite insert_by_key_stable, !filter_cons, IH. reflexivity.
Qed.

Lemma sort_reverse_stable k l :
  filter (key_is k) (sort_reverse l) = filter (key_is k) l.
Proof.
  unfold sort_reverse.
  rewrite filter_reverse, sort_by_key_stable, filter_reverse.
  apply reverse_involutive.
Qed.

Lemma insert_by_key_sorted x l :
  key_ok x -> Forall key_ok l ->
  StronglySorted key_le l -> StronglySorted key_le (insert_by_key x l).
Proof.
  intros Hx Hl Hs. induction Hs as [|y l Hs IH Hy]; cbn [insert_by_key].
  - repeat constructor.
  - apply Forall_cons in Hl as [Hy' Hl].
    destruct (num_ltb (fst y) (fst x)) eqn:E.
    + constructor; [apply IH, Hl|].
      rewrite insert_by_key_perm. constructor; [|exact Hy].
      apply num_ltb_true_leb, E.
    + assert (Hxy : key_le x y) by (apply num_ltb_false_leb; assumption).
      constructor; [constructor; assumption|].
      constructor; [exact Hxy|].
      eapply Forall_impl; [exact Hy|]. intros z Hz. eapply num_leb_trans; eassumption.
Qed.

Lemma sort_by_key_sorted l :
  Forall key_ok l -> StronglySorted key_le (sort_by_key l).
Proof.
  induction l as [|x l IH]; intros Hl; cbn [sort_by_key]; [constructor|].
  apply Forall_cons in Hl as [Hx Hl].
  apply insert_by_key_sorted; [exact Hx| |apply IH, Hl].
  rewrite sort_by_key_perm. exact Hl.
Qed.

Lemma StronglySorted_reverse (R : relation (num * A)) l :
  StronglySorted R l -> StronglySorted (flip R) (reverse l).
Proof.
  induction 1 as [|x l Hs IH Hx]; [constructor|].
  rewrite reverse_cons. apply StronglySorted_app_2; [|exact IH|repeat constructor].
  intros y z Hy Hz. rewrite elem_of_reverse in Hy. apply list_elem_of_singleton in Hz.
  subst z. rewrite Forall_forall in Hx. apply Hx, Hy.
Qed.

(** The result of [sort(reverse=True)] is in non-increasing key order. *)
Lemma sort_reverse_sorted l :
  Forall key_ok l -> StronglySorted (flip key_le) (sort_reverse l).
Proof.
  intros Hl. unfold sort_reverse. apply StronglySorted_reverse, sort_by_key_sorted.
  rewrite reverse_Permutation. exact Hl.
Qed.
End sort.

(** ** Rounding to binary64 is monotone *)

Section rounding.
Local Open Scope Q_scope.

Lemma pow2_pos k : 0 < pow2 k.
Proof. apply Qpower_0_lt. reflexivity. Qed.

Lemma pow2_add a b : pow2 (a + b) == pow2 a * pow2 b.
Proof. apply Qpower_plus. discriminate. Qed.

Lemma pow2_le a b : (a <= b)%Z -> pow2 a <= pow2 b.
Proof. intros H. apply Qpower_le_compat_l; [exact H | discriminate]. Qed.

Lemma pow2_inject k : (0 <= k)%Z -> pow2 k == inject_Z (2 ^ k).
Proof. intros H. unfold pow2. rewrite Zpower_Qpower by exact H. reflexivity. Qed.

Lemma pow2_succ k : pow2 (k + 1) == 2 * pow2 k.
Proof. rewrite pow2_add. change (pow2 1) with 2. ring. Qed.

Lemma pow2_grid e ex : (ex <= e)%Z -> pow2 e == inject_Z (2 ^ (e - ex)) * pow2 ex.
Proof.
  intros H. rewrite <- pow2_inject by lia. rewrite <- pow2_add.
  replace (e - ex + ex)%Z with e by lia. reflexivity.
Qed.

Lemma rhe_bounds x : (Qfloor x <= rhe x <= Qfloor x + 1)%Z.
Proof.
  unfold rhe. destruct (Qcompare _ _); [destruct (Z.even _)|..]; lia.
Qed.

Lemma rhe_mono x y : x <= y -> (rhe x <= rhe y)%Z.
Proof.
  intros Hxy.
  pose proof (Qfloor_resp_le _ _ Hxy) as Hf.
  pose proof (rhe_bounds x) as Bx. pose proof (rhe_bounds y) as By.
  destruct (Z.eq_dec (Qfloor x) (Qfloor y)) as [E|NE]; [|lia].
  unfold rhe in *. rewrite <- E in *.
  destruct (Qcompare_spec (x - inject_Z (Qfloor x)) (1#2)) as [Hx|Hx|Hx];
    destruct (Qcompare_spec (y - inject_Z (Qfloor x)) (1#2)) as [Hy|Hy|Hy];
    try lia; try (exfalso; lra); destruct (Z.even (Qfloor x)); lia.
Qed.

Lemma rhe_Z n : rhe (inject_Z n) = n.
Proof.
  unfold rhe. rewrite Qfloor_Z.
  destruct (Qcompare_spec (inject_Z n - inject_Z n) (1#2)) as [H|H|H];
    try reflexivity; exfalso; lra.
Qed.

Lemma rhe_compat x y : x == y -> rhe x = rhe y.
Proof.
  intros H. apply Z.le_antisymm; apply rhe_mono; rewrite H; apply Qle_refl.
Qed.

Lemma round_grid_mono ex x y : x <= y -> round_grid ex x <= round_grid ex y.
Proof.
  intros H. unfold round_grid.
  apply Qmult_le_compat_r; [| apply Qlt_le_weak, pow2_pos].
  rewrite <- Zle_Qle. apply rhe_mono.
  apply Qmult_le_compat_r; [exact H|]. apply Qlt_le_weak, Qinv_lt_0_compat, pow2_pos.
Qed.

Lemma round_grid_point ex m :
  round_grid ex (inject_Z m * pow2 ex) == inject_Z m * pow2 ex.
Proof.
  unfold round_grid.
  assert (E : inject_Z m * pow2 ex / pow2 ex == inject_Z m).
  { field. pose proof (pow2_pos ex). lra. }
  rewrite (rhe_compat _ _ E), rhe_Z. reflexivity.
Qed.

Lemma round_grid_le ex x m :
  x <= inject_Z m * pow2 ex -> round_grid ex x <= inject_Z m * pow2 ex.
Proof. intros H. rewrite <- (round_grid_point ex m). apply round_grid_mono, H. Qed.

Lemma round_grid_ge ex x m :
  inject_Z m * pow2 ex <= x -> inject_Z m * pow2 ex <= round_grid ex x.
Proof. intros H. rewrite <- (round_grid_point ex m). apply round_grid_mono, H. Qed.

Lemma round_grid_neg_le ex x m :
  x <= - (inject_Z m * pow2 ex) -> round_grid ex x <= - (inject_Z m * pow2 ex).
Proof.
  assert (E : - (inject_Z m * pow2 ex) == inject_Z (- m) * pow2 ex)
    by (rewrite inject_Z_opp; ring).
  rewrite E. apply round_grid_le.
Qed.

Lemma round_grid_neg_ge ex x m :
  - (inject_Z m * pow2 ex) <= x -> - (inject_Z m * pow2 ex) <= round_grid ex x.
Proof.
  assert (E : - (inject_Z m * pow2 ex) == inject_Z (- m) * pow2 ex)
    by (rewrite inject_Z_opp; ring).
  rewrite E. apply round_grid_ge.
Qed.

Lemma pow2_log2_bounds n : (0 < n)%Z ->
  pow2 (Z.log2 n) <= inject_Z n /\ inject_Z n < 2 * pow2 (Z.log2 n).
Proof.
  intros Hn. pose proof (Z.log2_spec n Hn) as [H1 H2].
  pose proof (Z.log2_nonneg n) as H0.
  rewrite <- pow2_succ. rewrite !pow2_inject by lia.
  rewrite <- Zle_Qle, <- Zlt_Qlt.
  replace (Z.log2 n + 1)%Z with (Z.succ (Z.log2 n)) by lia. auto.
Qed.

Lemma ilog2_spec q : 0 < q -> pow2 (ilog2 q) <= q /\ q < pow2 (ilog2 q + 1).
Proof.
  intros Hq. destruct q as [n d]. unfold ilog2. cbn [Qnum Qden].
  assert (Hn : (0 < n)%Z) by (unfold Qlt in Hq; cbn in Hq; lia).
  destruct (pow2_log2_bounds n Hn) as [A1 A2].
  destruct (pow2_log2_bounds (Zpos d) eq_refl) as [B1 B2].
  set (ln := Z.log2 n) in *. set (ld := Z.log2 (Zpos d)) in *.
  assert (EK : pow2 ln == pow2 (ln - ld) * pow2 ld).
  { rewrite <- pow2_add. replace (ln - ld + ld)%Z with ln by lia. reflexivity. }
  assert (EQ : (n # d) * inject_Z (Zpos d) == inject_Z n).
  { rewrite (Qmake_Qdiv n d). field. discriminate. }
  pose proof (pow2_pos ln) as PA. pose proof (pow2_pos ld) as PB.
  pose proof (pow2_pos (ln - ld)) as PK.
  set (q := n # d) in *. set (K := pow2 (ln - ld)) in *.
  set (A := pow2 ln) in *. set (B := pow2 ld) in *.
  set (N := inject_Z n) in *. set (D := inject_Z (Zpos d)) in *.
  assert (U : q < 2 * K).
  { apply (Qmult_lt_r _ _ D); [lra|]. rewrite EQ.
    apply Qlt_le_trans with (2 * (K * B)); [lra|].
    assert (0 <= 2 * K * (D - B)) by (apply Qmult_le_0_compat; lra).
    lra. }
  assert (L : K < 2 * q).
  { apply (Qmult_lt_r _ _ B); [lra|].
    apply Qle_lt_trans with (q * D); [lra|].
    assert (0 < q * (2 * B - D)) by (apply Qmult_lt_0_compat; lra).
    lra. }
  destruct (Qle_bool K q) eqn:T.
  - apply Qle_bool_iff in T. split; [exact T|]. fold K. rewrite pow2_succ. exact U.
  - assert (T' : q < K).
    { apply Qnot_le_lt. intros C. apply Qle_bool_iff in C. congruence. }
    replace (ln - ld - 1 + 1)%Z with (ln - ld)%Z by lia. split; [|exact T'].
    assert (E : K == 2 * pow2 (ln - ld - 1)).
    { unfold K. rewrite <- pow2_succ.
      replace (ln - ld - 1 + 1)%Z with (ln - ld)%Z by lia. reflexivity. }
    lra.
Qed.

Lemma ilog2_mono x y : 0 < x -> x <= y -> (ilog2 x <= ilog2 y)%Z.
Proof.
  intros Hx Hxy. destruct (ilog2_spec x Hx) as [Lx Ux].
  destruct (ilog2_spec y) as [Ly Uy]; [lra|].
  destruct (Z_le_gt_dec (ilog2 x) (ilog2 y)) as [C|C]; [exact C|exfalso].
  assert (pow2 (ilog2 y + 1) <= pow2 (ilog2 x)) by (apply pow2_le; lia). lra.
Qed.

Lemma rounded_pos_mono x y : 0 < x -> x <= y -> rounded x <= rounded y.
Proof.
  intros Hx Hxy. unfold rounded, fexp.
  assert (Ax : Qabs x == x) by (apply Qabs_pos; lra).
  assert (Ay : Qabs y == y) by (apply Qabs_pos; lra).
  destruct (ilog2_spec (Qabs x)) as [Lx Ux]; [lra|].
  destruct (ilog2_spec (Qabs y)) as [Ly Uy]; [lra|].
  assert (M : (ilog2 (Qabs x) <= ilog2 (Qabs y))%Z) by (apply ilog2_mono; lra).
  set (ex := ilog2 (Qabs x)) in *. set (ey := ilog2 (Qabs y)) in *.
  destruct (Z.eq_dec (Z.max (ex - 52) (-1074)) (Z.max (ey - 52) (-1074))) as [E|NE].
  - rewrite E. apply round_grid_mono, Hxy.
  - assert (Hlt : (ex < ey)%Z) by lia.
    assert (Hfy : Z.max (ey - 52) (-1074) = (ey - 52)%Z) by lia.
    assert (Hxp : x <= pow2 ey).
    { assert (pow2 (ex + 1) <= pow2 ey) by (apply pow2_le; lia). lra. }
    apply Qle_trans with (pow2 ey).
    + rewrite (pow2_grid ey (Z.max (ex - 52) (-1074))) by lia.
      apply round_grid_le. rewrite <- pow2_grid by lia. exact Hxp.
    + rewrite Hfy. rewrite (pow2_grid ey (ey - 52)) by lia.
      apply round_grid_ge. rewrite <- pow2_grid by lia. lra.
Qed.

Lemma rounded_neg_mono x y : y < 0 -> x <= y -> rounded x <= rounded y.
Proof.
  intros Hy Hxy. unfold rounded, fexp.
  assert (Ax : Qabs x == - x) by (apply Qabs_neg; lra).
  assert (Ay : Qabs y == - y) by (apply Qabs_neg; lra).
  destruct (ilog2_spec (Qabs x)) as [Lx Ux]; [lra|].
  destruct (ilog2_spec (Qabs y)) as [Ly Uy]; [lra|].
  assert (M : (ilog2 (Qabs y) <= ilog2 (Qabs x))%Z) by (apply ilog2_mono; lra).
  set (ex := ilog2 (Qabs x)) in *. set (ey := ilog2 (Qabs y)) in *.
  destruct (Z.eq_dec (Z.max (ex - 52) (-1074)) (Z.max (ey - 52) (-1074))) as [E|NE].
  - rewrite E. apply round_grid_mono, Hxy.
  - assert (Hlt : (ey < ex)%Z) by lia.
    assert (Hfx : Z.max (ex - 52) (-1074) = (ex - 52)%Z) by lia.
    assert (Hyp : - pow2 ex <= y).
    { assert (pow2 (ey + 1) <= pow2 ex) by (apply pow2_le; lia). lra. }
    apply Qle_trans with (- pow2 ex).
    + rewrite Hfx. rewrite (pow2_grid ex (ex - 52)) by lia.
      apply round_grid_neg_le. rewrite <- pow2_grid by lia. lra.
    + set (f := Z.max (ey - 52) (-1074)).
      rewrite (pow2_grid ex f) by lia.
      apply round_grid_neg_ge. rewrite <- pow2_grid by lia. exact Hyp.
Qed.

Lemma round_grid_0 ex : round_grid ex 0 == 0.
Proof.
  unfold round_grid.
  assert (E : 0 / pow2 ex == inject_Z 0).
  { field. pose proof (pow2_pos ex). lra. }
  rewrite (rhe_compat _ _ E), rhe_Z. ring.
Qed.

Lemma rounded_mono x y : x <= y -> rounded x <= rounded y.
Proof.
  intros Hxy. destruct (Qlt_le_dec 0 x) as [Hx|Hx].
  - apply rounded_pos_mono; assumption.
  - destruct (Qlt_le_dec y 0) as [Hy|Hy].
    + apply rounded_neg_mono; assumption.
    + apply Qle_trans with 0.
      * unfold rounded. rewrite <- (round_grid_0 (fexp x)). apply round_grid_mono, Hx.
      * unfold rounded. rewrite <- (round_grid_0 (fexp y)). apply round_grid_mono, Hy.
Qed.

Lemma rnd_cases q :
  (pow2 1024 <= rounded q /\ rnd q = FInf false) \/
  (rounded q <= - pow2 1024 /\ rnd q = FInf true) \/
  (- pow2 1024 < rounded q /\ rounded q < pow2 1024 /\ rnd q = FFin (Qred (rounded q))).
Proof.
  unfold rnd. fold (rounded q). set (v := rounded q).
  pose proof (pow2_pos 1024) as P.
  destruct (Qle_bool (pow2 1024) (Qabs v)) eqn:E.
  - apply Qle_bool_iff in E. destruct (Qle_bool 0 v) eqn:S.
    + apply Qle_bool_iff in S. left. rewrite Qabs_pos in E by exact S. auto.
    + right; left. assert (S' : v < 0).
      { apply Qnot_le_lt. intros C. apply Qle_bool_iff in C. congruence. }
      rewrite Qabs_neg in E by lra. split; [lra | reflexivity].
  - right; right. assert (E' : Qabs v < pow2 1024).
    { apply Qnot_le_lt. intros C. apply Qle_bool_iff in C. congruence. }
    apply Qabs_Qlt_condition in E'. tauto.
Qed.

Theorem rnd_mono x y : x <= y -> fle (rnd x) (rnd y).
Proof.
  intros H. apply rounded_mono in H. pose proof (pow2_pos 1024) as P.
  destruct (rnd_cases x) as [[X ->]|[[X ->]|(X1 & X2 & ->)]];
    destruct (rnd_cases y) as [[Y ->]|[[Y ->]|(Y1 & Y2 & ->)]];
    try reflexivity; try (exfalso; lra).
  apply fle_fin. rewrite !Qred_correct. exact H.
Qed.

Lemma rnd_not_nan q : is_nan (rnd q) = false.
Proof. destruct (rnd_cases q) as [[_ ->]|[[_ ->]|(_ & _ & ->)]]; reflexivity. Qed.
End rounding.

(** ** Float operations are monotone *)

Lemma fle_pinf a : is_nan a = false -> fle a (FInf false).
Proof. intros H. float_cases. Qed.

Lemma fle_ninf a : is_nan a = false -> fle (FInf true) a.
Proof. intros H. float_cases. Qed.

Lemma flew_fle a b : flew a b -> is_nan a = false -> is_nan b = false -> fle a b.
Proof. intros [H|[H|H]] Ha Hb; [congruence|congruence|exact H]. Qed.

Lemma fle_flew a b : fle a b -> flew a b.
Proof. intros H. right; right. exact H. Qed.

Ltac flew_hyp H :=
  first [ apply fle_fin in H
        | (cbv [fle fleb fcompare cmp_le is_nan] in H; discriminate H)
        | idtac ].

Ltac flew_cases :=
  unfold flew in *;
  repeat match goal with
    | H : _ \/ _ |- _ => destruct H as [H|H]; flew_hyp H
    end;
  cbn;
  first
    [ left; reflexivity
    | right; left; reflexivity
    | right; right; reflexivity
    | right; right; apply fle_pinf, rnd_not_nan
    | right; right; apply fle_ninf, rnd_not_nan
    | idtac ].

Section float_mono.
Local Open Scope Q_scope.

Lemma fadd_mono_l a a' t : flew a a' -> flew (fadd a t) (fadd a' t).
Proof.
  intros H. destruct a as [|[]|x], a' as [|[]|x'], t as [|[]|z]; flew_cases.
  right; right. apply rnd_mono. lra.
Qed.

Lemma fadd_mono_r a a' t : flew a a' -> flew (fadd t a) (fadd t a').
Proof.
  intros H. destruct a as [|[]|x], a' as [|[]|x'], t as [|[]|z]; flew_cases.
  right; right. apply rnd_mono. lra.
Qed.

Lemma fneg_anti a a' : flew a a' -> flew (fneg a') (fneg a).
Proof.
  intros H. destruct a as [|[]|x], a' as [|[]|x']; flew_cases.
  right; right. apply fle_fin. lra.
Qed.

Lemma Qneg_pos y : 0 < y -> Qneg y = false.
Proof.
  intros H. unfold Qneg. destruct (Qle_bool 0 y) eqn:E; [reflexivity|].
  exfalso. assert (0 <= y) as C by lra. apply Qle_bool_iff in C. congruence.
Qed.

Lemma Qeq_bool_pos y : 0 < y -> Qeq_bool y 0 = false.
Proof.
  intros H. destruct (Qeq_bool y 0) eqn:E; [|reflexivity].
  apply Qeq_bool_iff in E. lra.
Qed.

Lemma fmul_mono_l a a' k : 0 < k -> flew a a' -> flew (fmul a (FFin k)) (fmul a' (FFin k)).
Proof.
  intros Hk H.
  destruct a as [|[]|x], a' as [|[]|x']; cbn [fmul];
    rewrite ?(Qeq_bool_pos k Hk), ?(Qneg_pos k Hk); flew_cases.
  right; right. apply rnd_mono. apply Qmult_le_compat_r; lra.
Qed.

(** Division by a positive number. *)
Lemma fdiv_mono_l a a' c :
  fltb (FFin 0) c = true -> flew a a' -> flew (fdiv a c) (fdiv a' c).
Proof.
  intros Hc H. destruct c as [|[]|y]; try discriminate Hc.
  - destruct a as [|[]|x], a' as [|[]|x']; flew_cases.
  - assert (Hy : 0 < y) by (revert Hc; float_cases).
    destruct a as [|[]|x], a' as [|[]|x']; cbn [fdiv];
      rewrite ?(Qneg_pos y Hy); flew_cases.
    right; right. apply rnd_mono. apply Qmult_le_compat_r; [lra|].
    apply Qlt_le_weak, Qinv_lt_0_compat, Hy.
Qed.

Lemma fmin_mono a a' c :
  is_nan c = false -> flew a a' ->
  flew (if fltb c a then c else a) (if fltb c a' then c else a').
Proof.
  intros Hc H.
  destruct (is_nan a) eqn:Na.
  { destruct a; try discriminate. left. destruct c as [|[]|z]; reflexivity. }
  destruct (is_nan a') eqn:Na'.
  { destruct a'; try discriminate. right; left. destruct c as [|[]|z]; reflexivity. }
  pose proof (flew_fle _ _ H Na Na') as Hle. right; right.
  destruct (fltb c a) eqn:E1, (fltb c a') eqn:E2.
  - apply fle_refl, Hc.
  - eapply fle_trans; [apply fltb_true_fle, E1 | exact Hle].
  - apply fltb_false_fle; assumption.
  - exact Hle.
Qed.
End float_mono.

(** ** JSON numbers *)

Section exact.
Local Open Scope Q_scope.

Lemma Qred_inject_Z z : Qred (inject_Z z) = inject_Z z.
Proof.
  unfold Qred, inject_Z.
  pose proof (Z.ggcd_gcd z 1) as G. pose proof (Z.ggcd_correct_divisors z 1) as D.
  destruct (Z.ggcd z 1) as [g [a b]]. cbn in G. rewrite Z.gcd_1_r in G. subst g.
  destruct D as [-> D]. rewrite Z.mul_1_l in D. subst b.
  rewrite Z.mul_1_l. reflexivity.
Qed.

Lemma Qabs_inject_Z z : Qabs (inject_Z z) = inject_Z (Z.abs z).
Proof. reflexivity. Qed.

Lemma round_grid_compat ex x y : x == y -> round_grid ex x == round_grid ex y.
Proof.
  intros H. apply Qle_antisym; apply round_grid_mono; rewrite H; apply Qle_refl.
Qed.

Lemma rounded_int z : json_int z -> rounded (inject_Z z) == inject_Z z.
Proof.
  intros [L U]. unfold rounded.
  destruct (Z.eq_dec z 0%Z) as [->|Hz]; [apply round_grid_0|].
  assert (Ha : 1 <= Qabs (inject_Z z)).
  { rewrite Qabs_inject_Z. change 1 with (inject_Z 1). rewrite <- Zle_Qle. lia. }
  assert (Hb : Qabs (inject_Z z) <= pow2 53).
  { rewrite Qabs_inject_Z. rewrite pow2_inject by lia. rewrite <- Zle_Qle. lia. }
  destruct (ilog2_spec (Qabs (inject_Z z))) as [Le Ue]; [lra|].
  unfold fexp. set (e := ilog2 (Qabs (inject_Z z))) in *.
  assert (He0 : (0 <= e)%Z).
  { destruct (Z_le_gt_dec 0 e) as [?|C]; [assumption|exfalso].
    assert (pow2 (e + 1) <= pow2 0) by (apply pow2_le; lia).
    change (pow2 0) with 1 in *. lra. }
  assert (He : (e <= 53)%Z).
  { destruct (Z_le_gt_dec e 53) as [?|C]; [assumption|exfalso].
    assert (pow2 53 < pow2 e) by (apply Qpower_lt_compat_l; [lia|reflexivity]). lra. }
  replace (Z.max (e - 52) (-1074)) with (e - 52)%Z by lia.
  destruct (Z_le_gt_dec e 52) as [C|C].
  - assert (E : inject_Z z == inject_Z (z * 2 ^ (52 - e)) * pow2 (e - 52)).
    { rewrite inject_Z_mult, <- pow2_inject by lia. rewrite <- Qmult_assoc, <- pow2_add.
      replace (52 - e + (e - 52))%Z with 0%Z by lia. change (pow2 0) with 1. ring. }
    rewrite (round_grid_compat _ _ _ E), round_grid_point. symmetry. exact E.
  - assert (e = 53%Z) as -> by lia.
    assert (Heq : Qabs (inject_Z z) == pow2 53) by lra.
    rewrite Qabs_inject_Z in Heq. rewrite pow2_inject in Heq by lia.
    apply (proj1 (inject_Z_injective _ _)) in Heq.
    assert (E : inject_Z z == inject_Z (z / 2) * pow2 (53 - 52)).
    { change (pow2 (53 - 52)) with (inject_Z 2). rewrite <- inject_Z_mult.
      apply inject_Z_injective. change (2 ^ 53)%Z with 9007199254740992%Z in Heq.
        assert (z = 9007199254740992 \/ z = - 9007199254740992)%Z as [-> | ->] by lia;
          reflexivity. }
    rewrite (round_grid_compat _ _ _ E), round_grid_point. symmetry. exact E.
Qed.

(** An integer of at most 53 bits converts to float without rounding. *)
Lemma rnd_int_exact z : json_int z -> rnd (inject_Z z) = FFin (inject_Z z).
Proof.
  intros Hz. pose proof (rounded_int z Hz) as E.
  assert (B : - pow2 1024 < inject_Z z /\ inject_Z z < pow2 1024).
  { destruct Hz as [L U].
    assert (pow2 53 < pow2 1024) by (apply Qpower_lt_compat_l; [lia|reflexivity]).
    rewrite pow2_inject in H by lia.
    rewrite Zle_Qle in L, U. rewrite inject_Z_opp in L. lra. }
  destruct (rnd_cases (inject_Z z)) as [[X _]|[[X _]|(_ & _ & ->)]]; [lra|lra|].
  rewrite (Qred_complete _ _ E). f_equal. apply Qred_inject_Z.
Qed.
End exact.

Lemma number_as_num v q :
  number v q ->
  exists n, as_num v = Ok n /\ num_exact n = FFin q /\ to_float n = Ok (FFin q).
Proof.
  intros [z Hz|b|q'].
  - exists (NInt z). cbn. rewrite (rnd_int_exact z Hz). auto.
  - exists (NInt (if b then 1 else 0)). cbn. rewrite rnd_int_exact; [auto|].
    destruct b; unfold json_int; lia.
  - exists (NFloat (FFin q')). auto.
Qed.

(** ** Numbers in the engine *)

Lemma get_insert_eq (p : dict) k v d : get (<[k := v]> p) k d = v.
Proof. unfold get. rewrite lookup_insert_eq. reflexivity. Qed.

Lemma get_insert_ne (p : dict) k k' v d : k <> k' -> get (<[k := v]> p) k' d = get p k' d.
Proof. intros H. unfold get. rewrite lookup_insert_ne by exact H. reflexivity. Qed.

Lemma py_compare_number a x b y :
  number a x -> number b y -> py_compare a b = Ok (Some (Qcompare x y)).
Proof. intros [] []; reflexivity. Qed.

Lemma py_gt_number_pos v q :
  number v q -> (0 < q)%Q -> py_gt v (VInt 0) = Ok true.
Proof.
  intros Hv Hq. unfold py_gt.
  rewrite (py_compare_number v q (VInt 0) (inject_Z 0) Hv).
  - cbn. destruct (Qcompare_spec q (inject_Z 0)) as [E|E|E]; [|exfalso|reflexivity].
    + exfalso. revert E Hq. change (inject_Z 0) with 0%Q. intros. lra.
    + revert E Hq. change (inject_Z 0) with 0%Q. intros. lra.
  - constructor. unfold json_int. lia.
Qed.

Lemma num_div_exact n m x y q :
  num_exact n = FFin x -> to_float n = Ok (FFin x) ->
  num_exact m = FFin y -> to_float m = Ok (FFin y) ->
  num_div n m = Ok q -> q = NFloat (rnd (x / y)).
Proof.
  intros En Tn Em Tm. destruct n as [zx|fx], m as [zy|fy]; cbn in En, Em.
  - injection En as <-. injection Em as <-. cbn.
    destruct (zy =? 0); [discriminate|].
    destruct (rnd (inject_Z zx / inject_Z zy)); intros [= <-]; reflexivity.
  - subst fy. unfold num_div. rewrite Tn. cbn.
    destruct (Qeq_bool y 0); [discriminate|]. intros [= <-]. reflexivity.
  - subst fx. unfold num_div. rewrite Tm. cbn.
    destruct (Qeq_bool y 0); [discriminate|]. intros [= <-]. reflexivity.
  - subst fx fy. cbn.
    destruct (Qeq_bool y 0); [discriminate|]. intros [= <-]. reflexivity.
Qed.

Lemma py_div_number a x b y q :
  number a x -> number b y -> py_div a b = Ok q -> q = NFloat (rnd (x / y)).
Proof.
  intros Ha Hb. destruct (number_as_num a x Ha) as (n & An & En & Tn).
  destruct (number_as_num b y Hb) as (m & Am & Em & Tm).
  unfold py_div. rewrite An, Am. cbn. eapply num_div_exact; eassumption.
Qed.

Lemma num_mul_float_int f z :
  json_int z -> num_mul (NFloat f) (NInt z) = Ok (NFloat (fmul f (FFin (inject_Z z)))).
Proof. intros Hz. unfold num_mul, to_float. rewrite (rnd_int_exact z Hz). reflexivity. Qed.

Lemma num_add_int_float z f :
  json_int z -> num_add (NInt z) (NFloat f) = Ok (NFloat (fadd (FFin (inject_Z z)) f)).
Proof. intros Hz. unfold num_add, to_float. rewrite (rnd_int_exact z Hz). reflexivity. Qed.

Lemma num_add_float_mono f1 f2 t b1 b2 :
  flew f1 f2 ->
  num_add (NFloat f1) t = Ok b1 -> num_add (NFloat f2) t = Ok b2 ->
  exists g1 g2, b1 = NFloat g1 /\ b2 = NFloat g2 /\ flew g1 g2.
Proof.
  intros H. unfold num_add. cbn. destruct (to_float t) as [y|]; cbn; [|discriminate].
  intros [= <-] [= <-]. eexists _, _. split; [reflexivity|]. split; [reflexivity|].
  apply fadd_mono_l, H.
Qed.

Lemma num_min_float a c :
  num_min (NFloat a) (NFloat c) = NFloat (if fltb c a then c else a).
Proof.
  unfold num_min, num_ltb, num_compare. cbn [num_exact].
  fold (fltb c a). destruct (fltb c a); reflexivity.
Qed.

Lemma json_int_small z : -1000 <= z <= 1000 -> json_int z.
Proof. unfold json_int. change (2 ^ 53) with 9007199254740992. lia. Qed.

(** The GPA points do not decrease with the GPA. *)
Lemma add_gpa_score_mono u p g1 g2 x1 x2 c a1 a2 :
  number (get u "gpa_competitive" (VInt 0)) c -> (0 < c)%Q ->
  number g1 x1 -> number g2 x2 -> (x1 <= x2)%Q ->
  add_gpa_score (NInt 0) u (<["gpa" := g1]> p) = Ok a1 ->
  add_gpa_score (NInt 0) u (<["gpa" := g2]> p) = Ok a2 ->
  exists f1 f2, a1 = NFloat f1 /\ a2 = NFloat f2 /\ flew f1 f2.
Proof.
  intros Hc Hpos H1 H2 Hx. unfold add_gpa_score. rewrite !get_insert_eq.
  rewrite (py_gt_number_pos _ c Hc Hpos). cbn [mbind result_bind].
  intros A1 A2.
  apply bind_Ok in A1 as (q1 & D1 & A1). apply bind_Ok in A2 as (q2 & D2 & A2).
  apply (py_div_number _ _ _ _ _ H1 Hc) in D1. apply (py_div_number _ _ _ _ _ H2 Hc) in D2.
  subst q1 q2. rewrite num_min_float in A1, A2.
  assert (Hm : flew (if fltb (float_lit (11 # 10)) (rnd (x1 / c))
                     then float_lit (11 # 10) else rnd (x1 / c))
                    (if fltb (float_lit (11 # 10)) (rnd (x2 / c))
                     then float_lit (11 # 10) else rnd (x2 / c))).
  { apply fmin_mono; [apply rnd_not_nan|]. apply fle_flew, rnd_mono.
    apply Qmult_le_compat_r; [exact Hx|]. apply Qlt_le_weak, Qinv_lt_0_compat, Hpos. }
  rewrite num_mul_float_int in A1, A2 by (apply json_int_small; lia).
  cbn [mbind result_bind] in A1, A2.
  rewrite num_add_int_float in A1, A2 by (apply json_int_small; lia).
  apply Ok_inj in A1, A2. subst a1 a2.
  eexists _, _. split; [reflexivity|]. split; [reflexivity|].
  apply fadd_mono_r. apply fmul_mono_l; [reflexivity | exact Hm].
Qed.

Ltac same_step E H1 H2 :=
  destruct E; cbn [mbind result_bind] in H1, H2; [|discriminate H1].

Lemma add_budget_score_mono u p f1 f2 b1 b2 :
  flew f1 f2 ->
  add_budget_score (NFloat f1) u p = Ok b1 ->
  add_budget_score (NFloat f2) u p = Ok b2 ->
  exists g1 g2, b1 = NFloat g1 /\ b2 = NFloat g2 /\ flew g1 g2.
Proof.
  intros H. unfold add_budget_score. intros H1 H2.
  same_step (py_gt (get p "budget" (VInt 0)) (VInt 0)) H1 H2.
  destruct a.
  - same_step (affordability (get u "tuition_usd" (VInt 0)) (get p "budget" (VInt 0))) H1 H2.
    same_step (num_mul a (NInt 25)) H1 H2.
    eapply num_add_float_mono; eassumption.
  - injection H1 as <-. injection H2 as <-. eauto.
Qed.

Lemma add_test_score_mono u p f1 f2 b1 b2 :
  flew f1 f2 ->
  add_test_score (NFloat f1) u p = Ok b1 ->
  add_test_score (NFloat f2) u p = Ok b2 ->
  exists g1 g2, b1 = NFloat g1 /\ b2 = NFloat g2 /\ flew g1 g2.
Proof.
  intros H. unfold add_test_score. intros H1 H2.
  same_step (py_gt (get u "test_benchmark" (VInt 0)) (VInt 0)) H1 H2.
  destruct a.
  - same_step (py_sub (get p "test_score" (VInt 0)) (get u "test_benchmark" (VInt 0))) H1 H2.
    same_step (num_div (num_abs a) (NInt 200)) H1 H2.
    same_step (num_sub (NInt 1) a0) H1 H2.
    same_step (num_mul (num_max (NInt 0) a1) (NInt 20)) H1 H2.
    eapply num_add_float_mono; eassumption.
  - injection H1 as <-. injection H2 as <-. eauto.
Qed.

Lemma add_rank_score_mono u f1 f2 b1 b2 :
  flew f1 f2 ->
  add_rank_score (NFloat f1) u = Ok b1 ->
  add_rank_score (NFloat f2) u = Ok b2 ->
  exists g1 g2, b1 = NFloat g1 /\ b2 = NFloat g2 /\ flew g1 g2.
Proof.
  intros H. unfold add_rank_score. intros H1 H2.
  same_step (py_div (get u "world_rank" (VInt 100)) (VInt 100)) H1 H2.
  same_step (num_sub (NInt 1) a) H1 H2.
  same_step (num_mul (num_max (NInt 0) a0) (NInt 25)) H1 H2.
  eapply num_add_float_mono; eassumption.
Qed.

Lemma py_round_float f n s :
  py_round (NFloat f) n = Ok s -> s = NFloat (round_float n f).
Proof.
  unfold py_round, round_float. destruct f as [|t|q]; try (intros [= <-]; reflexivity).
  destruct (rnd _); intros [= <-]; reflexivity.
Qed.

Lemma round_float_mono n f1 f2 :
  flew f1 f2 -> flew (round_float n f1) (round_float n f2).
Proof.
  intros H. destruct f1 as [|[]|q1], f2 as [|[]|q2]; flew_cases.
  right; right. apply rnd_mono.
  assert (Hs : (0 < inject_Z (10 ^ Z.of_nat n))%Q).
  { change 0%Q with (inject_Z 0). rewrite <- Zlt_Qlt. apply Z.pow_pos_nonneg; lia. }
  apply Qmult_le_compat_r; [|apply Qlt_le_weak, Qinv_lt_0_compat, Hs].
  rewrite <- Zle_Qle. apply rhe_mono. apply Qmult_le_compat_r; [exact H|].
  apply Qlt_le_weak, Hs.
Qed.

Lemma add_budget_score_gpa s u p g :
  add_budget_score s u (<["gpa" := g]> p) = add_budget_score s u p.
Proof. unfold add_budget_score. rewrite get_insert_ne by discriminate. reflexivity. Qed.

Lemma add_test_score_gpa s u p g :
  add_test_score s u (<["gpa" := g]> p) = add_test_score s u p.
Proof. unfold add_test_score. rewrite get_insert_ne by discriminate. reflexivity. Qed.

(** ** Ranges of rounded values *)

Section ranges.
Local Open Scope Q_scope.

Lemma rnd_range lo hi lo' hi' x :
  lo <= x <= hi -> rnd lo = FFin lo' -> rnd hi = FFin hi' ->
  exists q, rnd x = FFin q /\ lo' <= q <= hi'.
Proof.
  intros [L U] El Eh. pose proof (rnd_mono _ _ L) as ML. pose proof (rnd_mono _ _ U) as MU.
  rewrite El in ML. rewrite Eh in MU.
  destruct (rnd x) as [|[]|q]; try discriminate ML; try discriminate MU.
  apply fle_fin in ML, MU. eauto.
Qed.

Lemma rnd_lower lo lo' x :
  lo <= x -> rnd lo = FFin lo' -> at_least lo' (rnd x).
Proof.
  intros L El. pose proof (rnd_mono _ _ L) as ML. rewrite El in ML.
  destruct (rnd x) as [|[]|q]; try discriminate ML.
  - left. reflexivity.
  - right. apply fle_fin in ML. eauto.
Qed.

Lemma rnd_upper hi hi' x :
  x <= hi -> rnd hi = FFin hi' -> at_most hi' (rnd x).
Proof.
  intros U Eh. pose proof (rnd_mono _ _ U) as MU. rewrite Eh in MU.
  destruct (rnd x) as [|[]|q]; try discriminate MU.
  - left. reflexivity.
  - right. apply fle_fin in MU. eauto.
Qed.

Lemma rnd_0 : rnd 0 = FFin 0.
Proof. vm_compute. reflexivity. Qed.

Lemma rnd_1 : rnd 1 = FFin 1.
Proof. vm_compute. reflexivity. Qed.

Lemma to_float_small z : (-1000 <= z <= 1000)%Z -> to_float (NInt z) = Ok (FFin (inject_Z z)).
Proof. intros H. unfold to_float. rewrite rnd_int_exact by (apply json_int_small, H). reflexivity. Qed.

(** Multiplication of a score component by its weight. *)
Lemma num_mul_bounded hi k hk n :
  bounded hi n -> (0 <= k <= 1000)%Z -> rnd (hi * inject_Z k) = FFin hk ->
  exists t, num_mul n (NInt k) = Ok t /\ bounded hk t.
Proof.
  intros [->|(q & -> & Hq)] Hk E.
  - exists (NInt 0). split; [reflexivity | left; reflexivity].
  - rewrite num_mul_float_int by (apply json_int_small; lia). cbn [fmul].
    assert (K : 0 <= inject_Z k) by (change 0 with (inject_Z 0); rewrite <- Zle_Qle; lia).
    destruct (rnd_range 0 (hi * inject_Z k) 0 hk (q * inject_Z k)) as (r & Er & Hr);
      [|exact rnd_0|exact E|].
    + split; [apply Qmult_le_0_compat; lra|]. apply Qmult_le_compat_r; lra.
    + eexists. split; [reflexivity|]. right. exists r. rewrite Er. auto.
Qed.

(** Adding a component to the score. *)
Lemma num_add_bounded a b ab s t :
  bounded a s -> bounded b t -> 0 <= a -> 0 <= b -> rnd (a + b) = FFin ab ->
  exists r, num_add s t = Ok r /\ bounded ab r.
Proof.
  intros [->|(x & -> & Hx)] [->|(y & -> & Hy)] Ha Hb E.
  - exists (NInt 0). split; [reflexivity | left; reflexivity].
  - rewrite num_add_int_float by (apply json_int_small; lia). cbn [fadd].
    destruct (rnd_range 0 (a + b) 0 ab (inject_Z 0 + y)) as (r & Er & Hr);
      [change (inject_Z 0) with 0; lra|exact rnd_0|exact E|].
    eexists. split; [reflexivity|]. right. exists r. rewrite Er. auto.
  - unfold num_add. rewrite to_float_small by lia. cbn [to_float mbind result_bind fadd].
    destruct (rnd_range 0 (a + b) 0 ab (x + inject_Z 0)) as (r & Er & Hr);
      [change (inject_Z 0) with 0; lra|exact rnd_0|exact E|].
    eexists. split; [reflexivity|]. right. exists r. rewrite Er. auto.
  - cbn [num_add to_float mbind result_bind fadd].
    destruct (rnd_range 0 (a + b) 0 ab (x + y)) as (r & Er & Hr);
      [lra|exact rnd_0|exact E|].
    eexists. split; [reflexivity|]. right. exists r. rewrite Er. auto.
Qed.

Lemma bounded_weaken a b n : a <= b -> bounded a n -> bounded b n.
Proof. intros H [->|(q & -> & Hq)]; [left; reflexivity|]. right. exists q. split; [reflexivity|lra]. Qed.

(** [1 - x] for [x] not below [lo]. *)
Lemma one_minus_at_least lo hi f :
  at_least lo f -> rnd (1 + - lo) = FFin hi ->
  exists r, num_sub (NInt 1) (NFloat f) = Ok (NFloat r) /\ at_most hi r.
Proof.
  intros Hf E. unfold num_sub. rewrite to_float_small by lia.
  cbn [to_float mbind result_bind]. eexists. split; [reflexivity|].
  destruct Hf as [->|(q & -> & Hq)].
  - left. reflexivity.
  - unfold fsub. cbn [fneg fadd]. apply (rnd_upper (1 + - lo)); [|exact E].
    change (inject_Z 1) with 1. lra.
Qed.

(** [max(0, r)] *)
Lemma max0_at_most hi r :
  at_most hi r -> bounded hi (num_max (NInt 0) (NFloat r)).
Proof.
  intros Hr. unfold num_max, num_ltb, num_compare. cbn [num_exact].
  destruct Hr as [->|(q & -> & Hq)]; [left; reflexivity|]. cbn.
  destruct (Qcompare_spec (inject_Z 0) q) as [C|C|C]; try (left; reflexivity).
  right. exists q. split; [reflexivity|]. change (inject_Z 0) with 0 in C. lra.
Qed.
End ranges.

Section component_ranges.
Local Open Scope Q_scope.

Lemma py_gt_number v q :
  number v q ->
  py_gt v (VInt 0) = Ok (match Qcompare q 0 with Gt => true | _ => false end).
Proof.
  intros Hv. unfold py_gt.
  rewrite (py_compare_number v q (VInt 0) (inject_Z 0) Hv).
  - reflexivity.
  - constructor. unfold json_int. lia.
Qed.

Lemma py_le_number a x b y :
  number a x -> number b y ->
  py_le a b = Ok (match Qcompare x y with Gt => false | _ => true end).
Proof.
  intros Ha Hb. unfold py_le. rewrite (py_compare_number a x b y Ha Hb).
  cbn. destruct (Qcompare x y); reflexivity.
Qed.

Lemma json_int_bound z : json_int z -> - pow2 53 <= inject_Z z <= pow2 53.
Proof.
  intros [L U]. rewrite pow2_inject by lia. rewrite <- inject_Z_opp, <- !Zle_Qle. lia.
Qed.

Lemma rnd_pow2_53 : rnd (pow2 53) = FFin (pow2 53) /\ rnd (- pow2 53) = FFin (- pow2 53).
Proof. split; vm_compute; reflexivity. Qed.

(** The quotient of two integers of at most 53 bits does not overflow. *)
Lemma int_quotient_finite zx zy :
  json_int zx -> zy <> 0%Z -> exists q, rnd (inject_Z zx / inject_Z zy) = FFin q.
Proof.
  intros Hx Hy. destruct (json_int_bound zx Hx) as [L U]. destruct rnd_pow2_53 as [Ep En].
  assert (R : - pow2 53 <= inject_Z zx / inject_Z zy <= pow2 53).
  { apply Qabs_Qle_condition. unfold Qdiv. rewrite Qabs_Qmult, Qabs_Qinv.
    assert (A : Qabs (inject_Z zx) <= pow2 53) by (apply Qabs_Qle_condition; auto).
    assert (B : 1 <= Qabs (inject_Z zy)).
    { rewrite Qabs_inject_Z. change 1 with (inject_Z 1). rewrite <- Zle_Qle. lia. }
    pose proof (Qabs_nonneg (inject_Z zx)) as A0.
    assert (I : / Qabs (inject_Z zy) <= 1) by (apply Qle_shift_inv_r; lra).
    apply Qle_trans with (Qabs (inject_Z zx) * 1); [|lra].
    rewrite !(Qmult_comm (Qabs (inject_Z zx))). apply Qmult_le_compat_r; assumption. }
  destruct (rnd_range _ _ _ _ _ R En Ep) as (q & E & _). eauto.
Qed.

(** True division of JSON numbers: the correctly rounded quotient. *)
Lemma py_div_total a x b y :
  number a x -> number b y -> ~ y == 0 ->
  py_div a b = Ok (NFloat (rnd (x / y))).
Proof.
  intros Ha Hb Hy. unfold py_div.
  assert (Z : Qeq_bool y 0 = false).
  { destruct (Qeq_bool y 0) eqn:E; [|reflexivity]. apply Qeq_bool_iff in E. contradiction. }
  assert (INT : forall zx zy, json_int zx -> ~ inject_Z zy == 0 ->
            num_div (NInt zx) (NInt zy) = Ok (NFloat (rnd (inject_Z zx / inject_Z zy)))).
  { intros zx zy Hzx Hzy. unfold num_div.
    assert (N : zy <> 0%Z) by (intros ->; apply Hzy; reflexivity).
    destruct (Z.eqb_spec zy 0); [contradiction|]. cbn [fdiv].
    destruct (int_quotient_finite zx zy Hzx N) as (q & ->). reflexivity. }
  assert (B : forall c : bool, json_int (if c then 1 else 0))
    by (intros []; unfold json_int; lia).
  destruct Ha as [zx Hzx|bx|qx], Hb as [zy Hzy|by_|qy]; cbn [as_num mbind result_bind];
    try (apply INT; auto).
  - unfold num_div. rewrite (rnd_int_exact zx Hzx) || unfold to_float.
    cbn [to_float mbind result_bind is_zero]. rewrite ?(rnd_int_exact zx Hzx).
    cbn [mbind result_bind is_zero]. rewrite Z. reflexivity.
  - unfold num_div. cbn [to_float]. rewrite (rnd_int_exact _ (B bx)).
    cbn [mbind result_bind is_zero]. rewrite Z. reflexivity.
  - unfold num_div. cbn [to_float]. rewrite (rnd_int_exact zy Hzy).
    cbn [mbind result_bind is_zero]. rewrite Z. reflexivity.
  - unfold num_div. cbn [to_float]. rewrite (rnd_int_exact _ (B by_)).
    cbn [mbind result_bind is_zero]. rewrite Z. reflexivity.
  - cbn [num_div to_float mbind result_bind is_zero]. rewrite Z. reflexivity.
Qed.

End component_ranges.

Section score_steps.
Local Open Scope Q_scope.

Lemma float_lit_1_1 : float_lit (11 # 10) = FFin q_1_1.
Proof. vm_compute. reflexivity. Qed.

Lemma add_gpa_score_bounded u p g c :
  number (get p "gpa" (VInt 0)) g -> 0 <= g ->
  number (get u "gpa_competitive" (VInt 0)) c ->
  exists s, add_gpa_score (NInt 0) u p = Ok s /\ bounded 33 s.
Proof.
  intros Hg G0 Hc. unfold add_gpa_score. rewrite (py_gt_number _ c Hc).
  destruct (Qcompare_spec c 0) as [C|C|C]; cbn [mbind result_bind];
    try (exists (NInt 0); split; [reflexivity | left; reflexivity]).
  rewrite (py_div_total _ g _ c Hg Hc) by lra. cbn [mbind result_bind].
  rewrite num_min_float, float_lit_1_1.
  assert (R : at_least 0 (rnd (g / c))).
  { apply (rnd_lower 0); [|exact rnd_0]. apply Qle_shift_div_l; lra. }
  assert (M : bounded q_1_1 (NFloat (if fltb (FFin q_1_1) (rnd (g / c))
                                     then FFin q_1_1 else rnd (g / c)))).
  { right. destruct R as [->|(q & -> & Hq)].
    - exists q_1_1. split; [reflexivity|]. split; [discriminate | apply Qle_refl].
    - unfold fltb, fcompare, cmp_lt.
      destruct (Qcompare_spec q_1_1 q) as [E|E|E].
      + exists q. split; [reflexivity|]. lra.
      + exists q_1_1. split; [reflexivity|]. split; [discriminate | apply Qle_refl].
      + exists q. split; [reflexivity|]. lra. }
  destruct (num_mul_bounded q_1_1 30 33 _ M ltac:(lia)) as (t & -> & Ht).
  { vm_compute. reflexivity. }
  cbn [mbind result_bind].
  apply (num_add_bounded 0 33 33); [left; reflexivity | exact Ht | lra | lra |].
  vm_compute. reflexivity.
Qed.

Lemma affordability_bounded tuition t budget b :
  number tuition t -> 0 <= t -> number budget b -> 0 < b ->
  exists a, affordability tuition budget = Ok a /\ bounded 1 a.
Proof.
  intros Ht T0 Hb B0. unfold affordability. rewrite (py_le_number _ t _ b Ht Hb).
  destruct (Qcompare_spec t b) as [C|C|C]; cbn [mbind result_bind];
    try (exists (NInt 0); split; [reflexivity | left; reflexivity]).
  all: rewrite (py_div_total _ t _ b Ht Hb) by lra; cbn [mbind result_bind].
  all: destruct (rnd_range 0 1 0 1 (t / b)) as (v & -> & Hv);
         [ split; [apply Qle_shift_div_l; lra | apply Qle_shift_div_r; lra]
         | exact rnd_0 | exact rnd_1 | ].
  all: unfold num_sub; rewrite to_float_small by lia;
       cbn [to_float mbind result_bind]; unfold fsub; cbn [fneg fadd].
  all: destruct (rnd_range 0 1 0 1 (inject_Z 1 + - v)) as (w & -> & Hw);
         [ change (inject_Z 1) with 1; lra | exact rnd_0 | exact rnd_1 | ].
  all: eexists; split; [reflexivity|]; right; eauto.
Qed.

Lemma add_budget_score_bounded hi hi' s u p b t :
  bounded hi s -> 0 <= hi <= hi' -> rnd (hi + 25) = FFin hi' ->
  number (get p "budget" (VInt 0)) b ->
  number (get u "tuition_usd" (VInt 0)) t -> 0 <= t ->
  exists s', add_budget_score s u p = Ok s' /\ bounded hi' s'.
Proof.
  intros Hs Hhi E Hb Ht T0. unfold add_budget_score. rewrite (py_gt_number _ b Hb).
  destruct (Qcompare_spec b 0) as [C|C|C]; cbn [mbind result_bind];
    try (exists s; split; [reflexivity | eapply bounded_weaken; [|exact Hs]; lra]).
  destruct (affordability_bounded _ t _ b Ht T0 Hb C) as (a & -> & Ha).
  cbn [mbind result_bind].
  destruct (num_mul_bounded 1 25 25 _ Ha ltac:(lia)) as (x & -> & Hx).
  { vm_compute. reflexivity. }
  cbn [mbind result_bind].
  apply (num_add_bounded hi 25 hi'); [exact Hs | exact Hx | lra | lra | exact E].
Qed.
End score_steps.

Section score_steps2.
Local Open Scope Q_scope.

Lemma number_num v q :
  number v q ->
  exists n, as_num v = Ok n /\
    ((exists z, n = NInt z /\ json_int z /\ q = inject_Z z) \/ n = NFloat (FFin q)).
Proof.
  intros [z Hz|b|q'].
  - exists (NInt z). split; [reflexivity|]. left. eauto.
  - exists (NInt (if b then 1 else 0)). split; [reflexivity|]. left.
    eexists. split; [reflexivity|]. split; [|reflexivity].
    destruct b; unfold json_int; lia.
  - exists (NFloat (FFin q')). auto.
Qed.

Lemma rnd_pow2_54 : rnd (pow2 54) = FFin (pow2 54).
Proof. vm_compute. reflexivity. Qed.

(** [abs(d) / 200] of a float difference. *)
Lemma abs_div_float x y :
  exists f, num_div (num_abs (NFloat (fadd (FFin x) (FFin (- y))))) (NInt 200)
            = Ok (NFloat f) /\ at_least 0 f.
Proof.
  cbn [fadd num_abs]. unfold num_div. rewrite to_float_small by lia.
  cbn [to_float mbind result_bind is_zero].
  change (Qeq_bool (inject_Z 200) 0) with false. cbv iota.
  eexists. split; [reflexivity|].
  pose proof (rnd_not_nan (x + - y)) as N.
  destruct (rnd (x + - y)) as [|s|q]; [discriminate N| |].
  - left. reflexivity.
  - cbn [fabs fdiv]. apply (rnd_lower 0); [|exact rnd_0].
    apply Qle_shift_div_l; [reflexivity|]. pose proof (Qabs_nonneg q). lra.
Qed.

Lemma sub_abs_div a x b y :
  number a x -> number b y ->
  exists d f, py_sub a b = Ok d /\
              num_div (num_abs d) (NInt 200) = Ok (NFloat f) /\ at_least 0 f.
Proof.
  intros Ha Hb. unfold py_sub.
  destruct (number_num a x Ha) as (n & -> & Hn).
  destruct (number_num b y Hb) as (m & -> & Hm). cbn [mbind result_bind].
  destruct Hn as [(zx & -> & Hzx & ->)| -> ], Hm as [(zy & -> & Hzy & ->)| -> ].
  - exists (NInt (zx - zy)). cbn [num_sub num_abs]. unfold num_div.
    change (200 =? 0)%Z with false. cbv iota. cbn [fdiv].
    destruct (rnd_range 0 (pow2 54) 0 (pow2 54)
                (inject_Z (Z.abs (zx - zy)) / inject_Z 200)) as (q & -> & Hq);
      [|exact rnd_0|exact rnd_pow2_54|].
    + assert (A : 0 <= inject_Z (Z.abs (zx - zy)) <= pow2 54).
      { rewrite pow2_inject by lia. change 0 with (inject_Z 0). rewrite <- !Zle_Qle.
        destruct Hzx, Hzy. change (2 ^ 54)%Z with (2 * 2 ^ 53)%Z. lia. }
      split.
      * apply Qle_shift_div_l; [reflexivity|]. lra.
      * apply Qle_shift_div_r; [reflexivity|].
        change (inject_Z 200) with 200. pose proof (pow2_pos 54). lra.
    + eexists. split; [reflexivity|]. split; [reflexivity|]. right. exists q.
      split; [reflexivity|]. lra.
  - unfold num_sub. rewrite (rnd_int_exact zx Hzx) || unfold to_float.
    rewrite ?(rnd_int_exact zx Hzx). cbn [mbind result_bind]. unfold fsub. cbn [fneg].
    destruct (abs_div_float (inject_Z zx) y) as (f & Hf & Hf'). eauto.
  - unfold num_sub. cbn [to_float]. rewrite (rnd_int_exact zy Hzy).
    cbn [mbind result_bind]. unfold fsub. cbn [fneg].
    destruct (abs_div_float x (inject_Z zy)) as (f & Hf & Hf'). eauto.
  - cbn [num_sub to_float mbind result_bind]. unfold fsub. cbn [fneg].
    destruct (abs_div_float x y) as (f & Hf & Hf'). eauto.
Qed.

Lemma add_test_score_bounded hi hi' s u p ts tb :
  bounded hi s -> 0 <= hi <= hi' -> rnd (hi + 20) = FFin hi' ->
  number (get p "test_score" (VInt 0)) ts ->
  number (get u "test_benchmark" (VInt 0)) tb ->
  exists s', add_test_score s u p = Ok s' /\ bounded hi' s'.
Proof.
  intros Hs Hhi E Hts Htb. unfold add_test_score. cbv zeta.
  rewrite (py_gt_number _ tb Htb).
  destruct (Qcompare_spec tb 0) as [C|C|C]; cbn [mbind result_bind];
    try (exists s; split; [reflexivity | eapply bounded_weaken; [|exact Hs]; lra]).
  destruct (sub_abs_div _ ts _ tb Hts Htb) as (d & f & -> & Ef & Hf).
  cbn [mbind result_bind]. rewrite Ef. cbn [mbind result_bind].
  destruct (one_minus_at_least 0 1 f Hf) as (r & -> & Hr).
  { vm_compute. reflexivity. }
  cbn [mbind result_bind].
  destruct (num_mul_bounded 1 20 20 _ (max0_at_most 1 r Hr) ltac:(lia)) as (x & -> & Hx).
  { vm_compute. reflexivity. }
  cbn [mbind result_bind].
  apply (num_add_bounded hi 20 hi'); [exact Hs | exact Hx | lra | lra | exact E].
Qed.

Lemma add_rank_score_bounded hi hi' s u w :
  bounded hi s -> 0 <= hi -> rnd (hi + (99 # 4)) = FFin hi' ->
  number (get u "world_rank" (VInt 100)) w -> 1 <= w ->
  exists s', add_rank_score s u = Ok s' /\ bounded hi' s'.
Proof.
  intros Hs Hhi E Hw W1. unfold add_rank_score. cbv zeta.
  rewrite (py_div_total _ w (VInt 100) (inject_Z 100) Hw).
  2: { constructor. apply json_int_small. lia. }
  2: { discriminate. }
  cbn [mbind result_bind].
  assert (Q : at_least q_0_01 (rnd (w / inject_Z 100))).
  { apply (rnd_lower (1 # 100)); [|vm_compute; reflexivity].
    apply Qle_shift_div_l; [reflexivity|]. change (inject_Z 100) with 100. lra. }
  destruct (one_minus_at_least q_0_01 q_0_99 _ Q) as (r & -> & Hr).
  { vm_compute. reflexivity. }
  cbn [mbind result_bind].
  destruct (num_mul_bounded q_0_99 25 (99 # 4) _ (max0_at_most _ r Hr) ltac:(lia))
    as (x & -> & Hx).
  { vm_compute. reflexivity. }
  cbn [mbind result_bind].
  apply (num_add_bounded hi (99 # 4) hi'); [exact Hs | exact Hx | lra | lra | exact E].
Qed.

Lemma py_round_bounded s :
  bounded (411 # 4) s ->
  exists r q, py_round s 2 = Ok r /\ num_exact r = FFin q /\ 0 <= q <= 411 # 4.
Proof.
  intros [->|(q & -> & Hq)].
  - exists (NInt 0), 0. split; [reflexivity|]. split; [reflexivity|]. lra.
  - unfold py_round. change (inject_Z (10 ^ Z.of_nat 2)) with (inject_Z 100).
    assert (R : (0 <= rhe (q * inject_Z 100) <= 10275)%Z).
    { rewrite <- (rhe_Z 0), <- (rhe_Z 10275). split; apply rhe_mono.
      - change (inject_Z 0) with 0. change (inject_Z 100) with 100. lra.
      - change (inject_Z 10275) with 10275. change (inject_Z 100) with 100. lra. }
    destruct R as [R0 R1]. rewrite Zle_Qle in R0, R1.
    destruct (rnd_range 0 (inject_Z 10275 / inject_Z 100) 0 (411 # 4)
                (inject_Z (rhe (q * inject_Z 100)) / inject_Z 100)) as (v & -> & Hv);
      [|exact rnd_0|vm_compute; reflexivity|].
    + split.
      * apply Qle_shift_div_l; [reflexivity|]. change (inject_Z 0) with 0 in R0. lra.
      * apply Qmult_le_compat_r; [exact R1|]. discriminate.
    + exists (NFloat (FFin v)), v. auto.
Qed.

End score_steps2.

(** ** What [recommend] returns *)

Lemma reads_Ok cond h u b :
  reads cond h u = Ok b <-> exists d, lookup_dict h u = Ok d /\ cond d = Ok b.
Proof. unfold reads. apply bind_Ok. Qed.

(** The returned list is the sorted list of the copies, which are stored
    after it in the order of the survivors. *)
Lemma recommend_returns self p h r h' :
  recommend self p h = Ok (r, h') ->
  exists s,
    pipeline h self p s /\
    (exists ext, h' = h ++ ext) /\
    (length h <= r)%nat /\
    lookup_list h' r =
      Ok (snd <$> sort_reverse
                    (zip (fst <$> st_scored s) (seq (S r) (length (st_scored s))))) /\
    (forall i sd, st_scored s !! i = Some sd ->
                  lookup_dict h' (S r + i)%nat = Ok (snd sd)).
Proof.
  intros H. apply recommend_Ok in H as (s & mid & Hp & _ & Hr & ->).
  exists s. split; [exact Hp|]. split; [eauto|]. split; [lia|]. split.
  - apply lookup_list_Ok. rewrite (app_assoc h mid).
    rewrite lookup_app_r by (rewrite length_app; lia).
    rewrite length_app. replace (r - (length h + length mid))%nat with 0%nat by lia.
    reflexivity.
  - intros i sd Hi. apply lookup_dict_Ok.
    rewrite (app_assoc h mid). rewrite lookup_app_r by (rewrite length_app; lia).
    rewrite length_app. replace (S r + i - (length h + length mid))%nat with (S i) by lia.
    rewrite lookup_app_r by (cbn; lia). cbn [length].
    replace (S i - 1)%nat with i by lia.
    rewrite list_lookup_fmap, Hi. reflexivity.
Qed.

Lemma scored_Ok h p u sd :
  scored h p u = Ok sd <->
  exists d sc, lookup_dict h u = Ok d /\ calculate_match_score d p = Ok sc /\
               sd = (sc, <["match_score" := VNum sc]> d).
Proof.
  unfold scored. rewrite bind_Ok. split.
  - intros (d & Hd & H). apply bind_Ok in H as (sc & Hsc & [= <-]). eauto 10.
  - intros (d & sc & Hd & Hsc & ->). exists d. split; [exact Hd|].
    apply bind_Ok. eauto.
Qed.

(** The [i]-th copy is the copy of the [i]-th survivor. *)
Lemma copy_of_survivor self p h r h' s :
  pipeline h self p s ->
  (forall i sd, st_scored s !! i = Some sd -> lookup_dict h' (S r + i)%nat = Ok (snd sd)) ->
  forall i u, st_sectors s !! i = Some u -> copy_of h h' p (S r + i)%nat u.
Proof.
  intros Hp Hc i u Hi. destruct Hp as (_ & _ & _ & _ & _ & _ & _ & Hm).
  destruct (mapM_Ok_lookup _ _ _ _ _ Hm Hi) as (sd & Hsd & Hs).
  apply scored_Ok in Hs as (d & sc & Hd & Hsc & ->).
  exists d, sc. split; [exact Hd|]. split; [exact Hsc|]. apply (Hc i _ Hsd).
Qed.

Lemma elem_of_sorted_copies {A} (ks : list num) (cs : list A) c :
  length ks = length cs ->
  c ∈ snd <$> sort_reverse (zip ks cs) <-> c ∈ cs.
Proof.
  intros Hl. rewrite sort_reverse_perm. rewrite snd_zip by lia. reflexivity.
Qed.

Lemma returned_index self p h (r : nat) s (c : loc) :
  pipeline h self p s ->
  c ∈ snd <$> sort_reverse (zip (fst <$> st_scored s) (seq (S r) (length (st_scored s)))) <->
  exists i u, st_sectors s !! i = Some u /\ c = (S r + i)%nat.
Proof.
  intros Hp. rewrite elem_of_sorted_copies by (rewrite length_fmap, length_seq; reflexivity).
  destruct Hp as (_ & _ & _ & _ & _ & _ & _ & Hm).
  apply mapM_Ok_length in Hm. rewrite elem_of_seq. split.
  - intros [L U]. destruct (lookup_lt_is_Some_2 (st_sectors s) (c - S r)) as [u Hu]; [lia|].
    exists (c - S r)%nat, u. split; [exact Hu | lia].
  - intros (i & u & Hu & ->). apply lookup_lt_Some in Hu. lia.
Qed.

(** A survivor is in the dataset and passed the four mandatory filters. *)
Lemma survivor_passes self p h s u :
  pipeline h self p s -> u ∈ st_sectors s ->
  u ∈ st_all s /\
  exists d, lookup_dict h u = Ok d /\
    gpa_cond p d = Ok true /\ budget_cond p d = Ok true /\
    test_score_cond (get p "test_score" (VInt 0)) (VInt 100) d = Ok true /\
    ielts_cond p d = Ok true.
Proof.
  intros (Ha & Fg & Fb & Ft & Fi & Fc & Fs & _) Hu.
  assert (H5 : u ∈ st_country s).
  { cbv zeta in Fs. destruct (py_bool (get p "preferred_sectors" (VList []))).
    - apply (filterR_Ok_elem _ _ _ u Fs) in Hu. tauto.
    - rewrite <- Fs. exact Hu. }
  assert (H4 : u ∈ st_ielts s).
  { cbv zeta in Fc. destruct (py_bool (get p "preferred_countries" (VList []))).
    - apply (filterR_Ok_elem _ _ _ u Fc) in H5. tauto.
    - rewrite <- Fc. exact H5. }
  apply (filterR_Ok_elem _ _ _ u Fi) in H4 as [H3 Ci].
  apply (filterR_Ok_elem _ _ _ u Ft) in H3 as [H2 Ct].
  apply (filterR_Ok_elem _ _ _ u Fb) in H2 as [H1 Cb].
  apply (filterR_Ok_elem _ _ _ u Fg) in H1 as [H0 Cg].
  split; [exact H0|].
  apply reads_Ok in Cg as (d & Hd & Cg). exists d. split; [exact Hd|].
  apply reads_Ok in Cb as (d1 & Hd1 & Cb). apply reads_Ok in Ct as (d2 & Hd2 & Ct).
  apply reads_Ok in Ci as (d3 & Hd3 & Ci).
  assert (d1 = d) as -> by congruence. assert (d2 = d) as -> by congruence.
  assert (d3 = d) as -> by congruence. auto.
Qed.

(** Every returned record is the fresh, scored copy of a dataset record
    that passed the mandatory filters. *)
Lemma returned_records self p h r h' :
  recommend self p h = Ok (r, h') ->
  exists dataset outl,
    lookup_list h (universities self) = Ok dataset /\
    lookup_list h' r = Ok outl /\
    forall c, c ∈ outl ->
      (length h <= c)%nat /\
      exists u d sc,
        u ∈ dataset /\ lookup_dict h u = Ok d /\
        gpa_cond p d = Ok true /\ budget_cond p d = Ok true /\
        test_score_cond (get p "test_score" (VInt 0)) (VInt 100) d = Ok true /\
        ielts_cond p d = Ok true /\
        calculate_match_score d p = Ok sc /\
        lookup_dict h' c = Ok (<["match_score" := VNum sc]> d).
Proof.
  intros H. apply recommend_returns in H as (s & Hp & _ & Hr & Hl & Hc).
  exists (st_all s). eexists. split; [apply Hp|]. split; [exact Hl|].
  intros c Hin. apply (returned_index self p h r s c Hp) in Hin as (i & u & Hu & ->).
  split; [lia|].
  destruct (copy_of_survivor self p h r h' s Hp Hc i u Hu) as (d & sc & Hd & Hsc & Hd').
  destruct (survivor_passes self p h s u Hp) as (Hall & d0 & Hd0 & Cg & Cb & Ct & Ci).
  { eapply list_elem_of_lookup_2, Hu. }
  assert (d0 = d) as -> by congruence.
  exists u, d, sc. auto 10.
Qed.

Lemma StronglySorted_and {A} (R : relation A) (P : A -> Prop) l :
  StronglySorted R l -> Forall P l ->
  StronglySorted (fun x y => R x y /\ P x /\ P y) l.
Proof.
  induction 1 as [|x l Hs IH Hx]; intros Hl; [constructor|].
  apply Forall_cons in Hl as [Px Pl]. constructor; [apply IH, Pl|].
  rewrite Forall_forall in *. intros y Hy. auto.
Qed.

Lemma filter_keyed h k (l : list (num * loc)) :
  Forall (fun kc => score_at h (snd kc) = Some (fst kc)) l ->
  filter (has_score h k) (snd <$> l) = snd <$> filter (key_is k) l.
Proof.
  induction 1 as [|[k' c] l Hx Hl IH]; [reflexivity|].
  cbn [fmap list_fmap]. rewrite !filter_cons, IH. cbn [snd] in *. cbn [fst] in Hx.
  destruct (decide (has_score h k c)) as [D|D], (decide (key_is k (k', c))) as [E|E];
    try reflexivity; exfalso; unfold has_score, key_is in *; rewrite Hx in D;
    cbn [fst] in E; contradiction.
Qed.

(** The keys used by the sort are the scores stored in the copies. *)
Lemma keyed_scores self p h r h' s :
  pipeline h self p s ->
  (forall i sd, st_scored s !! i = Some sd ->
                lookup_dict h' (S r + i)%nat = Ok (snd sd)) ->
  Forall (fun kc => score_at h' (snd kc) = Some (fst kc))
         (zip (fst <$> st_scored s) (seq (S r) (length (st_scored s)))).
Proof.
  intros Hp Hc. apply Forall_lookup_2. intros i [k c] Hi.
  apply lookup_zip_Some in Hi as [Hk Hs]. cbn [fst snd].
  apply lookup_seq in Hs as [-> Hlt].
  rewrite list_lookup_fmap in Hk.
  destruct (st_scored s !! i) as [[k' d']|] eqn:E; [|discriminate].
  injection Hk as <-.
  destruct Hp as (_ & _ & _ & _ & _ & _ & _ & Hm).
  assert (K : d' !! "match_score" = Some (VNum k')).
  { destruct (lookup_lt_is_Some_2 (st_sectors s) i) as [u Hu].
    - rewrite <- (mapM_Ok_length _ _ _ Hm). exact Hlt.
    - destruct (mapM_Ok_lookup _ _ _ _ _ Hm Hu) as (sd & Hsd & Hs).
      rewrite E in Hsd. injection Hsd as <-. eapply scored_key, Hs. }
  unfold score_at. apply Hc, lookup_dict_Ok in E. cbn [snd] in E. rewrite E, K.
  reflexivity.
Qed.

(** ** Records that no filter rejects *)

Lemma not_false_true c : c = Ok true -> not_false c.
Proof. intros -> b [= <-]. reflexivity. Qed.

Lemma filterR_keeps cond h l out u d :
  filterR (reads cond h) l = Ok out ->
  u ∈ l -> lookup_dict h u = Ok d -> not_false (cond d) -> u ∈ out.
Proof.
  intros F Hu Hd Hc. apply (filterR_Ok_elem _ _ _ u F). split; [exact Hu|].
  destruct (filterR_Ok_all _ _ _ u F Hu) as (b & Hb).
  pose proof Hb as Hb'. apply reads_Ok in Hb' as (d' & Hd' & Hcb).
  assert (d' = d) as -> by congruence. rewrite (Hc b Hcb) in Hb. exact Hb.
Qed.

(** A record that no filter rejects is among the survivors. *)
Lemma pipeline_keeps self p h s u d :
  pipeline h self p s ->
  u ∈ st_all s -> lookup_dict h u = Ok d ->
  not_false (gpa_cond p d) -> not_false (budget_cond p d) ->
  not_false (test_score_cond (get p "test_score" (VInt 0)) (VInt 100) d) ->
  not_false (ielts_cond p d) ->
  (py_bool (get p "preferred_countries" (VList [])) = true ->
   not_false (country_cond (get p "preferred_countries" (VList [])) d)) ->
  (py_bool (get p "preferred_sectors" (VList [])) = true ->
   not_false (sector_cond (get p "preferred_sectors" (VList [])) d)) ->
  u ∈ st_sectors s.
Proof.
  intros (Ha & Fg & Fb & Ft & Fi & Fc & Fs & _) Hu Hd Cg Cb Ct Ci Cc Cs.
  pose proof (filterR_keeps _ _ _ _ _ _ Fg Hu Hd Cg) as H1.
  pose proof (filterR_keeps _ _ _ _ _ _ Fb H1 Hd Cb) as H2.
  pose proof (filterR_keeps _ _ _ _ _ _ Ft H2 Hd Ct) as H3.
  pose proof (filterR_keeps _ _ _ _ _ _ Fi H3 Hd Ci) as H4.
  assert (H5 : u ∈ st_country s).
  { cbv zeta in Fc. destruct (py_bool _).
    - exact (filterR_keeps _ _ _ _ _ _ Fc H4 Hd (Cc eq_refl)).
    - rewrite Fc. exact H4. }
  cbv zeta in Fs. destruct (py_bool _).
  - exact (filterR_keeps _ _ _ _ _ _ Fs H5 Hd (Cs eq_refl)).
  - rewrite Fs. exact H5.
Qed.

(** A survivor has its copy in the returned list. *)
Lemma survivor_returned self p h r h' s u :
  pipeline h self p s ->
  (forall i sd, st_scored s !! i = Some sd ->
                lookup_dict h' (S r + i)%nat = Ok (snd sd)) ->
  u ∈ st_sectors s ->
  exists c, c ∈ snd <$> sort_reverse
                  (zip (fst <$> st_scored s) (seq (S r) (length (st_scored s)))) /\
            copy_of h h' p c u.
Proof.
  intros Hp Hc Hu. apply list_elem_of_lookup_1 in Hu as (i & Hi).
  exists (S r + i)%nat. split.
  - apply (returned_index self p h r s _ Hp). eauto.
  - eapply copy_of_survivor; eauto.
Qed.

Lemma test_score_cond_Ok ts tol d b :
  test_score_cond ts tol d = Ok b ->
  (b = true <-> within_tolerance ts tol d \/ at_benchmark ts d).
Proof.
  unfold test_score_cond, within_tolerance, at_benchmark. intros H.
  apply bind_Ok in H as (diff & Hd & H). apply bind_Ok in H as (w & Hw & H).
  destruct w.
  - injection H as <-. split; [|reflexivity]. intros _. left. eauto.
  - split.
    + intros ->. right. exact H.
    + intros [(diff' & Hd' & Hw')|Hg]; [|congruence].
      assert (diff' = diff) as -> by congruence. congruence.
Qed.

(** ** The profile keys that the engine reads *)

Lemma M_bind_ext {A B} (m : M A) (f g : A -> M B) h :
  (forall a h1, f a h1 = g a h1) -> (m ≫= f) h = (m ≫= g) h.
Proof.
  intros E. unfold mbind, M_bind. destruct (m h) as [[a h1]|e]; [apply E|reflexivity].
Qed.

Lemma for_each_ext {A} (f g : A -> M unit) l h :
  (forall a h1, f a h1 = g a h1) -> for_each f l h = for_each g l h.
Proof.
  intros E. revert h. induction l as [|x l IH]; intros h; [reflexivity|].
  cbn [for_each]. unfold mbind, M_bind. rewrite E.
  destruct (g x h) as [[[] h1]|e]; [apply IH|reflexivity].
Qed.

Lemma same_inputs_get p1 p2 k dflt :
  same_inputs p1 p2 -> k ∈ ["gpa"; "budget"; "test_score"; "ielts_score"] ->
  get p1 k dflt = get p2 k dflt.
Proof. intros (E & _ & _) Hk. unfold get. rewrite (E k Hk). reflexivity. Qed.

Lemma calculate_match_score_ext d p1 p2 :
  same_inputs p1 p2 -> calculate_match_score d p1 = calculate_match_score d p2.
Proof.
  intros E. unfold calculate_match_score, add_gpa_score, add_budget_score, add_test_score.
  rewrite !(same_inputs_get p1 p2 "gpa"), !(same_inputs_get p1 p2 "budget"),
    !(same_inputs_get p1 p2 "test_score") by (exact E || set_solver). reflexivity.
Qed.

Lemma rank_universities_ext us p1 p2 h :
  same_inputs p1 p2 -> rank_universities us p1 h = rank_universities us p2 h.
Proof.
  intros E. unfold rank_universities.
  apply M_bind_ext. intros ranked h1. apply M_bind_ext. intros usl h2.
  unfold mbind at 1 3. unfold M_bind at 1 3.
  rewrite (for_each_ext _ (fun university =>
    d ← read_dict university;
    match_score ← lift (calculate_match_score d p2);
    university_with_score ← dict_copy university;
    dict_setitem university_with_score "match_score" (VNum match_score);;
    list_append ranked university_with_score)); [reflexivity|].
  intros u h3. apply M_bind_ext. intros d h4.
  rewrite (calculate_match_score_ext d p1 p2 E). reflexivity.
Qed.

Lemma recommend_ext self p1 p2 h :
  same_inputs p1 p2 -> recommend self p1 h = recommend self p2 h.
Proof.
  intros E. pose proof E as (_ & Ec & Es). unfold recommend. cbv zeta.
  rewrite Ec, Es.
  rewrite (same_inputs_get p1 p2 "gpa" (VInt 0) E) by set_solver.
  rewrite (same_inputs_get p1 p2 "budget" (VFloat inf) E) by set_solver.
  rewrite (same_inputs_get p1 p2 "test_score" (VInt 0) E) by set_solver.
  rewrite (same_inputs_get p1 p2 "ielts_score" (VInt 0) E) by set_solver.
  do 7 (apply M_bind_ext; intros ? ?). apply rank_universities_ext, E.
Qed.

Lemma same_inputs_empty_absent (p : dict) :
  same_inputs
    (<["preferred_countries" := VList []]> (<["preferred_sectors" := VList []]> p))
    (delete "preferred_countries" (delete "preferred_sectors" p)).
Proof.
  split; [|split].
  - intros k Hk.
    assert (N : k <> "preferred_countries" /\ k <> "preferred_sectors").
    { repeat (apply elem_of_cons in Hk as [-> | Hk]); try (split; discriminate).
      apply elem_of_nil in Hk. destruct Hk. }
    destruct N as [N1 N2].
    rewrite !lookup_insert_ne, !lookup_delete_ne by congruence. reflexivity.
  - unfold get. rewrite lookup_insert_eq, lookup_delete_eq. reflexivity.
  - unfold get. rewrite lookup_insert_ne by discriminate.
    rewrite lookup_insert_eq, lookup_delete_ne by discriminate.
    rewrite lookup_delete_eq. reflexivity.
Qed.

(** ** A profile without a budget *)

Lemma py_le_inf t b :
  py_le t (VFloat inf) = Ok b -> t <> VFloat FNaN -> b = true.
Proof.
  unfold py_le. intros H Hn. apply fmap_Ok in H as (c & Hc & ->).
  destruct t as [|bb|[z|[|[]|q]]|s|l]; cbn in Hc; try discriminate;
    try (injection Hc as <-; reflexivity).
  contradiction.
Qed.

Lemma add_budget_score_no_budget s d (p : dict) :
  p !! "budget" = None -> add_budget_score s d p = Ok s.
Proof.
  intros H. unfold add_budget_score, get. rewrite H. reflexivity.
Qed.

(** ** Worked examples *)

Ltac json_int_tac :=
  unfold json_int; split; intros C; vm_compute in C; discriminate C.

Lemma example_recommend :
  recommend example_self example_profile example_store
  = Ok (fst example_result, snd example_result).
Proof. vm_compute. reflexivity. Qed.

Lemma example_recommend_no_budget :
  recommend example_self example_profile_no_budget example_store
  = Ok (fst example_result_no_budget, snd example_result_no_budget).
Proof. vm_compute. reflexivity. Qed.

(** ** Agreement with the Standard Library's IEEE 754 specification *)

Example example_score_agrees :
  example_score_unrounded = Ok (NFloat (of_spec_float example_score_spec)).
Proof. vm_compute. reflexivity. Qed.

Example rounding_agrees :
  float_lit (11 # 10) = of_spec_float (sf_div (sf 11) (sf 10)) /\
  float_lit (6842 # 100) = of_spec_float (sf_div (sf 6842) (sf 100)) /\
  fmul (rnd (1 # 3)) (rnd (1 # 7))
  = of_spec_float (sf_mul (sf_div (sf 1) (sf 3)) (sf_div (sf 1) (sf 7))) /\
  fadd (rnd (1 # 3)) (rnd (10000000 # 7))
  = of_spec_float (sf_add (sf_div (sf 1) (sf 3)) (sf_div (sf 10000000) (sf 7))).
Proof. repeat apply conj; vm_compute; reflexivity. Qed.

(* ===================================================================== *)
(** * Part III.  The properties of the specification *)
(* ===================================================================== *)

(** ** The budget is respected *)

(** C1.  When the profile has a [budget] key, every record of the list
    returned by [recommend] satisfies [tuition_usd <= budget], a missing
    [tuition_usd] being read as 0.  Hence for every returned record the
    affordability of the scoring step is its first branch,
    [1 - tuition / budget], and never the [else 0]. *)
Theorem C1_budget_respected self p h r h' budget :
  p !! "budget" = Some budget ->
  recommend self p h = Ok (r, h') ->
  exists outl, lookup_list h' r = Ok outl /\
    forall c, c ∈ outl ->
      exists d', lookup_dict h' c = Ok d' /\
        py_le (get d' "tuition_usd" (VInt 0)) budget = Ok true /\
        affordability (get d' "tuition_usd" (VInt 0)) budget
        = (q ← py_div (get d' "tuition_usd" (VInt 0)) budget; num_sub (NInt 1) q).
Proof.
  intros Hb H. apply returned_records in H as (dataset & outl & _ & Hl & Hc).
  exists outl. split; [exact Hl|]. intros c Hin.
  destruct (Hc c Hin) as (_ & u & d & sc & _ & _ & _ & Cb & _ & _ & _ & Hd').
  eexists. split; [exact Hd'|]. rewrite get_insert_ne by discriminate.
  assert (E : get p "budget" (VFloat inf) = budget) by (unfold get; rewrite Hb; reflexivity).
  unfold budget_cond in Cb. rewrite E in Cb.
  split; [exact Cb|]. unfold affordability. rewrite Cb. reflexivity.
Qed.

Lemma C1_witness :
  example_profile !! "budget" = Some (VInt 40000) /\
  exists outl,
    lookup_list (snd example_result) (fst example_result) = Ok outl /\
    forall c, c ∈ outl ->
      exists d', lookup_dict (snd example_result) c = Ok d' /\
        py_le (get d' "tuition_usd" (VInt 0)) (VInt 40000) = Ok true /\
        affordability (get d' "tuition_usd" (VInt 0)) (VInt 40000)
        = (q ← py_div (get d' "tuition_usd" (VInt 0)) (VInt 40000); num_sub (NInt 1) q).
Proof.
  split; [reflexivity|].
  apply (C1_budget_respected example_self example_profile example_store).
  - reflexivity.
  - exact example_recommend.
Defined.

(** ** The minimum GPA is respected *)

(** C2.  When the profile has a [gpa] key, every record of the list returned
    by [recommend] satisfies [gpa >= gpa_min], a missing [gpa_min] being read
    as 0. *)
Theorem C2_gpa_respected self p h r h' gpa :
  p !! "gpa" = Some gpa ->
  recommend self p h = Ok (r, h') ->
  exists outl, lookup_list h' r = Ok outl /\
    forall c, c ∈ outl ->
      exists d', lookup_dict h' c = Ok d' /\
        py_ge gpa (get d' "gpa_min" (VInt 0)) = Ok true.
Proof.
  intros Hg H. apply returned_records in H as (dataset & outl & _ & Hl & Hc).
  exists outl. split; [exact Hl|]. intros c Hin.
  destruct (Hc c Hin) as (_ & u & d & sc & _ & _ & Cg & _ & _ & _ & _ & Hd').
  eexists. split; [exact Hd'|]. rewrite get_insert_ne by discriminate.
  assert (E : get p "gpa" (VInt 0) = gpa) by (unfold get; rewrite Hg; reflexivity).
  unfold gpa_cond in Cg. rewrite E in Cg. exact Cg.
Qed.

Lemma C2_witness :
  example_profile !! "gpa" = Some (VFloat (float_lit (35 # 10))) /\
  exists outl,
    lookup_list (snd example_result) (fst example_result) = Ok outl /\
    forall c, c ∈ outl ->
      exists d', lookup_dict (snd example_result) c = Ok d' /\
        py_ge (VFloat (float_lit (35 # 10))) (get d' "gpa_min" (VInt 0)) = Ok true.
Proof.
  split; [reflexivity|].
  apply (C2_gpa_respected example_self example_profile example_store).
  - reflexivity.
  - exact example_recommend.
Defined.

(** ** The range of the match score *)

(** C3 as stated does not hold.  With every field in its documented range
    (gpa 4.0, budget 50000, test score 1600, IELTS 9.0; competitive GPA 3.0,
    tuition 0, benchmark 1600, world rank 1) the score is 102.75, which is
    above 100. *)
Lemma C3_counterexample :
  number (get top_profile "gpa" (VInt 0)) 4 /\
  number (get top_profile "budget" (VInt 0)) 50000 /\
  number (get top_profile "test_score" (VInt 0)) 1600 /\
  number (get top_profile "ielts_score" (VInt 0)) 9 /\
  number (get top_record "tuition_usd" (VInt 0)) 0 /\
  number (get top_record "world_rank" (VInt 100)) 1 /\
  calculate_match_score top_record top_profile = Ok (NFloat (FFin (411 # 4))) /\
  ~ (411 # 4 <= 100)%Q.
Proof.
  repeat apply conj.
  - vm_compute. apply number_float.
  - apply (number_int 50000). json_int_tac.
  - apply (number_int 1600). json_int_tac.
  - vm_compute. apply number_float.
  - apply (number_int 0). json_int_tac.
  - apply (number_int 1). json_int_tac.
  - vm_compute. reflexivity.
  - intros C. vm_compute in C. apply C. reflexivity.
Qed.

(** C3, amended.  For a record and a profile whose fields are numbers in the
    documented ranges (gpa in [[0, 4]], budget at least 0, test score in
    [[400, 1600]], tuition at least 0, world rank at least 1; any competitive
    GPA and any benchmark), [calculate_match_score] raises no exception and
    returns a number in the interval [[0, 102.75]]. *)
Theorem C3_score_range (u p : dict) (g b ts c t tb w : Q) :
  number (get p "gpa" (VInt 0)) g -> (0 <= g <= 4)%Q ->
  number (get p "budget" (VInt 0)) b -> (0 <= b)%Q ->
  number (get p "test_score" (VInt 0)) ts -> (400 <= ts <= 1600)%Q ->
  number (get u "gpa_competitive" (VInt 0)) c ->
  number (get u "tuition_usd" (VInt 0)) t -> (0 <= t)%Q ->
  number (get u "test_benchmark" (VInt 0)) tb ->
  number (get u "world_rank" (VInt 100)) w -> (1 <= w)%Q ->
  exists s q, calculate_match_score u p = Ok s /\
              num_exact s = FFin q /\ (0 <= q <= 411 # 4)%Q.
Proof.
  intros Hg G Hb B Hts _ Hc Ht T Htb Hw W. unfold calculate_match_score.
  destruct (add_gpa_score_bounded u p g c Hg (proj1 G) Hc) as (s1 & -> & B1).
  cbn [mbind result_bind].
  destruct (add_budget_score_bounded 33 58 s1 u p b t B1) as (s2 & -> & B2);
    [lra | vm_compute; reflexivity | exact Hb | exact Ht | exact T |].
  cbn [mbind result_bind].
  destruct (add_test_score_bounded 58 78 s2 u p ts tb B2) as (s3 & -> & B3);
    [lra | vm_compute; reflexivity | exact Hts | exact Htb |].
  cbn [mbind result_bind].
  destruct (add_rank_score_bounded 78 (411 # 4) s3 u w B3) as (s4 & -> & B4);
    [lra | vm_compute; reflexivity | exact Hw | exact W |].
  cbn [mbind result_bind]. apply py_round_bounded, B4.
Qed.

Lemma C3_witness :
  exists s q, calculate_match_score top_record top_profile = Ok s /\
              num_exact s = FFin q /\ (0 <= q <= 411 # 4)%Q.
Proof.
  apply (C3_score_range top_record top_profile 4 50000 1600 3 0 1600 1).
  - vm_compute. apply number_float.
  - split; discriminate.
  - apply (number_int 50000). json_int_tac.
  - discriminate.
  - apply (number_int 1600). json_int_tac.
  - split; discriminate.
  - vm_compute. apply number_float.
  - apply (number_int 0). json_int_tac.
  - discriminate.
  - apply (number_int 1600). json_int_tac.
  - apply (number_int 1). json_int_tac.
  - discriminate.
Defined.

(** ** The worked example *)

(** C4 as stated does not hold: the score of the example is not 80.92. *)
Lemma C4_counterexample :
  calculate_match_score example_record example_profile
  <> Ok (NFloat (float_lit (8092 # 100))).
Proof. vm_compute. intros H. discriminate H. Qed.

(** C4, amended.  The record of the example passes the four mandatory
    filters of the pipeline.  Its components are 29.17 (the GPA component,
    rounded to two decimals), 6.25 (affordability, [(1 - 30000/40000) * 25]),
    18.0 and 15.0, and [calculate_match_score] returns 68.42; [recommend] on
    the dataset that holds this record alone returns it with the score
    68.42. *)
Theorem C4_worked_example :
  gpa_cond example_profile example_record = Ok true /\
  budget_cond example_profile example_record = Ok true /\
  test_score_cond (get example_profile "test_score" (VInt 0)) (VInt 100) example_record
  = Ok true /\
  ielts_cond example_profile example_record = Ok true /\
  (g ← add_gpa_score (NInt 0) example_record example_profile; py_round g 2)
  = Ok (NFloat (float_lit (2917 # 100))) /\
  add_budget_score (NInt 0) example_record example_profile
  = Ok (NFloat (float_lit (625 # 100))) /\
  add_test_score (NInt 0) example_record example_profile = Ok (NFloat (float_lit 18)) /\
  add_rank_score (NInt 0) example_record = Ok (NFloat (float_lit 15)) /\
  calculate_match_score example_record example_profile
  = Ok (NFloat (float_lit (6842 # 100))) /\
  match recommend {| universities := 1%nat |} example_profile single_store with
  | Ok (r, h') =>
      match lookup_list h' r with
      | Ok [c] => score_at h' c
      | _ => None
      end
  | Raise _ => None
  end = Some (NFloat (float_lit (6842 # 100))).
Proof. repeat apply conj; vm_compute; reflexivity. Qed.

(** ** The score is monotone in the GPA *)

(** C5.  For a record whose [gpa_competitive] is a number greater than 0 and
    two profiles that differ only in their [gpa], numbers [g1 <= g2], the
    score for [g1] is not greater than the score for [g2], whenever both
    scores are returned and neither is NaN. *)
Theorem C5_gpa_monotone (u p : dict) (g1 g2 : value) (x1 x2 c : Q) (s1 s2 : num) :
  number (get u "gpa_competitive" (VInt 0)) c -> (0 < c)%Q ->
  number g1 x1 -> number g2 x2 -> (x1 <= x2)%Q ->
  calculate_match_score u (<["gpa" := g1]> p) = Ok s1 ->
  calculate_match_score u (<["gpa" := g2]> p) = Ok s2 ->
  num_is_nan s1 = false -> num_is_nan s2 = false ->
  num_leb s1 s2 = true.
Proof.
  intros Hc Hpos H1 H2 Hx C1 C2 N1 N2. unfold calculate_match_score in C1, C2.
  apply bind_Ok in C1 as (a1 & A1 & C1). apply bind_Ok in C2 as (a2 & A2 & C2).
  destruct (add_gpa_score_mono _ _ _ _ _ _ _ _ _ Hc Hpos H1 H2 Hx A1 A2)
    as (fa1 & fa2 & -> & -> & Ha).
  rewrite add_budget_score_gpa in C1, C2.
  apply bind_Ok in C1 as (b1 & B1 & C1). apply bind_Ok in C2 as (b2 & B2 & C2).
  destruct (add_budget_score_mono _ _ _ _ _ _ Ha B1 B2) as (fb1 & fb2 & -> & -> & Hb).
  rewrite add_test_score_gpa in C1, C2.
  apply bind_Ok in C1 as (t1 & T1 & C1). apply bind_Ok in C2 as (t2 & T2 & C2).
  destruct (add_test_score_mono _ _ _ _ _ _ Hb T1 T2) as (ft1 & ft2 & -> & -> & Ht).
  apply bind_Ok in C1 as (r1 & R1 & C1). apply bind_Ok in C2 as (r2 & R2 & C2).
  destruct (add_rank_score_mono _ _ _ _ _ Ht R1 R2) as (fr1 & fr2 & -> & -> & Hr).
  apply py_round_float in C1, C2. subst s1 s2.
  unfold num_leb, num_compare. cbn [num_exact]. unfold num_is_nan in N1, N2.
  cbn [num_exact] in N1, N2.
  exact (flew_fle _ _ (round_float_mono 2 _ _ Hr) N1 N2).
Qed.

Lemma C5_witness : num_leb (score_with_gpa 3) (score_with_gpa (7 # 2)) = true.
Proof.
  apply (C5_gpa_monotone example_record example_profile
           (VFloat (FFin 3)) (VFloat (FFin (7 # 2))) 3 (7 # 2) q_3_6).
  - vm_compute. apply number_float.
  - reflexivity.
  - apply number_float.
  - apply number_float.
  - discriminate.
  - vm_compute. reflexivity.
  - vm_compute. reflexivity.
  - vm_compute. reflexivity.
  - vm_compute. reflexivity.
Defined.

(** ** The test-score filter *)

(** C6.  [filter_by_test_score] returns, in their order, the records with
    [abs(test_benchmark - test_score) <= tolerance] or
    [test_score >= test_benchmark], a missing benchmark being read as 0; so a
    record whose benchmark the test score reaches is kept whatever the
    tolerance.  Without a tolerance argument the filter uses 50.  [recommend]
    calls it with 100: every record it returns satisfies the condition with
    tolerance 100, and every record of the dataset that satisfies it and
    passes the other filters is returned. *)
Theorem C6_test_score_filter :
  (forall us ts tol h r h',
      filter_by_test_score us ts tol h = Ok (r, h') ->
      exists usl outl,
        lookup_list h us = Ok usl /\ lookup_list h' r = Ok outl /\
        sublist outl usl /\
        (forall u, u ∈ outl <->
           u ∈ usl /\ exists d, lookup_dict h u = Ok d /\
             (within_tolerance ts (default (VInt 50) tol) d \/ at_benchmark ts d)) /\
        (forall u d, u ∈ usl -> lookup_dict h u = Ok d -> at_benchmark ts d -> u ∈ outl)) /\
  (forall us ts h,
      filter_by_test_score us ts None h = filter_by_test_score us ts (Some (VInt 50)) h) /\
  (forall self p h r h',
      recommend self p h = Ok (r, h') ->
      exists dataset outl,
        lookup_list h (universities self) = Ok dataset /\
        lookup_list h' r = Ok outl /\
        (forall c, c ∈ outl -> exists u d,
            u ∈ dataset /\ lookup_dict h u = Ok d /\ copy_of h h' p c u /\
            (within_tolerance (get p "test_score" (VInt 0)) (VInt 100) d \/
             at_benchmark (get p "test_score" (VInt 0)) d)) /\
        (forall u d, u ∈ dataset -> lookup_dict h u = Ok d ->
            gpa_cond p d = Ok true -> budget_cond p d = Ok true ->
            (within_tolerance (get p "test_score" (VInt 0)) (VInt 100) d \/
             at_benchmark (get p "test_score" (VInt 0)) d) ->
            ielts_cond p d = Ok true ->
            (py_bool (get p "preferred_countries" (VList [])) = true ->
             country_cond (get p "preferred_countries" (VList [])) d = Ok true) ->
            (py_bool (get p "preferred_sectors" (VList [])) = true ->
             sector_cond (get p "preferred_sectors" (VList [])) d = Ok true) ->
            exists c, c ∈ outl /\ copy_of h h' p c u)).
Proof.
  split; [|split].
  - intros us ts tol h r h' H. unfold filter_by_test_score in H.
    apply list_comp_Ok in H as (usl & outl & Hus & F & -> & ->).
    exists usl, outl. split; [exact Hus|]. split.
    { apply lookup_list_Ok. rewrite lookup_app_r by lia. rewrite Nat.sub_diag. reflexivity. }
    split; [eapply filterR_sublist, F|].
    assert (K : forall u, u ∈ outl <->
              u ∈ usl /\ exists d, lookup_dict h u = Ok d /\
                (within_tolerance ts (default (VInt 50) tol) d \/ at_benchmark ts d)).
    { intros u. rewrite (filterR_Ok_elem _ _ _ u F). split.
      - intros [Hu Hc]. split; [exact Hu|]. apply reads_Ok in Hc as (d & Hd & Hc).
        exists d. split; [exact Hd|]. apply (test_score_cond_Ok _ _ _ _ Hc). reflexivity.
      - intros [Hu (d & Hd & Hc)]. split; [exact Hu|].
        destruct (filterR_Ok_all _ _ _ u F Hu) as (b & Hb). pose proof Hb as Hb'.
        apply reads_Ok in Hb' as (d' & Hd' & Hcb). assert (d' = d) as -> by congruence.
        apply (test_score_cond_Ok _ _ _ _ Hcb) in Hc. subst b. exact Hb. }
    split; [exact K|]. intros u d Hu Hd Hg. apply K. eauto.
  - reflexivity.
  - intros self p h r h' H.
    pose proof (returned_records _ _ _ _ _ H) as (dataset & outl & Hds & Hl & Hc).
    exists dataset, outl. split; [exact Hds|]. split; [exact Hl|]. split.
    + intros c Hin.
      destruct (Hc c Hin) as (_ & u & d & sc & Hu & Hd & _ & _ & Ct & _ & Hsc & Hd').
      exists u, d. split; [exact Hu|]. split; [exact Hd|]. split.
      * exists d, sc. auto.
      * apply (test_score_cond_Ok _ _ _ _ Ct). reflexivity.
    + intros u d Hu Hd Cg Cb Ct Ci Cc Cs.
      apply recommend_returns in H as (s & Hp & _ & _ & Hl' & Hcp).
      rewrite Hl' in Hl. apply Ok_inj in Hl. subst outl.
      assert (Hds' : st_all s = dataset) by (destruct Hp as [Ha _]; congruence).
      apply (survivor_returned self p h r h' s u Hp Hcp).
      apply (pipeline_keeps self p h s u d Hp); try (apply not_false_true; assumption).
      * rewrite Hds'. exact Hu.
      * exact Hd.
      * intros b Hb. apply (test_score_cond_Ok _ _ _ _ Hb). exact Ct.
      * intros E. apply not_false_true, Cc, E.
      * intros E. apply not_false_true, Cs, E.
Qed.

Lemma C6_witness :
  exists dataset outl,
    lookup_list example_store (universities example_self) = Ok dataset /\
    lookup_list (snd example_result) (fst example_result) = Ok outl /\
    forall c, c ∈ outl -> exists u d,
      u ∈ dataset /\ lookup_dict example_store u = Ok d /\
      copy_of example_store (snd example_result) example_profile c u /\
      (within_tolerance (get example_profile "test_score" (VInt 0)) (VInt 100) d \/
       at_benchmark (get example_profile "test_score" (VInt 0)) d).
Proof.
  destruct (proj2 (proj2 C6_test_score_filter)
              example_self example_profile example_store _ _ example_recommend)
    as (dataset & outl & Hd & Hl & Hc & _).
  exists dataset, outl. auto.
Defined.

(** ** Empty preference lists *)

(** C7.  [filter_by_country] and [filter_by_sectors] called with an empty
    list (or with [None]) return the very list they were given and leave the
    store as it is; [recommend] returns the same result for a profile whose
    [preferred_countries] and [preferred_sectors] are empty lists as for the
    same profile without these two keys. *)
Theorem C7_empty_preferences :
  (forall us countries h,
      py_bool countries = false -> filter_by_country us countries h = Ok (us, h)) /\
  (forall us sectors h,
      py_bool sectors = false -> filter_by_sectors us sectors h = Ok (us, h)) /\
  py_bool (VList []) = false /\ py_bool VNone = false /\
  (forall self p h,
      recommend self
        (<["preferred_countries" := VList []]> (<["preferred_sectors" := VList []]> p)) h
      = recommend self
        (delete "preferred_countries" (delete "preferred_sectors" p)) h).
Proof.
  split; [|split; [|split; [|split]]].
  - intros us c h Hc. unfold filter_by_country. rewrite Hc. reflexivity.
  - intros us c h Hc. unfold filter_by_sectors. rewrite Hc. reflexivity.
  - reflexivity.
  - reflexivity.
  - intros self p h. apply recommend_ext, same_inputs_empty_absent.
Qed.

Lemma C7_witness :
  py_bool (VList []) = false /\
  filter_by_country 3%nat (VList []) example_store = Ok (3%nat, example_store).
Proof.
  split; [reflexivity|].
  apply (proj1 C7_empty_preferences 3%nat (VList []) example_store). reflexivity.
Defined.

(** ** The order of the returned list *)

(** C8.  When no attached score is NaN, the list returned by [recommend] is
    sorted by non-increasing [match_score], and the records with one and the
    same score are in the order in which their originals survive the filters
    (the order of the dataset): the returned list is a permutation of the
    list of the copies in that order, and both lists have the same records
    of every score, in the same order. *)
Theorem C8_sorted_stable self p h r h' outl :
  recommend self p h = Ok (r, h') ->
  lookup_list h' r = Ok outl ->
  (forall c k, c ∈ outl -> score_at h' c = Some k -> num_is_nan k = false) ->
  StronglySorted (score_ge h') outl /\
  exists dataset survivors ranked,
    lookup_list h (universities self) = Ok dataset /\
    sublist survivors dataset /\
    Forall2 (copy_of h h' p) ranked survivors /\
    outl ≡ₚ ranked /\
    forall k, filter (has_score h' k) outl = filter (has_score h' k) ranked.
Proof.
  intros H Hl Hnan. apply recommend_returns in H as (s & Hp & _ & Hr & Hl' & Hc).
  rewrite Hl' in Hl. injection Hl as <-.
  set (keyed := zip (fst <$> st_scored s) (seq (S r) (length (st_scored s)))) in *.
  pose proof (keyed_scores self p h r h' s Hp Hc) as Hk. fold keyed in Hk.
  assert (Hlen : (length (seq (S r) (length (st_scored s)))
                  <= length (fst <$> st_scored s))%nat)
    by (rewrite length_fmap, length_seq; lia).
  assert (Hk' : Forall (fun kc => score_at h' (snd kc) = Some (fst kc)) (sort_reverse keyed)).
  { rewrite sort_reverse_perm. exact Hk. }
  assert (Hok : Forall key_ok keyed).
  { rewrite Forall_forall in Hk |- *. intros [k c] Hin. unfold key_ok. cbn [fst].
    apply (Hnan c k); [|apply (Hk _ Hin)].
    apply list_elem_of_fmap. exists (k, c). split; [reflexivity|].
    rewrite sort_reverse_perm. exact Hin. }
  split.
  - apply (StronglySorted_fmap _ (fun x y => flip key_le x y /\
        score_at h' (snd x) = Some (fst x) /\ score_at h' (snd y) = Some (fst y))).
    + intros [ka a] [kb b] (Hle & Ha & Hb). cbn [fst snd] in *.
      exists ka, kb. auto.
    + apply StronglySorted_and; [apply sort_reverse_sorted, Hok | exact Hk'].
  - exists (st_all s), (st_sectors s), (seq (S r) (length (st_scored s))).
    destruct Hp as (Ha & Fg & Fb & Ft & Fi & Fc & Fs & Hm).
    split; [exact Ha|]. split; [|split; [|split]].
    + assert (S5 : sublist (st_sectors s) (st_country s)).
      { cbv zeta in Fs. destruct (py_bool _); [eapply filterR_sublist, Fs|].
        rewrite Fs. reflexivity. }
      assert (S4 : sublist (st_country s) (st_ielts s)).
      { cbv zeta in Fc. destruct (py_bool _); [eapply filterR_sublist, Fc|].
        rewrite Fc. reflexivity. }
      rewrite S5, S4, (filterR_sublist _ _ _ Fi), (filterR_sublist _ _ _ Ft),
        (filterR_sublist _ _ _ Fb). eapply filterR_sublist, Fg.
    + apply Forall2_same_length_lookup_2.
      * rewrite length_seq. apply (mapM_Ok_length _ _ _ Hm).
      * intros i c u Hi Hu. apply lookup_seq in Hi as [-> _].
        eapply copy_of_survivor; [|exact Hc|exact Hu].
        unfold pipeline. eauto 10.
    + rewrite sort_reverse_perm. unfold keyed. rewrite snd_zip by exact Hlen. reflexivity.
    + intros k. rewrite (filter_keyed _ _ _ Hk'), sort_reverse_stable.
      rewrite <- (filter_keyed _ _ _ Hk). unfold keyed. rewrite snd_zip by exact Hlen.
      reflexivity.
Qed.

Lemma C8_witness :
  StronglySorted (score_ge (snd example_result)) [11; 10; 12]%nat /\
  exists dataset survivors ranked,
    lookup_list example_store (universities example_self) = Ok dataset /\
    sublist survivors dataset /\
    Forall2 (copy_of example_store (snd example_result) example_profile) ranked survivors /\
    [11; 10; 12]%nat ≡ₚ ranked /\
    forall k, filter (has_score (snd example_result) k) [11; 10; 12]%nat
              = filter (has_score (snd example_result) k) ranked.
Proof.
  apply (C8_sorted_stable example_self example_profile example_store
           (fst example_result) (snd example_result)).
  - exact example_recommend.
  - vm_compute. reflexivity.
  - intros c k Hc.
    repeat (apply elem_of_cons in Hc as [-> | Hc]);
      try (vm_compute; intros [= <-]; reflexivity).
    apply elem_of_nil in Hc. destruct Hc.
Defined.

(** ** The dataset is left as it was *)

(** C9.  A call of [recommend] changes no object of the store it was given:
    the recommender's list and every record of the dataset are afterwards
    what they were before.  Every element of the returned list is a record
    allocated by the call, the copy of a record of the dataset with which it
    agrees on every key other than [match_score], where it holds the score of
    that record. *)
Theorem C9_dataset_unchanged self p h r h' :
  recommend self p h = Ok (r, h') ->
  (forall l o, h !! l = Some o -> h' !! l = Some o) /\
  exists dataset outl,
    lookup_list h (universities self) = Ok dataset /\
    lookup_list h' (universities self) = Ok dataset /\
    lookup_list h' r = Ok outl /\
    forall c, c ∈ outl ->
      h !! c = None /\
      exists u d d' sc,
        u ∈ dataset /\ lookup_dict h u = Ok d /\ lookup_dict h' u = Ok d /\
        lookup_dict h' c = Ok d' /\
        calculate_match_score d p = Ok sc /\
        d' !! "match_score" = Some (VNum sc) /\
        forall k, k <> "match_score" -> d' !! k = d !! k.
Proof.
  intros H. pose proof (recommend_returns _ _ _ _ _ H) as (s & _ & (ext & ->) & _).
  assert (F : forall l o, h !! l = Some o -> (h ++ ext) !! l = Some o).
  { intros l o Hl. rewrite lookup_app_l; [exact Hl|]. eapply lookup_lt_Some, Hl. }
  split; [exact F|].
  apply returned_records in H as (dataset & outl & Hds & Hl & Hc).
  exists dataset, outl. split; [exact Hds|]. split; [|split; [exact Hl|]].
  - apply lookup_list_Ok. apply F. apply lookup_list_Ok, Hds.
  - intros c Hin.
    destruct (Hc c Hin) as (Hfresh & u & d & sc & Hu & Hd & _ & _ & _ & _ & Hsc & Hd').
    split; [apply lookup_ge_None; exact Hfresh|].
    exists u, d, (<["match_score" := VNum sc]> d), sc.
    split; [exact Hu|]. split; [exact Hd|]. split.
    { apply lookup_dict_Ok, F. apply lookup_dict_Ok, Hd. }
    split; [exact Hd'|]. split; [exact Hsc|]. split; [apply lookup_insert_eq|].
    intros k Hk. apply lookup_insert_ne. congruence.
Qed.

Lemma C9_witness :
  (forall l o, example_store !! l = Some o -> snd example_result !! l = Some o) /\
  exists dataset outl,
    lookup_list example_store (universities example_self) = Ok dataset /\
    lookup_list (snd example_result) (universities example_self) = Ok dataset /\
    lookup_list (snd example_result) (fst example_result) = Ok outl /\
    forall c, c ∈ outl ->
      example_store !! c = None /\
      exists u d d' sc,
        u ∈ dataset /\ lookup_dict example_store u = Ok d /\
        lookup_dict (snd example_result) u = Ok d /\
        lookup_dict (snd example_result) c = Ok d' /\
        calculate_match_score d example_profile = Ok sc /\
        d' !! "match_score" = Some (VNum sc) /\
        forall k, k <> "match_score" -> d' !! k = d !! k.
Proof.
  apply (C9_dataset_unchanged example_self example_profile example_store).
  exact example_recommend.
Defined.

(** ** A profile without a budget *)

(** C10.  When the profile has no [budget] key, [recommend] compares every
    tuition with [float('inf')]: a record of the dataset whose tuition is not
    NaN and which passes the other filters is returned.  The scoring step
    reads the budget as 0 and adds nothing for affordability: the score of
    every returned record is the rounded sum of the GPA, test-score and rank
    components alone. *)
Theorem C10_missing_budget self p h r h' :
  p !! "budget" = None ->
  recommend self p h = Ok (r, h') ->
  exists dataset outl,
    lookup_list h (universities self) = Ok dataset /\
    lookup_list h' r = Ok outl /\
    (forall u d,
        u ∈ dataset -> lookup_dict h u = Ok d ->
        get d "tuition_usd" (VInt 0) <> VFloat FNaN ->
        gpa_cond p d = Ok true ->
        test_score_cond (get p "test_score" (VInt 0)) (VInt 100) d = Ok true ->
        ielts_cond p d = Ok true ->
        (py_bool (get p "preferred_countries" (VList [])) = true ->
         country_cond (get p "preferred_countries" (VList [])) d = Ok true) ->
        (py_bool (get p "preferred_sectors" (VList [])) = true ->
         sector_cond (get p "preferred_sectors" (VList [])) d = Ok true) ->
        exists c, c ∈ outl /\ copy_of h h' p c u) /\
    (forall s d, add_budget_score s d p = Ok s) /\
    (forall c, c ∈ outl ->
       exists u d sc,
         u ∈ dataset /\ lookup_dict h u = Ok d /\
         lookup_dict h' c = Ok (<["match_score" := VNum sc]> d) /\
         budget_cond p d = py_le (get d "tuition_usd" (VInt 0)) (VFloat inf) /\
         (s ← add_gpa_score (NInt 0) d p;
          s ← add_test_score s d p;
          s ← add_rank_score s d;
          py_round s 2) = Ok sc).
Proof.
  intros Hb H.
  pose proof (returned_records _ _ _ _ _ H) as (dataset & outl & Hds & Hl & Hc).
  exists dataset, outl. split; [exact Hds|]. split; [exact Hl|].
  assert (Eb : get p "budget" (VFloat inf) = VFloat inf)
    by (unfold get; rewrite Hb; reflexivity).
  split; [|split].
  - intros u d Hu Hd Hn Cg Ct Ci Cc Cs.
    apply recommend_returns in H as (s & Hp & _ & _ & Hl' & Hcp).
    rewrite Hl' in Hl. apply Ok_inj in Hl. subst outl.
    assert (Hds' : st_all s = dataset) by (destruct Hp as [Ha _]; congruence).
    apply (survivor_returned self p h r h' s u Hp Hcp).
    apply (pipeline_keeps self p h s u d Hp); try (apply not_false_true; assumption).
    + rewrite Hds'. exact Hu.
    + exact Hd.
    + intros b Hle. unfold budget_cond in Hle. rewrite Eb in Hle.
      apply (py_le_inf _ _ Hle Hn).
    + intros E. apply not_false_true, Cc, E.
    + intros E. apply not_false_true, Cs, E.
  - intros s d. apply add_budget_score_no_budget, Hb.
  - intros c Hin.
    destruct (Hc c Hin) as (_ & u & d & sc & Hu & Hd & _ & _ & _ & _ & Hsc & Hd').
    exists u, d, sc. split; [exact Hu|]. split; [exact Hd|]. split; [exact Hd'|].
    split; [unfold budget_cond; rewrite Eb; reflexivity|].
    unfold calculate_match_score in Hsc.
    destruct (add_gpa_score (NInt 0) d p) as [s1|]; [|discriminate Hsc].
    cbn [mbind result_bind] in Hsc |- *.
    rewrite (add_budget_score_no_budget s1 d p Hb) in Hsc. exact Hsc.
Qed.

Lemma C10_witness :
  example_profile_no_budget !! "budget" = None /\
  exists dataset outl,
    lookup_list example_store (universities example_self) = Ok dataset /\
    lookup_list (snd example_result_no_budget) (fst example_result_no_budget)
    = Ok outl /\
    length outl = length dataset /\
    forall s d, add_budget_score s d example_profile_no_budget = Ok s.
Proof.
  split; [reflexivity|].
  destruct (C10_missing_budget example_self example_profile_no_budget example_store
              _ _ eq_refl example_recommend_no_budget)
    as (dataset & outl & Hd & Hl & _ & Hs & _).
  exists dataset, outl. repeat apply conj; [exact Hd | exact Hl | | exact Hs].
  vm_compute in Hd, Hl. apply Ok_inj in Hd, Hl. subst dataset outl. reflexivity.
Defined.

(* ===================================================================== *)
(** * Part IV.  Lemmas on the pipeline, the score and the request handlers *)
(* ===================================================================== *)

Lemma M_bind_eq {A B} (m : M A) (f : A -> M B) h :
  (m ≫= f) h = match m h with Ok (a, h') => f a h' | Raise e => Raise e end.
Proof. reflexivity. Qed.

Lemma list_comp_eq cond us h ext usl :
  Forall is_list_object ext -> lookup_list (h ++ ext) us = Ok usl ->
  list_comp cond us (h ++ ext) =
    match filterR (reads cond h) usl with
    | Ok out => Ok (length (h ++ ext), h ++ (ext ++ [OList out]))
    | Raise e => Raise e
    end.
Proof.
  intros Hext Hus. unfold list_comp. rewrite Hus. cbn [mbind result_bind].
  rewrite (filterR_ext _ (reads cond h)).
  - destruct (filterR (reads cond h) usl); [|reflexivity]. cbn [mbind result_bind].
    unfold alloc. rewrite <- app_assoc. reflexivity.
  - intros x _. apply (reads_lists cond h ext x Hext).
Qed.

Lemma sectors_body_eq sectors h acc u :
  sectors_body sectors (length h) u (h ++ [OList acc]) =
    match reads (sector_cond sectors) h u with
    | Ok b => Ok (tt, h ++ [OList (if b : bool then acc ++ [u] else acc)])
    | Raise e => Raise e
    end.
Proof.
  unfold sectors_body, reads, sector_cond. rewrite M_bind_eq. unfold read_dict.
  rewrite (lookup_dict_lists h [OList acc]) by (repeat constructor).
  destruct (lookup_dict h u) as [d|e]; [|reflexivity]. cbn [mbind result_bind].
  rewrite M_bind_eq. unfold lift at 1.
  destruct (py_lower _) as [ts|e]; [|reflexivity]. cbn [mbind result_bind].
  rewrite M_bind_eq. unfold lift.
  destruct (any_sector ts sectors) as [[]|e]; [| |reflexivity].
  - unfold list_append, lookup_list. rewrite lookup_app_r by lia.
    rewrite Nat.sub_diag. cbn. rewrite insert_app_r_alt by lia.
    rewrite Nat.sub_diag. reflexivity.
  - reflexivity.
Qed.

Lemma sectors_loop_eq sectors h usl acc :
  for_each (sectors_body sectors (length h)) usl (h ++ [OList acc]) =
    match filterR (reads (sector_cond sectors) h) usl with
    | Ok out => Ok (tt, h ++ [OList (acc ++ out)])
    | Raise e => Raise e
    end.
Proof.
  revert acc. induction usl as [|u usl IH]; intros acc; cbn [for_each filterR].
  - cbn. rewrite app_nil_r. reflexivity.
  - rewrite M_bind_eq, sectors_body_eq.
    destruct (reads (sector_cond sectors) h u) as [b|e]; [|reflexivity].
    cbn [mbind result_bind]. rewrite IH.
    destruct (filterR _ usl) as [out|e]; [|reflexivity]. cbn [mbind result_bind].
    destruct b; [rewrite <- app_assoc|]; reflexivity.
Qed.

Lemma filter_by_sectors_eq us sectors h ext usl :
  py_bool sectors = true ->
  Forall is_list_object ext -> lookup_list (h ++ ext) us = Ok usl ->
  filter_by_sectors us sectors (h ++ ext) =
    match filterR (reads (sector_cond sectors) h) usl with
    | Ok out => Ok (length (h ++ ext), h ++ (ext ++ [OList out]))
    | Raise e => Raise e
    end.
Proof.
  intros Hs Hext Hus. unfold filter_by_sectors. rewrite Hs. cbn [negb].
  rewrite M_bind_eq. unfold alloc at 1. rewrite M_bind_eq. unfold read_list.
  rewrite (lookup_list_app _ _ _ _ Hus). cbn [mbind result_bind].
  rewrite M_bind_eq.
  change (for_each _ usl ((h ++ ext) ++ [OList []]))
    with (for_each (sectors_body sectors (length (h ++ ext))) usl ((h ++ ext) ++ [OList []])).
  rewrite sectors_loop_eq.
  rewrite (filterR_ext _ (reads (sector_cond sectors) h)).
  - destruct (filterR _ usl); [|reflexivity]. cbn. rewrite <- app_assoc. reflexivity.
  - intros x _. apply reads_lists, Hext.
Qed.

Lemma rank_body_eq p h acc ds u :
  (u < length h)%nat ->
  rank_body p (length h) u (h ++ [OList acc] ++ (ODict <$> ds)) =
    match scored h p u with
    | Ok sd => Ok (tt, h ++ [OList (acc ++ [(S (length h) + length ds)%nat])]
                         ++ (ODict <$> (ds ++ [snd sd])))
    | Raise e => Raise e
    end.
Proof.
  intros Hu. unfold rank_body, scored.
  set (hc := h ++ [OList acc] ++ (ODict <$> ds)).
  assert (Hlen : length hc = (S (length h) + length ds)%nat).
  { unfold hc. rewrite !length_app, length_fmap. cbn. lia. }
  assert (Hlk : lookup_dict hc u = lookup_dict h u).
  { unfold lookup_dict, hc. rewrite lookup_app_l by exact Hu. reflexivity. }
  rewrite M_bind_eq. unfold read_dict at 1. rewrite Hlk.
  destruct (lookup_dict h u) as [d|e] eqn:Hd; [|reflexivity]. cbn [mbind result_bind].
  rewrite M_bind_eq. unfold lift.
  destruct (calculate_match_score d p) as [s|e]; [|reflexivity]. cbn [mbind result_bind].
  rewrite M_bind_eq. unfold dict_copy. rewrite M_bind_eq. unfold read_dict.
  rewrite Hlk. cbn [mbind result_bind]. unfold alloc.
  rewrite M_bind_eq. unfold dict_setitem, lookup_dict.
  rewrite lookup_app_r by lia. rewrite Nat.sub_diag. cbn [lookup list_lookup mbind result_bind].
  rewrite insert_app_r_alt by lia. rewrite Nat.sub_diag. cbn [insert list_insert].
  unfold list_append, lookup_list. unfold hc. rewrite <- !app_assoc.
  rewrite lookup_app_r by lia. rewrite Nat.sub_diag. cbn [lookup list_lookup app mbind result_bind snd].
  rewrite insert_app_r_alt by lia. rewrite Nat.sub_diag. cbn [insert list_insert app].
  rewrite length_app. cbn [length]. rewrite length_fmap, fmap_app.
  replace (length h + S (length ds))%nat with (S (length h) + length ds)%nat by lia.
  reflexivity.
Qed.

Lemma rank_loop_eq p h usl acc ds :
  Forall (fun u => u < length h)%nat usl ->
  for_each (rank_body p (length h)) usl (h ++ [OList acc] ++ (ODict <$> ds)) =
    match mapM (scored h p) usl with
    | Ok sds => Ok (tt, h ++ [OList (acc ++ seq (S (length h) + length ds) (length sds))]
                          ++ (ODict <$> (ds ++ (snd <$> sds))))
    | Raise e => Raise e
    end.
Proof.
  revert acc ds. induction usl as [|u usl IH]; intros acc ds Hwf; cbn [for_each mapM].
  - cbn. rewrite !app_nil_r. reflexivity.
  - apply Forall_cons in Hwf as [Hu Hwf].
    rewrite M_bind_eq, (rank_body_eq _ _ _ _ _ Hu).
    destruct (scored h p u) as [sd|e]; [|reflexivity]. cbn [mbind result_bind].
    rewrite (IH _ _ Hwf).
    destruct (mapM (scored h p) usl) as [sds|e]; [|reflexivity].
    cbn [mbind result_bind mret result_ret]. rewrite length_app.
    cbn [length fmap list_fmap seq]. rewrite <- !app_assoc. cbn [app].
    replace (S (length h) + (length ds + 1))%nat
      with (S (S (length h) + length ds)) by lia.
    reflexivity.
Qed.

Lemma mapM_scored_keys h p usl sds :
  mapM (scored h p) usl = Ok sds ->
  Forall (fun sd => snd sd !! "match_score" = Some (VNum (fst sd))) sds.
Proof.
  revert sds. induction usl as [|u usl IH]; intros sds.
  - intros [= <-]. constructor.
  - rewrite mapM_cons_Ok. intros ([s d] & k & Hy & Hk & ->). constructor; [|auto].
    eapply scored_key, Hy.
Qed.

Lemma rank_universities_eq us p h usl :
  lookup_list h us = Ok usl ->
  Forall (fun u => u < length h)%nat usl ->
  rank_universities us p h =
    match mapM (scored h p) usl with
    | Ok sds =>
        Ok (length h,
            h ++ [OList (snd <$> sort_reverse
                           (zip (fst <$> sds) (seq (S (length h)) (length sds))))]
              ++ (ODict ∘ snd <$> sds))
    | Raise e => Raise e
    end.
Proof.
  intros Hus Hwf. unfold rank_universities.
  rewrite M_bind_eq. unfold alloc at 1. rewrite M_bind_eq. unfold read_list.
  rewrite (lookup_list_app _ _ _ _ Hus). cbn [mbind result_bind].
  rewrite M_bind_eq.
  change (for_each _ usl (h ++ [OList []]))
    with (for_each (rank_body p (length h)) usl (h ++ [OList []] ++ (ODict <$> []))).
  rewrite (rank_loop_eq p h usl [] [] Hwf).
  destruct (mapM (scored h p) usl) as [sds|e] eqn:Hsds; [|reflexivity].
  cbn [app length]. rewrite Nat.add_0_r. rewrite M_bind_eq.
  unfold list_sort_by_match_score, lookup_list.
  rewrite lookup_app_r by lia. rewrite Nat.sub_diag. cbn [lookup list_lookup app mbind result_bind].
  pose proof (keys_of_copies (h ++ [OList (seq (S (length h)) (length sds))]) sds []
                (mapM_scored_keys _ _ _ _ Hsds)) as K.
  rewrite length_app in K. cbn [length] in K. rewrite Nat.add_1_r in K.
  rewrite app_nil_r, <- app_assoc in K. rewrite list_fmap_compose in K.
  cbn [app] in K. rewrite K. cbn [mbind result_bind].
  rewrite insert_app_r_alt by lia. rewrite Nat.sub_diag. cbn.
  rewrite list_fmap_compose. reflexivity.
Qed.

Lemma lookup_list_last h ext l :
  lookup_list (h ++ (ext ++ [OList l])) (length (h ++ ext)) = Ok l.
Proof.
  apply lookup_list_Ok. rewrite app_assoc. rewrite lookup_app_r by lia.
  rewrite Nat.sub_diag. reflexivity.
Qed.

Lemma Forall_lists_snoc ext l :
  Forall is_list_object ext -> Forall is_list_object (ext ++ [OList l]).
Proof. intros H. apply Forall_app. split; [exact H | repeat constructor]. Qed.

Lemma country_stage_eq (pc : value) u h ext l :
  Forall is_list_object ext -> lookup_list (h ++ ext) u = Ok l ->
  (if py_bool pc then filter_by_country u pc else mret u) (h ++ ext) =
    match optional_stage country_cond pc h l with
    | Ok l' => Ok (if py_bool pc then length (h ++ ext) else u,
                   h ++ (ext ++ if py_bool pc then [OList l'] else []))
    | Raise e => Raise e
    end.
Proof.
  intros Hext Hl. unfold optional_stage, filter_by_country.
  destruct (py_bool pc); cbn [negb].
  - rewrite (list_comp_eq _ _ h ext l Hext Hl). reflexivity.
  - rewrite app_nil_r. reflexivity.
Qed.

Lemma sectors_stage_eq (ps : value) u h ext l :
  Forall is_list_object ext -> lookup_list (h ++ ext) u = Ok l ->
  (if py_bool ps then filter_by_sectors u ps else mret u) (h ++ ext) =
    match optional_stage sector_cond ps h l with
    | Ok l' => Ok (if py_bool ps then length (h ++ ext) else u,
                   h ++ (ext ++ if py_bool ps then [OList l'] else []))
    | Raise e => Raise e
    end.
Proof.
  intros Hext Hl. unfold optional_stage.
  destruct (py_bool ps) eqn:B.
  - rewrite (filter_by_sectors_eq _ _ h ext l B Hext Hl). reflexivity.
  - rewrite app_nil_r. reflexivity.
Qed.

Lemma optional_stage_Forall (P : loc -> Prop) cond pref h l l' :
  optional_stage cond pref h l = Ok l' -> Forall P l -> Forall P l'.
Proof.
  unfold optional_stage. destruct (py_bool pref).
  - apply filterR_Forall.
  - intros [= <-]. auto.
Qed.

(** [recommend] computes the lists of [run_pipeline], in the same order and
    with the same exceptions. *)
Lemma recommend_eq self p h :
  recommend self p h =
    match run_pipeline h self p with
    | Ok s => Ok (result_loc h p s, result_store h p s)
    | Raise e => Raise e
    end.
Proof.
  unfold recommend, run_pipeline. cbv zeta.
  rewrite M_bind_eq. unfold list_copy. rewrite M_bind_eq. unfold read_list.
  destruct (lookup_list h (universities self)) as [l0|e]; [|reflexivity].
  cbn [mbind result_bind]. unfold alloc.
  assert (E0 : Forall is_list_object [OList l0]) by (repeat constructor).
  pose proof (lookup_list_last h [] l0) as L0. rewrite app_nil_r in L0. cbn [app] in L0.
  rewrite M_bind_eq. unfold filter_by_gpa.
  rewrite (list_comp_eq _ _ h [OList l0] l0 E0 L0).
  change (filterR _ l0) with (filterR (reads (gpa_cond p) h) l0).
  destruct (filterR (reads (gpa_cond p) h) l0) as [l1|e] eqn:F1; [|reflexivity].
  cbn [mbind result_bind].
  pose proof (Forall_lists_snoc _ l1 E0) as E1.
  pose proof (lookup_list_last h [OList l0] l1) as L1.
  rewrite M_bind_eq. unfold filter_by_budget.
  rewrite (list_comp_eq _ _ h _ l1 E1 L1).
  change (filterR _ l1) with (filterR (reads (budget_cond p) h) l1).
  destruct (filterR (reads (budget_cond p) h) l1) as [l2|e] eqn:F2; [|reflexivity].
  cbn [mbind result_bind].
  pose proof (Forall_lists_snoc _ l2 E1) as E2.
  pose proof (lookup_list_last h _ l2 : lookup_list (h ++ (([OList l0] ++ [OList l1]) ++ [OList l2])) _ = _) as L2.
  rewrite M_bind_eq. unfold filter_by_test_score.
  change (default (VInt 50) (Some (VInt 100))) with (VInt 100). cbv zeta.
  rewrite (list_comp_eq _ _ h _ l2 E2 L2).
  destruct (filterR (reads (test_score_cond _ _) h) l2) as [l3|e] eqn:F3; [|reflexivity].
  cbn [mbind result_bind].
  pose proof (Forall_lists_snoc _ l3 E2) as E3.
  pose proof (lookup_list_last h _ l3 : lookup_list (h ++ ((([OList l0] ++ [OList l1]) ++ [OList l2]) ++ [OList l3])) _ = _) as L3.
  rewrite M_bind_eq. unfold filter_by_ielts.
  rewrite (list_comp_eq _ _ h _ l3 E3 L3).
  change (filterR _ l3) with (filterR (reads (ielts_cond p) h) l3).
  destruct (filterR (reads (ielts_cond p) h) l3) as [l4|e] eqn:F4; [|reflexivity].
  cbn [mbind result_bind].
  pose proof (Forall_lists_snoc _ l4 E3) as E4.
  pose proof (lookup_list_last h _ l4 : lookup_list (h ++ (((([OList l0] ++ [OList l1]) ++ [OList l2]) ++ [OList l3]) ++ [OList l4])) _ = _) as L4.
  set (ext4 := (((([OList l0] ++ [OList l1]) ++ [OList l2]) ++ [OList l3]) ++ [OList l4])) in *.
  set (pc := get p "preferred_countries" (VList [])).
  set (ps := get p "preferred_sectors" (VList [])).
  assert (V1 : Forall (fun u => u < length h)%nat l1) by (eapply filterR_valid, F1).
  assert (V4 : Forall (fun u => u < length h)%nat l4).
  { eapply filterR_Forall; [exact F4|]. eapply filterR_Forall; [exact F3|].
    eapply filterR_Forall; [exact F2|]. exact V1. }
  rewrite M_bind_eq. rewrite (country_stage_eq pc _ h ext4 l4 E4 L4).
  destruct (optional_stage country_cond pc h l4) as [l5|e] eqn:F5; [|reflexivity].
  cbn [mbind result_bind].
  assert (E5 : Forall is_list_object (ext4 ++ if py_bool pc then [OList l5] else [])).
  { apply Forall_app. split; [exact E4|]. destruct (py_bool pc); repeat constructor. }
  match goal with |- context [filter_by_sectors ?u ps] => set (u5 := u) in * end.
  assert (L5 : lookup_list (h ++ (ext4 ++ if py_bool pc then [OList l5] else [])) u5
               = Ok l5).
  { unfold u5. unfold optional_stage in F5. destruct (py_bool pc).
    - apply lookup_list_last.
    - injection F5 as <-. rewrite app_nil_r. exact L4. }
  rewrite M_bind_eq. rewrite (sectors_stage_eq ps u5 h _ l5 E5 L5).
  destruct (optional_stage sector_cond ps h l5) as [l6|e] eqn:F6; [|reflexivity].
  cbn [mbind result_bind].
  set (ext5 := ext4 ++ (if py_bool pc then [OList l5] else [])) in *.
  assert (E6 : Forall is_list_object (ext5 ++ if py_bool ps then [OList l6] else [])).
  { apply Forall_app. split; [exact E5|]. destruct (py_bool ps); repeat constructor. }
  match goal with |- context [rank_universities ?u p] => set (u6 := u) in * end.
  assert (L6 : lookup_list (h ++ (ext5 ++ if py_bool ps then [OList l6] else [])) u6
               = Ok l6).
  { unfold u6. unfold optional_stage in F6. destruct (py_bool ps).
    - apply lookup_list_last.
    - injection F6 as <-. rewrite app_nil_r. exact L5. }
  set (ext6 := ext5 ++ (if py_bool ps then [OList l6] else [])) in *.
  assert (V6 : Forall (fun u => u < length (h ++ ext6))%nat l6).
  { eapply Forall_impl.
    - eapply optional_stage_Forall; [exact F6|].
      eapply optional_stage_Forall; [exact F5|]. exact V4.
    - cbn. intros x Hx. rewrite length_app. lia. }
  rewrite (rank_universities_eq _ p (h ++ ext6) l6 L6 V6).
  rewrite (mapM_ext _ (scored h p)) by (intros x; apply scored_lists, E6).
  destruct (mapM (scored h p) l6) as [sds|e]; [|reflexivity].
  cbn [mbind result_bind]. unfold result_store, result_loc, stage_lists.
  cbn [st_all st_gpa st_budget st_test st_ielts st_country st_sectors st_scored].
  fold pc ps.
  assert (X : ext6 = [OList l0; OList l1; OList l2; OList l3; OList l4]
                     ++ (if py_bool pc then [OList l5] else [])
                     ++ (if py_bool ps then [OList l6] else [])).
  { unfold ext6, ext5, ext4. cbn [app]. rewrite <- ?app_assoc. reflexivity. }
  rewrite <- X. rewrite length_app, <- app_assoc. reflexivity.
Qed.

(** ** Which exceptions are raised *)

Lemma bind_Raise {A B} (m : result A) (f : A -> result B) e :
  (m ≫= f) = Raise e <-> m = Raise e \/ exists a, m = Ok a /\ f a = Raise e.
Proof.
  destruct m as [a|e']; cbn.
  - split; [eauto | intros [H|(a' & [= <-] & H)]; [discriminate | exact H]].
  - split; [intros [= <-]; auto | intros [[= <-]|(a' & H & _)]; [reflexivity | discriminate]].
Qed.

Lemma fmap_Raise {A B} (g : A -> B) (m : result A) e :
  g <$> m = Raise e <-> m = Raise e.
Proof. destruct m; cbn; split; intros H; try discriminate; injection H as <-; reflexivity. Qed.

Lemma filterR_Raise {A} (f : A -> result bool) l e :
  filterR f l = Raise e -> exists x, x ∈ l /\ f x = Raise e.
Proof.
  induction l as [|y l IH]; cbn; [discriminate|].
  intros H. apply bind_Raise in H as [H|(b & Hb & H)].
  - exists y. split; [left | exact H].
  - apply bind_Raise in H as [H|(r & _ & H)]; [|discriminate].
    destruct (IH H) as (x & Hx & Hf). exists x. split; [right; exact Hx | exact Hf].
Qed.

Lemma mapM_Raise {A B} (f : A -> result B) l e :
  mapM f l = Raise e -> exists x, x ∈ l /\ f x = Raise e.
Proof.
  induction l as [|y l IH]; cbn; [discriminate|].
  intros H. apply bind_Raise in H as [H|(b & Hb & H)].
  - exists y. split; [left | exact H].
  - apply bind_Raise in H as [H|(r & _ & H)]; [|discriminate].
    destruct (IH H) as (x & Hx & Hf). exists x. split; [right; exact Hx | exact Hf].
Qed.

Lemma as_num_Raise v e : as_num v = Raise e -> e = TypeError.
Proof. destruct v; cbn; intros [=]; congruence. Qed.

Lemma py_compare_Raise a b e : py_compare a b = Raise e -> e = TypeError.
Proof.
  unfold py_compare. intros H.
  assert (K : (x ← as_num a; y ← as_num b; Ok (num_compare x y)) = Raise e -> e = TypeError).
  { intros K. apply bind_Raise in K as [K|(x & _ & K)]; [eapply as_num_Raise, K|].
    apply bind_Raise in K as [K|(y & _ & K)]; [eapply as_num_Raise, K | discriminate]. }
  destruct a, b; try (apply K, H); discriminate.
Qed.

Lemma py_test_Raise (c : option comparison -> bool) a b e :
  c <$> py_compare a b = Raise e -> e = TypeError.
Proof. intros H. apply fmap_Raise in H. eapply py_compare_Raise, H. Qed.

Lemma to_float_Raise n e : to_float n = Raise e -> e = OverflowError.
Proof.
  destruct n as [z|f]; cbn; [|discriminate].
  destruct (rnd (inject_Z z)); intros [=]; congruence.
Qed.

Lemma float_op_Raise (op : float -> float -> float) a b e :
  (x ← to_float a; y ← to_float b; Ok (NFloat (op x y))) = Raise e -> e = OverflowError.
Proof.
  intros K. apply bind_Raise in K as [K|(x & _ & K)]; [eapply to_float_Raise, K|].
  apply bind_Raise in K as [K|(y & _ & K)]; [eapply to_float_Raise, K | discriminate].
Qed.

Lemma num_add_Raise a b e : num_add a b = Raise e -> e = OverflowError.
Proof. destruct a, b; cbn [num_add]; try discriminate; apply float_op_Raise. Qed.

Lemma num_sub_Raise a b e : num_sub a b = Raise e -> e = OverflowError.
Proof. destruct a, b; cbn [num_sub]; try discriminate; apply float_op_Raise. Qed.

Lemma num_mul_Raise a b e : num_mul a b = Raise e -> e = OverflowError.
Proof. destruct a, b; cbn [num_mul]; try discriminate; apply float_op_Raise. Qed.

Lemma py_sub_Raise a b e : py_sub a b = Raise e -> value_error e.
Proof.
  unfold py_sub, value_error. intros K.
  apply bind_Raise in K as [K|(x & _ & K)]; [left; eapply as_num_Raise, K|].
  apply bind_Raise in K as [K|(y & _ & K)]; [left; eapply as_num_Raise, K|].
  right. eapply num_sub_Raise, K.
Qed.

(** A non-zero integer is not converted to the float zero. *)
Lemma rnd_int_nonzero z : z <> 0 -> is_zero (rnd (inject_Z z)) = false.
Proof.
  intros Hz. destruct (Z_lt_le_dec 0 z) as [Hp|Hn].
  - assert (H : fle (rnd 1) (rnd (inject_Z z))).
    { apply rnd_mono. change 1%Q with (inject_Z 1). rewrite <- Zle_Qle. lia. }
    rewrite rnd_1 in H. destruct (rnd (inject_Z z)) as [|[]|q]; try reflexivity.
    apply fle_fin in H. cbn. destruct (Qeq_bool q 0) eqn:E; [|reflexivity].
    apply Qeq_bool_eq in E. lra.
  - assert (H : fle (rnd (inject_Z z)) (rnd (-1))).
    { apply rnd_mono. change (-1)%Q with (inject_Z (-1)). rewrite <- Zle_Qle. lia. }
    assert (R : rnd (-1) = FFin (-1)) by (vm_compute; reflexivity).
    rewrite R in H. destruct (rnd (inject_Z z)) as [|[]|q]; try reflexivity.
    apply fle_fin in H. cbn. destruct (Qeq_bool q 0) eqn:E; [|reflexivity].
    apply Qeq_bool_eq in E. lra.
Qed.

(** A division raises [ZeroDivisionError] only when the divisor is zero. *)
Lemma num_div_Raise x y e :
  num_div x y = Raise e ->
  e = OverflowError \/ (e = ZeroDivisionError /\ is_zero (num_exact y) = true).
Proof.
  destruct x as [zx|fx], y as [zy|fy]; cbn [num_div].
  - destruct (Z.eqb_spec zy 0) as [->|_]; [intros [= <-]; right; auto|].
    destruct (fdiv _ _); intros [=]; left; congruence.
  - cbn [num_exact]. intros K. apply bind_Raise in K as [K|(x & _ & K)];
      [left; eapply to_float_Raise, K|]. cbn in K.
    destruct (is_zero fy); [injection K as <-; auto | discriminate].
  - intros K. apply bind_Raise in K as [K|(x & _ & K)]; [discriminate|].
    apply bind_Raise in K as [K|(y & Hy & K)]; [left; eapply to_float_Raise, K|].
    destruct (is_zero y) eqn:Z; [|discriminate]. injection K as <-. right.
    split; [reflexivity|]. cbn [num_exact]. destruct (Z.eq_dec zy 0) as [->|N]; [reflexivity|].
    cbn in Hy. pose proof (rnd_int_nonzero zy N) as Hn.
    destruct (rnd (inject_Z zy)); try discriminate; injection Hy as <-; congruence.
  - cbn. destruct (is_zero fy); [intros [= <-]; auto | discriminate].
Qed.

Lemma py_gt_zero_nonzero v n :
  py_gt v (VInt 0) = Ok true -> as_num v = Ok n -> is_zero (num_exact n) = false.
Proof.
  unfold py_gt. intros H Hn. apply fmap_Ok in H as (c & Hc & Hgt).
  destruct v as [|b|m|s|l]; cbn in Hn; try discriminate; cbn in Hc.
  - injection Hn as <-. injection Hc as <-. destruct b; [reflexivity | discriminate].
  - injection Hn as <-. injection Hc as <-. unfold num_compare in Hgt. cbn [num_exact] in Hgt.
    destruct (num_exact m) as [|[]|q]; try reflexivity. cbn in Hgt |- *.
    change (inject_Z 0) with 0%Q in Hgt.
    destruct (Qcompare_spec q 0) as [E|E|E]; try discriminate.
    destruct (Qeq_bool q 0) eqn:Q; [|reflexivity]. apply Qeq_bool_eq in Q. lra.
Qed.

(** A division guarded by [divisor > 0] does not raise
    [ZeroDivisionError]. *)
Lemma guarded_div_Raise a b e :
  py_gt b (VInt 0) = Ok true -> py_div a b = Raise e -> value_error e.
Proof.
  unfold py_div, value_error. intros G K.
  apply bind_Raise in K as [K|(x & _ & K)]; [left; eapply as_num_Raise, K|].
  apply bind_Raise in K as [K|(y & Hy & K)]; [left; eapply as_num_Raise, K|].
  apply num_div_Raise in K as [->|[-> Z]]; [auto|].
  rewrite (py_gt_zero_nonzero _ _ G Hy) in Z. discriminate.
Qed.

Lemma const_div_Raise a z e :
  z <> 0 -> py_div a (VInt z) = Raise e -> value_error e.
Proof.
  unfold py_div, value_error. intros G K.
  apply bind_Raise in K as [K|(x & _ & K)]; [left; eapply as_num_Raise, K|].
  cbn in K. apply num_div_Raise in K as [->|[-> Z]]; [auto|].
  cbn in Z. apply Qeq_bool_eq in Z. exfalso. apply G.
  apply (proj1 (inject_Z_injective z 0)). exact Z.
Qed.

Lemma py_round_Raise s n e : py_round s n = Raise e -> e = OverflowError.
Proof.
  destruct s as [z|[|t|q]]; cbn; try discriminate.
  destruct (rnd _); intros [=]; congruence.
Qed.

Ltac raise_step K :=
  apply bind_Raise in K as [K|(? & ? & K)].

Lemma add_gpa_score_Raise s u p e : add_gpa_score s u p = Raise e -> value_error e.
Proof.
  unfold add_gpa_score. cbv zeta. intros K.
  raise_step K; [left; eapply py_test_Raise, K|].
  destruct x; [|discriminate].
  raise_step K; [eapply guarded_div_Raise; eassumption|].
  raise_step K; [right; eapply num_mul_Raise, K|]. right. eapply num_add_Raise, K.
Qed.

Lemma affordability_Raise t b e :
  py_gt b (VInt 0) = Ok true -> affordability t b = Raise e -> value_error e.
Proof.
  unfold affordability. intros G K.
  raise_step K; [left; eapply py_test_Raise, K|].
  destruct x; [|discriminate].
  raise_step K; [eapply guarded_div_Raise; eassumption|]. right. eapply num_sub_Raise, K.
Qed.

Lemma add_budget_score_Raise s u p e : add_budget_score s u p = Raise e -> value_error e.
Proof.
  unfold add_budget_score. cbv zeta. intros K.
  raise_step K; [left; eapply py_test_Raise, K|].
  destruct x; [|discriminate].
  raise_step K; [eapply affordability_Raise; eassumption|].
  raise_step K; [right; eapply num_mul_Raise, K|]. right. eapply num_add_Raise, K.
Qed.

Lemma add_test_score_Raise s u p e : add_test_score s u p = Raise e -> value_error e.
Proof.
  unfold add_test_score. cbv zeta. intros K.
  raise_step K; [left; eapply py_test_Raise, K|].
  destruct x; [|discriminate].
  raise_step K; [eapply py_sub_Raise, K|].
  raise_step K.
  { apply num_div_Raise in K as [->|[-> Z]]; [right; reflexivity|]. discriminate Z. }
  raise_step K; [right; eapply num_sub_Raise, K|].
  raise_step K; [right; eapply num_mul_Raise, K|]. right. eapply num_add_Raise, K.
Qed.

Lemma add_rank_score_Raise s u e : add_rank_score s u = Raise e -> value_error e.
Proof.
  unfold add_rank_score. cbv zeta. intros K.
  raise_step K; [eapply (const_div_Raise _ 100); [discriminate | exact K]|].
  raise_step K; [right; eapply num_sub_Raise, K|].
  raise_step K; [right; eapply num_mul_Raise, K|]. right. eapply num_add_Raise, K.
Qed.

Lemma calculate_match_score_Raise (university user_profile : dict) (e : exn) :
  calculate_match_score university user_profile = Raise e -> value_error e.
Proof.
  unfold calculate_match_score. cbv zeta. intros K.
  raise_step K; [eapply add_gpa_score_Raise, K|].
  raise_step K; [eapply add_budget_score_Raise, K|].
  raise_step K; [eapply add_test_score_Raise, K|].
  raise_step K; [eapply add_rank_score_Raise, K|].
  right. eapply py_round_Raise, K.
Qed.

Lemma filterR_reads_Raise cond h l e :
  records h l -> filterR (reads cond h) l = Raise e -> exists d, cond d = Raise e.
Proof.
  intros Hl H. apply filterR_Raise in H as (u & Hu & H).
  unfold records in Hl. rewrite Forall_forall in Hl. destruct (Hl u Hu) as (d & Hd).
  unfold reads in H. rewrite Hd in H. eauto.
Qed.

Lemma optional_stage_Raise cond pref h l e :
  records h l -> optional_stage cond pref h l = Raise e -> exists d, cond pref d = Raise e.
Proof.
  unfold optional_stage. destruct (py_bool pref); [|discriminate].
  apply filterR_reads_Raise.
Qed.

Lemma test_score_cond_Raise ts tol d e :
  test_score_cond ts tol d = Raise e -> value_error e.
Proof.
  unfold test_score_cond. intros K.
  raise_step K; [eapply py_sub_Raise, K|].
  raise_step K; [left; eapply py_test_Raise, K|].
  destruct x0; [discriminate|]. left. eapply py_test_Raise, K.
Qed.

Lemma py_in_Raise x c e : py_in x c = Raise e -> e = TypeError.
Proof. destruct c, x; cbn; intros [=]; congruence. Qed.

Lemma sector_cond_Raise sectors d e :
  sector_cond sectors d = Raise e -> e = TypeError \/ e = AttributeError.
Proof.
  unfold sector_cond. intros K. raise_step K.
  - right. unfold py_lower in K. destruct (get d _ _); congruence.
  - left. unfold any_sector in K. raise_step K; [|discriminate].
    unfold py_iter in K. destruct sectors; congruence.
Qed.

Lemma scored_Raise h p l e :
  records h l -> mapM (scored h p) l = Raise e -> value_error e.
Proof.
  intros Hl H. apply mapM_Raise in H as (u & Hu & H).
  unfold records in Hl. rewrite Forall_forall in Hl. destruct (Hl u Hu) as (d & Hd).
  unfold scored in H. rewrite Hd in H. cbn [mbind result_bind] in H.
  raise_step H; [|discriminate]. eapply calculate_match_score_Raise, H.
Qed.

Lemma sublist_records h l l' : sublist l' l -> records h l -> records h l'.
Proof.
  intros S. unfold records. rewrite !Forall_forall. intros H x Hx.
  apply H. eapply elem_of_sublist; eassumption.
Qed.

Lemma optional_stage_sublist cond pref h l l' :
  optional_stage cond pref h l = Ok l' -> sublist l' l.
Proof.
  unfold optional_stage. destruct (py_bool pref).
  - apply filterR_sublist.
  - intros [= <-]. reflexivity.
Qed.

(** On a dataset of records, [recommend] raises nothing but what its tests
    and the scoring raise. *)
Lemma recommend_Raise self p h ds e :
  lookup_list h (universities self) = Ok ds -> records h ds ->
  recommend self p h = Raise e ->
  e = TypeError \/ e = AttributeError \/ e = OverflowError.
Proof.
  intros Hds Hr. rewrite recommend_eq. unfold run_pipeline. rewrite Hds.
  cbn [mbind result_bind].
  assert (V : forall e, value_error e ->
                        e = TypeError \/ e = AttributeError \/ e = OverflowError).
  { intros e' [->| ->]; auto. }
  assert (T : forall e, e = TypeError ->
                        e = TypeError \/ e = AttributeError \/ e = OverflowError) by auto.
  destruct (filterR (reads (gpa_cond p) h) ds) as [l1|e1] eqn:F1.
  2:{ intros [= <-]. apply filterR_reads_Raise in F1 as (d & K); [|exact Hr].
      eapply T, py_test_Raise, K. }
  pose proof (sublist_records h _ _ (filterR_sublist _ _ _ F1) Hr) as R1.
  cbn [mbind result_bind].
  destruct (filterR (reads (budget_cond p) h) l1) as [l2|e2] eqn:F2.
  2:{ intros [= <-]. apply filterR_reads_Raise in F2 as (d & K); [|exact R1].
      eapply T, py_test_Raise, K. }
  pose proof (sublist_records h _ _ (filterR_sublist _ _ _ F2) R1) as R2.
  cbn [mbind result_bind].
  destruct (filterR (reads (test_score_cond _ _) h) l2) as [l3|e3] eqn:F3.
  2:{ intros [= <-]. apply filterR_reads_Raise in F3 as (d & K); [|exact R2].
      eapply V, test_score_cond_Raise, K. }
  pose proof (sublist_records h _ _ (filterR_sublist _ _ _ F3) R2) as R3.
  cbn [mbind result_bind].
  destruct (filterR (reads (ielts_cond p) h) l3) as [l4|e4] eqn:F4.
  2:{ intros [= <-]. apply filterR_reads_Raise in F4 as (d & K); [|exact R3].
      eapply T, py_test_Raise, K. }
  pose proof (sublist_records h _ _ (filterR_sublist _ _ _ F4) R3) as R4.
  cbn [mbind result_bind].
  destruct (optional_stage country_cond _ h l4) as [l5|e5] eqn:F5.
  2:{ intros [= <-]. apply optional_stage_Raise in F5 as (d & K); [|exact R4].
      eapply T, py_in_Raise, K. }
  pose proof (sublist_records h _ _ (optional_stage_sublist _ _ _ _ _ F5) R4) as R5.
  cbn [mbind result_bind].
  destruct (optional_stage sector_cond _ h l5) as [l6|e6] eqn:F6.
  2:{ intros [= <-]. apply optional_stage_Raise in F6 as (d & K); [|exact R5].
      apply sector_cond_Raise in K as [->| ->]; auto. }
  pose proof (sublist_records h _ _ (optional_stage_sublist _ _ _ _ _ F6) R5) as R6.
  cbn [mbind result_bind].
  destruct (mapM (scored h p) l6) as [sds|e7] eqn:F7; [discriminate|].
  intros [= <-]. eapply V, scored_Raise; eassumption.
Qed.

(** On an empty dataset no test is evaluated. *)
Lemma run_pipeline_empty self p h :
  lookup_list h (universities self) = Ok [] ->
  run_pipeline h self p =
    Ok {| st_all := []; st_gpa := []; st_budget := []; st_test := []; st_ielts := [];
          st_country := []; st_sectors := []; st_scored := [] |}.
Proof.
  intros H. unfold run_pipeline, optional_stage. rewrite H. cbn [mbind result_bind filterR].
  destruct (py_bool (get p "preferred_countries" (VList []))); cbn [mbind result_bind filterR];
    destruct (py_bool (get p "preferred_sectors" (VList []))); reflexivity.
Qed.

(** ** Filters *)

Lemma filterR_idem {A} (f : A -> result bool) l out :
  filterR f l = Ok out -> filterR f out = Ok out.
Proof.
  revert out. induction l as [|x l IH]; intros out; cbn.
  - intros [= <-]. reflexivity.
  - rewrite bind_Ok. intros (b & Hb & H). apply bind_Ok in H as (r & Hr & [= <-]).
    specialize (IH r Hr). destruct b; [|exact IH]. cbn. rewrite Hb. cbn. rewrite IH.
    reflexivity.
Qed.

Lemma list_comp_idempotent cond : idempotent (list_comp cond).
Proof.
  intros us usl h r h' _ H. apply list_comp_Ok in H as (usl' & out & Hus & F & -> & ->).
  pose proof (lookup_list_last h [] out) as L. rewrite app_nil_r in L. cbn [app] in L.
  exists out, (length (h ++ [OList out])), (h ++ ([OList out] ++ [OList out])).
  split; [exact L|]. split.
  - rewrite (list_comp_eq cond _ h [OList out] out); [|repeat constructor|exact L].
    rewrite (filterR_idem _ _ _ F). reflexivity.
  - apply lookup_list_last.
Qed.

Lemma filter_by_country_idempotent countries :
  idempotent (fun us => filter_by_country us countries).
Proof.
  unfold filter_by_country. destruct (py_bool countries); cbn [negb].
  - apply list_comp_idempotent.
  - intros us usl h r h' Hus [= <- <-]. exists usl, us, h. auto.
Qed.

Lemma filter_by_sectors_idempotent sectors :
  idempotent (fun us => filter_by_sectors us sectors).
Proof.
  destruct (py_bool sectors) eqn:B.
  - intros us usl h r h' Hus H.
    pose proof (filter_by_sectors_eq us sectors h [] usl B) as E.
    rewrite !app_nil_r in E. rewrite E in H; [|constructor|exact Hus]. clear E.
    destruct (filterR _ usl) as [out|] eqn:F; [|discriminate]. injection H as <- <-.
    cbn [app].
    pose proof (lookup_list_last h [] out) as L. rewrite app_nil_r in L. cbn [app] in L.
    exists out, (length (h ++ [OList out])), (h ++ ([OList out] ++ [OList out])).
    split; [exact L|]. split.
    + rewrite (filter_by_sectors_eq _ sectors h [OList out] out B);
        [|repeat constructor|exact L].
      rewrite (filterR_idem _ _ _ F). reflexivity.
    + apply lookup_list_last.
  - intros us usl h r h' Hus. unfold filter_by_sectors. rewrite B. cbn [negb].
    intros [= <- <-]. exists usl, us, h. auto.
Qed.

Lemma list_comp_keeps cond : keeps cond (list_comp cond).
Proof.
  intros us h r h' H. apply list_comp_Ok in H as (usl & out & Hus & F & -> & ->).
  exists usl, out. split; [exact Hus|]. split; [apply lookup_ge_None; lia|].
  split; [|split; [|split]].
  - pose proof (lookup_list_last h [] out) as L. rewrite app_nil_r in L. exact L.
  - intros l o Hl. rewrite lookup_app_l; [exact Hl|]. eapply lookup_lt_Some, Hl.
  - eapply filterR_sublist, F.
  - intros u. rewrite (filterR_Ok_elem _ _ _ u F). unfold reads. split.
    + intros [Hu Hc]. split; [exact Hu|]. apply bind_Ok in Hc. exact Hc.
    + intros [Hu Hc]. split; [exact Hu|]. apply bind_Ok. exact Hc.
Qed.

Lemma filterR_cons {A} (f : A -> result bool) x l :
  filterR f (x :: l) = (b ← f x; r ← filterR f l; Ok (if b : bool then x :: r else r)).
Proof. reflexivity. Qed.

(** Tests that are total on records make the filter total. *)
Lemma filterR_total cond h l :
  records h l -> (forall d, exists b, cond d = Ok b) ->
  exists out, filterR (reads cond h) l = Ok out.
Proof.
  intros Hl Hc. induction Hl as [|u l (d & Hd) _ (out & IH)]; [exists []; reflexivity|].
  destruct (Hc d) as (b & Hb). exists (if b then u :: out else out).
  rewrite filterR_cons. change (reads cond h u) with (d ← lookup_dict h u; cond d).
  rewrite Hd. cbn [mbind result_bind]. rewrite Hb.
  cbn [mbind result_bind]. rewrite IH. reflexivity.
Qed.

Lemma country_cond_list l d :
  country_cond (VList l) d
  = Ok (match d !! "country" with
        | Some (VStr s) => bool_decide (s ∈ l)
        | _ => false
        end).
Proof.
  unfold country_cond, get, py_in. f_equal.
  destruct (d !! "country") as [v|]; cbn [default].
  - destruct v; cbn; try (induction l; cbn; auto; fail).
    induction l as [|x l IH]; cbn; [reflexivity|].
    rewrite IH. destruct (String.eqb_spec s x) as [->|N].
    + cbn. symmetry. apply bool_decide_eq_true. left.
    + cbn. destruct (decide (s ∈ l)) as [Y|Y].
      * rewrite !bool_decide_eq_true_2; [reflexivity|right; exact Y|exact Y].
      * rewrite !bool_decide_eq_false_2; [reflexivity| |exact Y].
        intros [E|E]%elem_of_cons; congruence.
  - induction l; cbn; auto.
Qed.

Lemma sector_cond_list l d :
  sector_cond (VList l) d
  = match sectors_text d with
    | Some ts => Ok (keyword_match l ts)
    | None => Raise AttributeError
    end.
Proof.
  unfold sector_cond, sectors_text, py_lower.
  destruct (get d "top_sectors" (VStr EmptyString)); reflexivity.
Qed.

Lemma filterR_Ok_inv {A} (f : A -> result bool) l out x :
  filterR f l = Ok out -> x ∈ l -> exists b, f x = Ok b /\ (b = true <-> x ∈ out).
Proof.
  intros F Hx. destruct (filterR_Ok_all _ _ _ x F Hx) as (b & Hb). exists b.
  split; [exact Hb|]. rewrite (filterR_Ok_elem _ _ _ x F). split.
  - intros ->. auto.
  - intros [_ H]. congruence.
Qed.

Lemma str_lower_idem s : str_lower (str_lower s) = str_lower s.
Proof.
  induction s as [|c s IH]; [reflexivity|]. cbn. rewrite IH. f_equal.
  unfold ascii_lower.
  destruct ((65 <=? N_of_ascii c)%N && (N_of_ascii c <=? 90)%N) eqn:E.
  - apply andb_true_iff in E as [E1 E2]. apply N.leb_le in E1, E2.
    assert (Hlt : (N_of_ascii c + 32 < 256)%N) by lia.
    rewrite N_ascii_embedding by exact Hlt.
    destruct ((65 <=? N_of_ascii c + 32)%N && (N_of_ascii c + 32 <=? 90)%N) eqn:E'; [|reflexivity].
    apply andb_true_iff in E' as [_ E']. apply N.leb_le in E'. lia.
  - rewrite E. reflexivity.
Qed.

Lemma keyword_match_lower l1 l2 text :
  str_lower <$> l1 = str_lower <$> l2 -> keyword_match l1 text = keyword_match l2 text.
Proof.
  unfold keyword_match. revert l2. induction l1 as [|a l1 IH]; intros [|b l2]; cbn;
    try discriminate; [reflexivity|].
  intros [= Hab Hl]. rewrite Hab, (IH l2 Hl). reflexivity.
Qed.

Lemma any_sector_lower l1 l2 ts :
  str_lower <$> l1 = str_lower <$> l2 ->
  any_sector ts (VList l1) = any_sector ts (VList l2).
Proof.
  unfold any_sector. cbn. revert l2. induction l1 as [|a l1 IH]; intros [|b l2]; cbn;
    try discriminate; [reflexivity|].
  intros [= Hab Hl]. rewrite Hab. specialize (IH l2 Hl). injection IH as ->. reflexivity.
Qed.

Lemma filter_by_sectors_lower us l1 l2 h :
  str_lower <$> l1 = str_lower <$> l2 ->
  filter_by_sectors us (VList l1) h = filter_by_sectors us (VList l2) h.
Proof.
  intros E. unfold filter_by_sectors.
  assert (B : py_bool (VList l1) = py_bool (VList l2)).
  { destruct l1, l2; try discriminate; reflexivity. }
  rewrite B. destruct (py_bool (VList l2)); cbn [negb]; [|reflexivity].
  apply M_bind_ext. intros filtered h1. apply M_bind_ext. intros usl h2.
  rewrite !M_bind_eq.
  rewrite (for_each_ext _ (fun u =>
      d ← read_dict u;
      top_sectors ← lift (py_lower (get d "top_sectors" (VStr EmptyString)));
      hit ← lift (any_sector top_sectors (VList l2));
      if hit : bool then list_append filtered u else mret tt)); [reflexivity|].
  intros u h3. apply M_bind_ext. intros d h4. apply M_bind_ext. intros ts h5.
  rewrite (any_sector_lower l1 l2 ts E). reflexivity.
Qed.

(** ** Scores as exact values *)

Lemma to_float_0 : to_float (NInt 0) = Ok (FFin 0).
Proof. apply (to_float_small 0). lia. Qed.

Lemma to_float_exact n :
  zero_or_float n -> to_float n = Ok (num_exact n).
Proof. intros [->|(f & ->)]; [exact to_float_0 | reflexivity]. Qed.

Lemma num_add_exact s t r :
  zero_or_float s -> zero_or_float t -> num_add s t = Ok r ->
  zero_or_float r /\ num_exact r = fadd (num_exact s) (num_exact t).
Proof.
  intros Hs Ht. destruct Hs as [->|(f & ->)], Ht as [->|(g & ->)].
  - intros [= <-]. split; [left; reflexivity|]. vm_compute. reflexivity.
  - unfold num_add. rewrite to_float_0. cbn. intros [= <-].
    split; [right; eauto | reflexivity].
  - unfold num_add. rewrite to_float_0. cbn. intros [= <-].
    split; [right; eauto | reflexivity].
  - cbn. intros [= <-]. split; [right; eauto | reflexivity].
Qed.

Lemma num_add_total s t :
  zero_or_float s -> zero_or_float t -> exists r, num_add s t = Ok r.
Proof.
  intros Hs Ht. destruct Hs as [->|(f & ->)], Ht as [->|(g & ->)];
    unfold num_add; rewrite ?to_float_0; cbn; eauto.
Qed.

(** Multiplication by one of the weights 20, 25, 30. *)
Lemma num_mul_exact s k r :
  zero_or_float s -> 0 < k <= 1000 -> num_mul s (NInt k) = Ok r ->
  zero_or_float r /\
  flew (num_exact r) (fmul (num_exact s) (FFin (inject_Z k))) /\
  flew (fmul (num_exact s) (FFin (inject_Z k))) (num_exact r).
Proof.
  intros [->|(f & ->)] Hk.
  - intros [= <-]. split; [left; reflexivity|]. cbn [num_exact fmul Z.mul].
    assert (E : fle (rnd (inject_Z 0 * inject_Z k)) (FFin 0) /\
                fle (FFin 0) (rnd (inject_Z 0 * inject_Z k))).
    { rewrite <- rnd_0. split; apply rnd_mono; change (inject_Z 0) with 0%Q; lra. }
    destruct E. split; apply fle_flew; assumption.
  - rewrite num_mul_float_int by (apply json_int_small; lia). intros [= <-].
    split; [right; eauto|]. cbn [num_exact].
    destruct (is_nan (fmul f (FFin (inject_Z k)))) eqn:N.
    + split; left; exact N.
    + split; apply fle_flew, fle_refl, N.
Qed.

Lemma num_mul_total s k :
  zero_or_float s -> 0 < k <= 1000 -> exists r, num_mul s (NInt k) = Ok r.
Proof.
  intros [->|(f & ->)] Hk; [eexists; reflexivity|].
  rewrite num_mul_float_int by (apply json_int_small; lia). eauto.
Qed.

Lemma flew_trans a b c : is_nan b = false -> flew a b -> flew b c -> flew a c.
Proof.
  intros Hb [H1|[H1|H1]] [H2|[H2|H2]]; try congruence; try (left; assumption);
    try (right; left; assumption).
  right; right. eapply fle_trans; eassumption.
Qed.

Lemma num_max_exact r :
  zero_or_float (num_max (NInt 0) (NFloat r)) /\
  num_exact (num_max (NInt 0) (NFloat r)) = fmax0 r.
Proof.
  unfold num_max, num_ltb, num_compare, fmax0, fltb. cbn [num_exact].
  change (inject_Z 0) with 0%Q.
  destruct (cmp_lt (fcompare (FFin 0) r)); [split; [right; eauto | reflexivity]|].
  split; [left; reflexivity | reflexivity].
Qed.

Lemma fmax0_mono a b : fle a b -> fle (fmax0 a) (fmax0 b).
Proof. unfold fmax0. intros H. destruct a as [|[]|x], b as [|[]|y]; float_cases. Qed.

Lemma fmax0_not_nan a : is_nan (fmax0 a) = false.
Proof. unfold fmax0. destruct a as [|[]|x]; float_cases. Qed.

Lemma fmax0_nonneg a : fle (FFin 0) (fmax0 a).
Proof. unfold fmax0. destruct a as [|[]|x]; float_cases. Qed.

Lemma fmul_fle a b k : (0 < k)%Q -> fle a b -> fle (fmul a (FFin k)) (fmul b (FFin k)).
Proof.
  intros Hk H. pose proof (fle_not_nan _ _ H) as [Na Nb].
  apply flew_fle; [apply fmul_mono_l; [exact Hk | apply fle_flew, H]| |].
  - destruct a as [|[]|x]; try discriminate; cbn [fmul];
      rewrite ?(Qeq_bool_pos k Hk); try reflexivity. apply rnd_not_nan.
  - destruct b as [|[]|x]; try discriminate; cbn [fmul];
      rewrite ?(Qeq_bool_pos k Hk); try reflexivity. apply rnd_not_nan.
Qed.

(** [1 - q] *)
Lemma one_minus_exact q :
  num_sub (NInt 1) (NFloat q) = Ok (NFloat (fsub (FFin 1) q)).
Proof. unfold num_sub. rewrite (to_float_small 1) by lia. reflexivity. Qed.

Lemma fsub_anti a b : fle a b -> fle (fsub (FFin 1) b) (fsub (FFin 1) a).
Proof.
  intros H. pose proof (fle_not_nan _ _ H) as [Na Nb]. unfold fsub.
  apply flew_fle; [apply fadd_mono_r, fneg_anti, fle_flew, H| |];
    [destruct b as [|[]|x]|destruct a as [|[]|x]]; try discriminate; try reflexivity;
    apply rnd_not_nan.
Qed.

Lemma num_div_float x y q : num_div x y = Ok q -> exists f, q = NFloat f.
Proof.
  destruct x as [zx|fx], y as [zy|fy]; cbn [num_div].
  - destruct (zy =? 0); [discriminate|]. destruct (fdiv _ _); intros [= <-]; eauto.
  - intros H. apply bind_Ok in H as (a & _ & H). cbn in H.
    destruct (is_zero fy); [discriminate|]. injection H as <-. eauto.
  - intros H. apply bind_Ok in H as (a & _ & H). apply bind_Ok in H as (b & _ & H).
    destruct (is_zero b); [discriminate|]. injection H as <-. eauto.
  - cbn. destruct (is_zero fy); [discriminate|]. intros [= <-]. eauto.
Qed.

Lemma py_div_float a b q : py_div a b = Ok q -> exists f, q = NFloat f.
Proof.
  unfold py_div. intros H. apply bind_Ok in H as (x & _ & H).
  apply bind_Ok in H as (y & _ & H). eapply num_div_float, H.
Qed.

Lemma num_sub_float_r x q r : num_sub x (NFloat q) = Ok r -> exists f, r = NFloat f.
Proof.
  destruct x; unfold num_sub; intros H.
  - apply bind_Ok in H as (a & _ & H). injection H as <-. eauto.
  - injection H as <-. eauto.
Qed.

Lemma num_max_kind r : zero_or_float (num_max (NInt 0) r) \/ exists z, r = NInt z.
Proof.
  destruct r as [z|f]; [right; eauto|]. left. apply num_max_exact.
Qed.

Lemma add_component_kind s t k r :
  zero_or_float s -> zero_or_float t -> 0 < k <= 1000 ->
  (x ← num_mul t (NInt k); num_add s x) = Ok r -> zero_or_float r.
Proof.
  intros Hs Ht Hk H. apply bind_Ok in H as (x & Hx & H).
  apply (num_mul_exact _ _ _ Ht Hk) in Hx as [Hx _].
  apply (num_add_exact _ _ _ Hs Hx H).
Qed.

Lemma add_gpa_score_kind s u p r :
  zero_or_float s -> add_gpa_score s u p = Ok r -> zero_or_float r.
Proof.
  intros Hs. unfold add_gpa_score. cbv zeta. intros H.
  apply bind_Ok in H as ([] & _ & H); [|injection H as <-; exact Hs].
  apply bind_Ok in H as (q & Hq & H). apply py_div_float in Hq as (f & ->).
  rewrite num_min_float in H.
  eapply (add_component_kind s _ 30); [exact Hs | right; eauto | lia | exact H].
Qed.

Lemma affordability_kind t b a : affordability t b = Ok a -> zero_or_float a.
Proof.
  unfold affordability. intros H. apply bind_Ok in H as ([] & _ & H).
  - apply bind_Ok in H as (q & Hq & H). apply py_div_float in Hq as (f & ->).
    apply num_sub_float_r in H. right. exact H.
  - injection H as <-. left. reflexivity.
Qed.

Lemma add_budget_score_kind s u p r :
  zero_or_float s -> add_budget_score s u p = Ok r -> zero_or_float r.
Proof.
  intros Hs. unfold add_budget_score. cbv zeta. intros H.
  apply bind_Ok in H as ([] & _ & H); [|injection H as <-; exact Hs].
  apply bind_Ok in H as (a & Ha & H). apply affordability_kind in Ha.
  eapply (add_component_kind s _ 25); [exact Hs | exact Ha | lia | exact H].
Qed.

Lemma add_test_score_kind s u p r :
  zero_or_float s -> add_test_score s u p = Ok r -> zero_or_float r.
Proof.
  intros Hs. unfold add_test_score. cbv zeta. intros H.
  apply bind_Ok in H as ([] & _ & H); [|injection H as <-; exact Hs].
  apply bind_Ok in H as (d & _ & H). apply bind_Ok in H as (q & Hq & H).
  apply num_div_float in Hq as (f & ->).
  apply bind_Ok in H as (x & Hx & H). apply num_sub_float_r in Hx as (g & ->).
  eapply (add_component_kind s _ 20); [exact Hs | apply num_max_exact | lia | exact H].
Qed.

Lemma add_rank_score_kind s u r :
  zero_or_float s -> add_rank_score s u = Ok r -> zero_or_float r.
Proof.
  intros Hs. unfold add_rank_score. cbv zeta. intros H.
  apply bind_Ok in H as (q & Hq & H). apply py_div_float in Hq as (f & ->).
  apply bind_Ok in H as (x & Hx & H). apply num_sub_float_r in Hx as (g & ->).
  eapply (add_component_kind s _ 25); [exact Hs | apply num_max_exact | lia | exact H].
Qed.

(** Adding a component: the sum does not decrease with the score so far
    nor with the component. *)
Lemma add_component_mono s1 s2 t1 t2 k r1 r2 :
  zero_or_float s1 -> zero_or_float s2 -> zero_or_float t1 -> zero_or_float t2 ->
  0 < k <= 1000 ->
  flew (num_exact s1) (num_exact s2) ->
  (fle (num_exact t1) (num_exact t2) \/ t1 = t2) ->
  (x ← num_mul t1 (NInt k); num_add s1 x) = Ok r1 ->
  (x ← num_mul t2 (NInt k); num_add s2 x) = Ok r2 ->
  flew (num_exact r1) (num_exact r2).
Proof.
  intros Hs1 Hs2 Ht1 Ht2 Hk Hs Ht H1 H2.
  apply bind_Ok in H1 as (x1 & M1 & A1). apply bind_Ok in H2 as (x2 & M2 & A2).
  assert (Kq : (0 < inject_Z k)%Q).
  { change 0%Q with (inject_Z 0). rewrite <- Zlt_Qlt. lia. }
  assert (Hx : flew (num_exact x1) (num_exact x2)).
  { destruct Ht as [Ht| ->]; [|rewrite M1 in M2; injection M2 as ->].
    - apply (num_mul_exact _ _ _ Ht1 Hk) in M1 as (_ & L1 & _).
      apply (num_mul_exact _ _ _ Ht2 Hk) in M2 as (_ & _ & U2).
      pose proof (fmul_fle _ _ _ Kq Ht) as M. pose proof (fle_not_nan _ _ M) as [Na Nb].
      eapply flew_trans; [exact Na | exact L1|].
      eapply flew_trans; [exact Nb | apply fle_flew, M | exact U2].
    - destruct (is_nan (num_exact x2)) eqn:N; [left; exact N|].
      apply fle_flew, fle_refl, N. }
  apply (num_mul_exact _ _ _ Ht1 Hk) in M1 as (Z1 & _).
  apply (num_mul_exact _ _ _ Ht2 Hk) in M2 as (Z2 & _).
  apply (num_add_exact _ _ _ Hs1 Z1) in A1 as [_ ->].
  apply (num_add_exact _ _ _ Hs2 Z2) in A2 as [_ ->].
  destruct (is_nan (fadd (num_exact s1) (num_exact x2))) eqn:N.
  - (* the middle term is NaN: one of its operands is NaN or they are
       opposite infinities *)
    clear -Hs Hx N.
    destruct (num_exact s1) as [|[]|a], (num_exact s2) as [|[]|b],
      (num_exact x1) as [|[]|c], (num_exact x2) as [|[]|d];
      cbn in N; try discriminate N; try rewrite rnd_not_nan in N; try discriminate N;
      flew_cases.
  - eapply flew_trans; [exact N | apply fadd_mono_r, Hx | apply fadd_mono_l, Hs].
Qed.

Lemma number_100 : number (VInt 100) (inject_Z 100).
Proof. constructor. apply json_int_small. lia. Qed.

Lemma flew_refl a : flew a a.
Proof.
  destruct (is_nan a) eqn:N; [left; exact N | apply fle_flew, fle_refl, N].
Qed.

(** The rank points do not increase with the rank number. *)
Lemma add_rank_score_rank s u1 u2 x1 x2 r1 r2 :
  zero_or_float s ->
  number (get u1 "world_rank" (VInt 100)) x1 ->
  number (get u2 "world_rank" (VInt 100)) x2 -> (x1 <= x2)%Q ->
  add_rank_score s u1 = Ok r1 -> add_rank_score s u2 = Ok r2 ->
  flew (num_exact r2) (num_exact r1).
Proof.
  intros Hs H1 H2 Hx. unfold add_rank_score. cbv zeta.
  assert (N : ~ (inject_Z 100 == 0)%Q) by discriminate.
  rewrite (py_div_total _ x1 _ _ H1 number_100 N), (py_div_total _ x2 _ _ H2 number_100 N).
  cbn [mbind result_bind]. rewrite !one_minus_exact. cbn [mbind result_bind].
  intros A1 A2.
  refine (add_component_mono s s _ _ 25 r2 r1 Hs Hs _ _ ltac:(lia) (flew_refl _) _ A2 A1);
    try apply num_max_exact.
  left. rewrite !(proj2 (num_max_exact _)). apply fmax0_mono, fsub_anti, rnd_mono.
  apply Qmult_le_compat_r; [exact Hx | discriminate].
Qed.

Lemma round_float_0 : round_float 2 (FFin 0) = FFin 0.
Proof. vm_compute. reflexivity. Qed.

Lemma py_round_mono s1 s2 r1 r2 :
  zero_or_float s1 -> zero_or_float s2 ->
  flew (num_exact s1) (num_exact s2) ->
  py_round s1 2 = Ok r1 -> py_round s2 2 = Ok r2 ->
  flew (num_exact r1) (num_exact r2).
Proof.
  intros [->|(f1 & ->)] [->|(f2 & ->)] H.
  - intros [= <-] [= <-]. exact H.
  - intros [= <-] R2. apply py_round_float in R2 as ->. cbn [num_exact] in *.
    change (inject_Z 0) with 0%Q in *. rewrite <- round_float_0.
    apply round_float_mono, H.
  - intros R1 [= <-]. apply py_round_float in R1 as ->. cbn [num_exact] in *.
    change (inject_Z 0) with 0%Q in *. rewrite <- round_float_0.
    apply round_float_mono, H.
  - intros R1 R2. apply py_round_float in R1 as ->. apply py_round_float in R2 as ->.
    apply round_float_mono, H.
Qed.

Lemma zero_is_zero_or_float : zero_or_float (NInt 0).
Proof. left. reflexivity. Qed.

Lemma flew_num_leb a b :
  flew (num_exact a) (num_exact b) -> num_is_nan a = false -> num_is_nan b = false ->
  num_leb a b = true.
Proof. intros H Na Nb. exact (flew_fle _ _ H Na Nb). Qed.

(** The score does not increase with the rank number. *)
Lemma score_rank_mono (u p : dict) (w1 w2 : value) (x1 x2 : Q) (s1 s2 : num) :
  number w1 x1 -> number w2 x2 -> (x1 <= x2)%Q ->
  calculate_match_score (<["world_rank" := w1]> u) p = Ok s1 ->
  calculate_match_score (<["world_rank" := w2]> u) p = Ok s2 ->
  num_is_nan s1 = false -> num_is_nan s2 = false ->
  num_leb s2 s1 = true.
Proof.
  intros H1 H2 Hx C1 C2 N1 N2. unfold calculate_match_score in C1, C2. cbv zeta in C1, C2.
  unfold add_gpa_score, add_budget_score, add_test_score in C1, C2.
  rewrite !(get_insert_ne _ "world_rank") in C1, C2 by discriminate.
  fold (add_gpa_score (NInt 0) u p) in C1, C2.
  apply bind_Ok in C1 as (a & A & C1). rewrite A in C2. cbn [mbind result_bind] in C2.
  fold (add_budget_score a u p) in C1, C2.
  apply bind_Ok in C1 as (b & B & C1). rewrite B in C2. cbn [mbind result_bind] in C2.
  fold (add_test_score b u p) in C1, C2.
  apply bind_Ok in C1 as (c & C & C1). rewrite C in C2. cbn [mbind result_bind] in C2.
  apply bind_Ok in C1 as (r1 & R1 & C1). apply bind_Ok in C2 as (r2 & R2 & C2).
  pose proof (add_gpa_score_kind _ _ _ _ zero_is_zero_or_float A) as Ka.
  pose proof (add_budget_score_kind _ _ _ _ Ka B) as Kb.
  pose proof (add_test_score_kind _ _ _ _ Kb C) as Kc.
  apply flew_num_leb; [|exact N2|exact N1].
  apply (py_round_mono r2 r1 s2 s1); [eapply add_rank_score_kind; eassumption..| |exact C2|exact C1].
  apply (add_rank_score_rank c (<["world_rank" := w1]> u) (<["world_rank" := w2]> u)
           x1 x2 r1 r2 Kc); try assumption; rewrite get_insert_eq; assumption.
Qed.

Lemma fsub_1_1 : fsub (FFin 1) (FFin 1) = FFin 0.
Proof. vm_compute. reflexivity. Qed.

(** The affordability does not increase with the tuition. *)
Lemma affordability_mono t1 t2 bv x1 x2 b a1 a2 :
  number t1 x1 -> number t2 x2 -> (x1 <= x2)%Q -> number bv b -> (0 < b)%Q ->
  affordability t1 bv = Ok a1 -> affordability t2 bv = Ok a2 ->
  fle (num_exact a2) (num_exact a1).
Proof.
  intros H1 H2 Hx Hb B0. unfold affordability.
  rewrite (py_le_number _ x1 _ b H1 Hb), (py_le_number _ x2 _ b H2 Hb).
  assert (N : ~ (b == 0)%Q) by lra.
  assert (D : forall x, (x <= b)%Q -> fle (rnd (x / b)) (FFin 1)).
  { intros x Hxb. rewrite <- rnd_1. apply rnd_mono. apply Qle_shift_div_r; lra. }
  assert (M : fle (rnd (x1 / b)) (rnd (x2 / b))).
  { apply rnd_mono. apply Qmult_le_compat_r; [exact Hx|].
    apply Qlt_le_weak, Qinv_lt_0_compat, B0. }
  destruct (Qcompare_spec x1 b) as [C1|C1|C1], (Qcompare_spec x2 b) as [C2|C2|C2];
    cbn [mbind result_bind];
    rewrite ?(py_div_total _ x1 _ b H1 Hb N), ?(py_div_total _ x2 _ b H2 Hb N);
    cbn [mbind result_bind]; rewrite ?one_minus_exact;
    intros [= <-] [= <-]; cbn [num_exact];
    try (apply fsub_anti, M); try reflexivity; try (exfalso; lra);
    change (inject_Z 0) with 0%Q; rewrite <- fsub_1_1; apply fsub_anti, D; lra.
Qed.

(** The budget points do not increase with the tuition. *)
Lemma add_budget_score_tuition s u1 u2 p x1 x2 b r1 r2 :
  zero_or_float s ->
  number (get u1 "tuition_usd" (VInt 0)) x1 ->
  number (get u2 "tuition_usd" (VInt 0)) x2 -> (x1 <= x2)%Q ->
  number (get p "budget" (VInt 0)) b ->
  add_budget_score s u1 p = Ok r1 -> add_budget_score s u2 p = Ok r2 ->
  flew (num_exact r2) (num_exact r1).
Proof.
  intros Hs H1 H2 Hx Hb. unfold add_budget_score. cbv zeta.
  rewrite (py_gt_number _ b Hb).
  destruct (Qcompare_spec b 0) as [C|C|C]; cbn [mbind result_bind];
    try (intros [= <-] [= <-]; apply flew_refl).
  intros A1 A2.
  apply bind_Ok in A1 as (a1 & E1 & A1). apply bind_Ok in A2 as (a2 & E2 & A2).
  refine (add_component_mono s s a2 a1 25 r2 r1 Hs Hs _ _ ltac:(lia) (flew_refl _) _ A2 A1).
  - eapply affordability_kind, E2.
  - eapply affordability_kind, E1.
  - left. eapply (affordability_mono _ _ _ x1 x2 b); eassumption.
Qed.

(** The later components keep the order of the scores. *)
Lemma add_test_score_order s1 s2 u p r1 r2 :
  zero_or_float s1 -> zero_or_float s2 ->
  flew (num_exact s1) (num_exact s2) ->
  add_test_score s1 u p = Ok r1 -> add_test_score s2 u p = Ok r2 ->
  flew (num_exact r1) (num_exact r2).
Proof.
  intros K1 K2 H. unfold add_test_score. cbv zeta. intros A1 A2.
  destruct (py_gt (get u "test_benchmark" (VInt 0)) (VInt 0)) as [[]|];
    cbn [mbind result_bind] in A1, A2;
    [|injection A1 as <-; injection A2 as <-; exact H|discriminate A1].
  destruct (py_sub _ _) as [d|]; cbn [mbind result_bind] in A1, A2; [|discriminate A1].
  destruct (num_div (num_abs d) (NInt 200)) as [q|] eqn:Q;
    cbn [mbind result_bind] in A1, A2; [|discriminate A1].
  apply num_div_float in Q as (f & ->).
  destruct (num_sub (NInt 1) (NFloat f)) as [x|] eqn:X;
    cbn [mbind result_bind] in A1, A2; [|discriminate A1].
  apply num_sub_float_r in X as (g & ->).
  exact (add_component_mono s1 s2 _ _ 20 r1 r2 K1 K2
           (proj1 (num_max_exact g)) (proj1 (num_max_exact g))
           ltac:(lia) H (or_intror eq_refl) A1 A2).
Qed.

Lemma add_rank_score_order s1 s2 u r1 r2 :
  zero_or_float s1 -> zero_or_float s2 ->
  flew (num_exact s1) (num_exact s2) ->
  add_rank_score s1 u = Ok r1 -> add_rank_score s2 u = Ok r2 ->
  flew (num_exact r1) (num_exact r2).
Proof.
  intros K1 K2 H. unfold add_rank_score. cbv zeta. intros A1 A2.
  destruct (py_div _ _) as [q|] eqn:Q; cbn [mbind result_bind] in A1, A2; [|discriminate A1].
  apply py_div_float in Q as (f & ->).
  destruct (num_sub (NInt 1) (NFloat f)) as [x|] eqn:X;
    cbn [mbind result_bind] in A1, A2; [|discriminate A1].
  apply num_sub_float_r in X as (g & ->).
  exact (add_component_mono s1 s2 _ _ 25 r1 r2 K1 K2
           (proj1 (num_max_exact g)) (proj1 (num_max_exact g))
           ltac:(lia) H (or_intror eq_refl) A1 A2).
Qed.

(** The score does not increase with the tuition. *)
Lemma score_tuition_mono (u p : dict) (t1 t2 : value) (x1 x2 b : Q) (s1 s2 : num) :
  number t1 x1 -> number t2 x2 -> (x1 <= x2)%Q ->
  number (get p "budget" (VInt 0)) b ->
  calculate_match_score (<["tuition_usd" := t1]> u) p = Ok s1 ->
  calculate_match_score (<["tuition_usd" := t2]> u) p = Ok s2 ->
  num_is_nan s1 = false -> num_is_nan s2 = false ->
  num_leb s2 s1 = true.
Proof.
  intros H1 H2 Hx Hb C1 C2 N1 N2. unfold calculate_match_score in C1, C2. cbv zeta in C1, C2.
  unfold add_gpa_score, add_test_score, add_rank_score in C1, C2.
  rewrite !(get_insert_ne _ "tuition_usd") in C1, C2 by discriminate.
  fold (add_gpa_score (NInt 0) u p) in C1, C2.
  apply bind_Ok in C1 as (a & A & C1). rewrite A in C2. cbn [mbind result_bind] in C2.
  apply bind_Ok in C1 as (b1 & B1 & C1). apply bind_Ok in C2 as (b2 & B2 & C2).
  fold (add_test_score b1 u p) in C1. fold (add_test_score b2 u p) in C2.
  apply bind_Ok in C1 as (c1 & T1 & C1). apply bind_Ok in C2 as (c2 & T2 & C2).
  fold (add_rank_score c1 u) in C1. fold (add_rank_score c2 u) in C2.
  apply bind_Ok in C1 as (r1 & R1 & C1). apply bind_Ok in C2 as (r2 & R2 & C2).
  pose proof (add_gpa_score_kind _ _ _ _ zero_is_zero_or_float A) as Ka.
  pose proof (add_budget_score_kind _ _ _ _ Ka B1) as Kb1.
  pose proof (add_budget_score_kind _ _ _ _ Ka B2) as Kb2.
  pose proof (add_test_score_kind _ _ _ _ Kb1 T1) as Kc1.
  pose proof (add_test_score_kind _ _ _ _ Kb2 T2) as Kc2.
  apply flew_num_leb; [|exact N2|exact N1].
  apply (py_round_mono r2 r1 s2 s1);
    [exact (add_rank_score_kind _ _ _ Kc2 R2) | exact (add_rank_score_kind _ _ _ Kc1 R1)
    | | exact C2 | exact C1].
  apply (add_rank_score_order c2 c1 u r2 r1 Kc2 Kc1); [|exact R2|exact R1].
  apply (add_test_score_order b2 b1 u p c2 c1 Kb2 Kb1); [|exact T2|exact T1].
  apply (add_budget_score_tuition a (<["tuition_usd" := t1]> u) (<["tuition_usd" := t2]> u)
           p x1 x2 b b1 b2 Ka); try assumption; rewrite get_insert_eq; assumption.
Qed.

(** Rounding does not depend on the fraction that denotes the rational. *)
Lemma rnd_compat x y : (x == y)%Q -> rnd x = rnd y.
Proof.
  intros E.
  assert (R : (rounded x == rounded y)%Q).
  { apply Qle_antisym; apply rounded_mono; rewrite E; apply Qle_refl. }
  pose proof (pow2_pos 1024) as P.
  destruct (rnd_cases x) as [[X ->]|[[X ->]|(X1 & X2 & ->)]];
    destruct (rnd_cases y) as [[Y ->]|[[Y ->]|(Y1 & Y2 & ->)]];
    try reflexivity; try (exfalso; lra).
  f_equal. apply Qred_complete, R.
Qed.

(** A tuition equal to the budget passes the budget filter and adds no
    points. *)
Lemma tuition_at_budget (u p : dict) (bv : value) (q : Q) (s : num) :
  p !! "budget" = Some bv -> number bv q -> (0 < q)%Q ->
  number (get u "tuition_usd" (VInt 0)) q ->
  budget_cond p u = Ok true /\
  affordability (get u "tuition_usd" (VInt 0)) bv = Ok (NFloat (FFin 0)) /\
  add_budget_score s u p = num_add s (NFloat (FFin 0)).
Proof.
  intros Hp Hb Hq Ht.
  assert (G : forall dflt, get p "budget" dflt = bv) by (intros; unfold get; rewrite Hp; reflexivity).
  assert (C : (q ?= q)%Q = Eq) by (apply Qeq_alt; reflexivity).
  assert (A : affordability (get u "tuition_usd" (VInt 0)) bv = Ok (NFloat (FFin 0))).
  { unfold affordability. rewrite (py_le_number _ q _ q Ht Hb), C. cbn [mbind result_bind].
    rewrite (py_div_total _ q _ q Ht Hb) by lra. cbn [mbind result_bind].
    rewrite one_minus_exact.
    assert (Q1 : (q / q == 1)%Q) by (apply Qmult_inv_r; lra).
    rewrite (rnd_compat (q / q) 1 Q1).
    rewrite rnd_1, fsub_1_1. reflexivity. }
  split; [|split; [exact A|]].
  - unfold budget_cond. rewrite G, (py_le_number _ q _ q Ht Hb), C. reflexivity.
  - unfold add_budget_score. cbv zeta. rewrite G, (py_gt_number_pos _ q Hb Hq).
    cbn [mbind result_bind]. rewrite A. cbn [mbind result_bind].
    rewrite num_mul_float_int by (apply json_int_small; lia).
    cbn [mbind result_bind]. f_equal; try (vm_compute; reflexivity).
Qed.

(** Keys of the profile that the engine does not read. *)
Lemma recommend_other_key self (p : dict) k v h :
  k ∉ ["gpa"; "budget"; "test_score"; "ielts_score";
       "preferred_countries"; "preferred_sectors"] ->
  recommend self (<[k := v]> p) h = recommend self p h.
Proof.
  intros Hk. apply recommend_ext. unfold same_inputs, get.
  assert (N : forall k', k' ∈ ["gpa"; "budget"; "test_score"; "ielts_score";
                               "preferred_countries"; "preferred_sectors"] ->
                         <[k := v]> p !! k' = p !! k').
  { intros k' Hk'. apply lookup_insert_ne. congruence. }
  split; [|split].
  - intros k' Hk'. apply N. apply list_elem_of_In. apply list_elem_of_In in Hk'.
    cbn in *. tauto.
  - rewrite N; [reflexivity|]. rewrite !elem_of_cons. tauto.
  - rewrite N; [reflexivity|]. rewrite !elem_of_cons. tauto.
Qed.

(** ** [recommend] on documented data *)

Lemma filterR_total_on (P : dict -> Prop) cond h l :
  Forall (fun u => exists d, lookup_dict h u = Ok d /\ P d) l ->
  (forall d, P d -> exists b, cond d = Ok b) ->
  exists out, filterR (reads cond h) l = Ok out.
Proof.
  intros Hl Hc. induction Hl as [|u l (d & Hd & Pd) _ (out & IH)]; [exists []; reflexivity|].
  destruct (Hc d Pd) as (b & Hb). exists (if b then u :: out else out).
  rewrite filterR_cons. change (reads cond h u) with (d ← lookup_dict h u; cond d).
  rewrite Hd. cbn [mbind result_bind]. rewrite Hb.
  cbn [mbind result_bind]. rewrite IH. reflexivity.
Qed.

Lemma mapM_total {A B} (f : A -> result B) l :
  Forall (fun x => exists y, f x = Ok y) l -> exists r, mapM f l = Ok r.
Proof.
  induction 1 as [|x l (y & Hy) _ (r & IH)]; [exists []; reflexivity|].
  exists (y :: r). apply mapM_cons_Ok. eauto.
Qed.

Lemma sublist_documented h l l' :
  sublist l' l -> documented_records h l -> documented_records h l'.
Proof.
  intros S. unfold documented_records. rewrite !Forall_forall. intros H x Hx.
  apply H. eapply elem_of_sublist; eassumption.
Qed.

Lemma py_compare_total a b :
  is_number a -> is_number b -> exists c, py_compare a b = Ok (Some c).
Proof. intros (x & Ha) (y & Hb). rewrite (py_compare_number a x b y Ha Hb). eauto. Qed.

Lemma py_compare_inf a :
  is_number a -> exists c, py_compare a (VFloat inf) = Ok (Some c).
Proof. intros (x & Ha). destruct Ha; cbn; eauto. Qed.

Lemma py_test_total (t : option comparison -> bool) a b :
  is_number a -> is_number b -> exists r, t <$> py_compare a b = Ok r.
Proof. intros Ha Hb. destruct (py_compare_total a b Ha Hb) as (c & ->). cbn. eauto. Qed.

Lemma test_score_cond_total ts tol d :
  is_number ts -> is_number tol -> is_number (get d "test_benchmark" (VInt 0)) ->
  exists b, test_score_cond ts tol d = Ok b.
Proof.
  intros (x & Hts) (z & Htol) (y & Hb). unfold test_score_cond.
  destruct (sub_abs_div _ y _ x Hb Hts) as (diff & f & -> & _ & _).
  cbn [mbind result_bind].
  assert (L : exists w, py_le (VNum (num_abs diff)) tol = Ok w).
  { unfold py_le. destruct Htol; cbn; eauto. }
  destruct L as ([] & ->); cbn [mbind result_bind]; [eauto|].
  apply (py_test_total cmp_ge); eexists; eassumption.
Qed.

(** The score of a documented record for a documented profile. *)
Lemma score_bounded (u p : dict) :
  documented_record u -> documented_profile p ->
  exists s q, calculate_match_score u p = Ok s /\
              num_exact s = FFin q /\ (0 <= q <= 411 # 4)%Q.
Proof.
  intros (_ & (c & Hc) & (t & Ht & T) & (tb & Htb) & _ & (w & Hw & W) & _)
         ((g & Hg & G) & Hbud & (ts & Hts) & _).
  assert (Hb : exists b, number (get p "budget" (VInt 0)) b).
  { destruct Hbud as [N|H]; [|exact H]. unfold get. rewrite N.
    exists (inject_Z 0). constructor. apply json_int_small. lia. }
  destruct Hb as (b & Hb).
  unfold calculate_match_score.
  destruct (add_gpa_score_bounded u p g c Hg G Hc) as (s1 & -> & B1).
  cbn [mbind result_bind].
  destruct (add_budget_score_bounded 33 58 s1 u p b t B1) as (s2 & -> & B2);
    [lra | vm_compute; reflexivity | exact Hb | exact Ht | exact T |].
  cbn [mbind result_bind].
  destruct (add_test_score_bounded 58 78 s2 u p ts tb B2) as (s3 & -> & B3);
    [lra | vm_compute; reflexivity | exact Hts | exact Htb |].
  cbn [mbind result_bind].
  destruct (add_rank_score_bounded 78 (411 # 4) s3 u w B3) as (s4 & -> & B4);
    [lra | vm_compute; reflexivity | exact Hw | exact W |].
  cbn [mbind result_bind]. apply py_round_bounded, B4.
Qed.

Lemma optional_stage_total cond pref h l :
  documented_records h l -> list_or_falsy pref ->
  (forall ks d, documented_record d -> exists b, cond (VList ks) d = Ok b) ->
  exists out, optional_stage cond pref h l = Ok out.
Proof.
  intros Hl Hp Hc. unfold optional_stage. destruct (py_bool pref) eqn:B; [|eauto].
  destruct Hp as [F|(ks & ->)]; [congruence|].
  apply (filterR_total_on documented_record); [exact Hl | apply Hc].
Qed.

Lemma run_pipeline_total self p h ds :
  lookup_list h (universities self) = Ok ds ->
  documented_records h ds -> documented_profile p ->
  exists s, run_pipeline h self p = Ok s.
Proof.
  intros Hds Hr Hp. unfold run_pipeline. rewrite Hds. cbn [mbind result_bind].
  pose proof Hp as ((g & Hg & _) & Hbud & Hts & Hi & Hpc & Hps).
  destruct (filterR_total_on documented_record (gpa_cond p) h ds Hr) as (l1 & F1).
  { intros d (Hm & _). apply py_test_total; [eexists; exact Hg | exact Hm]. }
  rewrite F1. cbn [mbind result_bind].
  pose proof (sublist_documented h _ _ (filterR_sublist _ _ _ F1) Hr) as R1.
  destruct (filterR_total_on documented_record (budget_cond p) h l1 R1) as (l2 & F2).
  { intros d (_ & _ & (t & Ht & _) & _). unfold budget_cond, py_le.
    unfold get at 2. destruct (p !! "budget") as [bv|] eqn:Pb; cbn [default].
    - apply py_test_total; [eexists; exact Ht|].
      destruct Hbud as [N|H]; [discriminate|]. unfold get in H. rewrite Pb in H. exact H.
    - destruct (py_compare_inf (get d "tuition_usd" (VInt 0))) as (c & ->);
        [eexists; exact Ht | cbn; eauto]. }
  rewrite F2. cbn [mbind result_bind].
  pose proof (sublist_documented h _ _ (filterR_sublist _ _ _ F2) R1) as R2.
  destruct (filterR_total_on documented_record
              (test_score_cond (get p "test_score" (VInt 0)) (VInt 100)) h l2 R2) as (l3 & F3).
  { intros d (_ & _ & _ & Htb & _). apply test_score_cond_total; [exact Hts| |exact Htb].
    eexists. exact number_100. }
  rewrite F3. cbn [mbind result_bind].
  pose proof (sublist_documented h _ _ (filterR_sublist _ _ _ F3) R2) as R3.
  destruct (filterR_total_on documented_record (ielts_cond p) h l3 R3) as (l4 & F4).
  { intros d (_ & _ & _ & _ & Hm & _). apply py_test_total; [exact Hi | exact Hm]. }
  rewrite F4. cbn [mbind result_bind].
  pose proof (sublist_documented h _ _ (filterR_sublist _ _ _ F4) R3) as R4.
  destruct (optional_stage_total country_cond _ h l4 R4 Hpc) as (l5 & F5).
  { intros ks d _. rewrite country_cond_list. eauto. }
  rewrite F5. cbn [mbind result_bind].
  pose proof (sublist_documented h _ _ (optional_stage_sublist _ _ _ _ _ F5) R4) as R5.
  destruct (optional_stage_total sector_cond _ h l5 R5 Hps) as (l6 & F6).
  { intros ks d (_ & _ & _ & _ & _ & _ & (ts & Hs)). rewrite sector_cond_list, Hs. eauto. }
  rewrite F6. cbn [mbind result_bind].
  pose proof (sublist_documented h _ _ (optional_stage_sublist _ _ _ _ _ F6) R5) as R6.
  destruct (mapM_total (scored h p) l6) as (sds & Hs).
  { eapply Forall_impl; [exact R6|]. cbn. intros u (d & Hd & Dd).
    destruct (score_bounded d p Dd Hp) as (s & q & Hs & _).
    unfold scored. rewrite Hd. cbn [mbind result_bind]. rewrite Hs. cbn. eauto. }
  rewrite Hs. cbn [mbind result_bind]. eauto.
Qed.

(** ** Validation of a request *)

Lemma float_lit_4 : float_lit 4 = FFin 4.
Proof. vm_compute. reflexivity. Qed.

Lemma Qcompare_le_bool x y :
  Qle_bool x y = match Qcompare x y with Gt => false | _ => true end.
Proof.
  destruct (Qcompare_spec x y) as [E|E|E].
  - apply Qle_bool_iff. lra.
  - apply Qle_bool_iff. lra.
  - destruct (Qle_bool x y) eqn:B; [|reflexivity]. apply Qle_bool_iff in B. lra.
Qed.

(** A test of a number against two bounds. *)
Lemma range_test v lo hi (qlo qhi : Q) :
  is_int_or_float v = true ->
  number lo qlo -> number hi qhi ->
  or_else (py_lt v lo) (py_gt v hi)
  = Ok (negb (match as_num v with
              | Ok n =>
                  match num_exact n with
                  | FNaN => true
                  | FInf _ => false
                  | FFin q => Qle_bool qlo q && Qle_bool q qhi
                  end
              | Raise _ => false
              end)).
Proof.
  intros Hv Hlo Hhi.
  destruct (number_as_num lo qlo Hlo) as (nl & Al & El & _).
  destruct (number_as_num hi qhi Hhi) as (nh & Ah & Eh & _).
  assert (Cl : forall n, as_num v = Ok n ->
                         py_compare v lo = Ok (fcompare (num_exact n) (FFin qlo))).
  { intros n Hn. unfold py_compare. destruct v; try discriminate;
      destruct Hlo; cbn in Hn |- *; injection Hn as <-; reflexivity. }
  assert (Ch : forall n, as_num v = Ok n ->
                         py_compare v hi = Ok (fcompare (num_exact n) (FFin qhi))).
  { intros n Hn. unfold py_compare. destruct v; try discriminate;
      destruct Hhi; cbn in Hn |- *; injection Hn as <-; reflexivity. }
  destruct (as_num v) as [n|] eqn:Hn; [|destruct v; discriminate].
  unfold or_else, py_lt, py_gt. rewrite (Cl n eq_refl), (Ch n eq_refl).
  cbn [fmap result_fmap mbind result_bind].
  destruct (num_exact n) as [|[]|q]; cbn; try reflexivity.
  rewrite !Qcompare_le_bool, <- (Qcompare_antisym q qlo).
  destruct (Qcompare q qlo), (Qcompare q qhi); reflexivity.
Qed.

Lemma lower_test v lo (qlo : Q) :
  is_int_or_float v = true -> number lo qlo ->
  py_lt v lo
  = Ok (negb (match as_num v with
              | Ok n =>
                  match num_exact n with
                  | FNaN => true
                  | FInf s => negb s
                  | FFin q => Qle_bool qlo q
                  end
              | Raise _ => false
              end)).
Proof.
  intros Hv Hlo.
  assert (Cl : forall n, as_num v = Ok n ->
                         py_compare v lo = Ok (fcompare (num_exact n) (FFin qlo))).
  { intros n Hn. unfold py_compare. destruct v; try discriminate;
      destruct Hlo; cbn in Hn |- *; injection Hn as <-; reflexivity. }
  destruct (as_num v) as [n|] eqn:Hn; [|destruct v; discriminate].
  unfold py_lt. rewrite (Cl n eq_refl). cbn [fmap result_fmap].
  destruct (num_exact n) as [|[]|q]; cbn; try reflexivity.
  rewrite !Qcompare_le_bool, <- (Qcompare_antisym q qlo).
  destruct (Qcompare q qlo); reflexivity.
Qed.

Lemma number_int_small z : -2000 <= z <= 2000 -> number (VInt z) (inject_Z z).
Proof. intros H. constructor. unfold json_int. change (2 ^ 53) with 9007199254740992. lia. Qed.

Lemma invalid_gpa_spec d :
  app.invalid_gpa (PObject d) = Ok (negb (field_ok d "gpa" (not_outside 0 4))).
Proof.
  unfold app.invalid_gpa, field_ok, payload_get, payload_getitem, get.
  destruct (d !! "gpa") as [v|]; [|reflexivity]. cbn [default mbind result_bind].
  unfold or_else at 1, id. cbn [mbind result_bind].
  destruct (is_int_or_float v) eqn:Hv; cbn [negb].
  - rewrite float_lit_4.
    apply (range_test v (VInt 0) (VFloat (FFin 4)) 0 4 Hv (number_int_small 0 ltac:(lia))).
    apply number_float.
  - unfold not_outside. destruct v; try discriminate; reflexivity.
Qed.

Lemma invalid_ielts_score_spec d :
  app.invalid_ielts_score (PObject d)
  = Ok (negb (field_ok d "ielts_score" (not_outside 0 9))).
Proof.
  unfold app.invalid_ielts_score, field_ok, payload_get, payload_getitem, get.
  destruct (d !! "ielts_score") as [v|]; [|reflexivity]. cbn [default mbind result_bind].
  unfold or_else at 1, id. cbn [mbind result_bind].
  destruct (is_int_or_float v) eqn:Hv; cbn [negb].
  - apply (range_test v (VInt 0) (VInt 9) 0 9 Hv (number_int_small 0 ltac:(lia))
             (number_int_small 9 ltac:(lia))).
  - unfold not_outside. destruct v; try discriminate; reflexivity.
Qed.

Lemma invalid_budget_spec d :
  app.invalid_budget (PObject d) = Ok (negb (field_ok d "budget" not_negative)).
Proof.
  unfold app.invalid_budget, field_ok, payload_get, payload_getitem, get.
  destruct (d !! "budget") as [v|]; [|reflexivity]. cbn [default mbind result_bind].
  unfold or_else at 1, id. cbn [mbind result_bind].
  destruct (is_int_or_float v) eqn:Hv; cbn [negb].
  - apply (lower_test v (VInt 0) 0 Hv (number_int_small 0 ltac:(lia))).
  - unfold not_negative. destruct v; try discriminate; reflexivity.
Qed.

Lemma invalid_test_score_spec d :
  app.invalid_test_score (PObject d)
  = Ok (negb (field_ok d "test_score" (int_between 400 1600))).
Proof.
  unfold app.invalid_test_score, field_ok, payload_get, payload_getitem, get.
  destruct (d !! "test_score") as [v|]; [|reflexivity]. cbn [default mbind result_bind].
  unfold or_else at 1, id. cbn [mbind result_bind].
  destruct v as [|b|[z|f]|s|l]; try reflexivity.
  - destruct b; reflexivity.
  - cbn [is_int negb int_between].
    unfold or_else, py_lt, py_gt, py_compare, num_compare. cbn.
    destruct (Qcompare_spec (inject_Z z) (inject_Z 400)) as [A|A|A];
      destruct (Qcompare_spec (inject_Z z) (inject_Z 1600)) as [B|B|B];
      try apply (proj1 (inject_Z_injective _ _)) in A;
      try apply (proj1 (inject_Z_injective _ _)) in B;
      try rewrite <- Zlt_Qlt in A; try rewrite <- Zlt_Qlt in B;
      destruct (Z.leb_spec 400 z), (Z.leb_spec z 1600); try reflexivity; lia.
Qed.

(** ** [POST /api/recommend] *)

Lemma valid_request_fields d :
  valid_request d = true ->
  is_Some (d !! "gpa") /\ is_Some (d !! "budget") /\
  is_Some (d !! "test_score") /\ is_Some (d !! "ielts_score").
Proof.
  unfold valid_request, field_ok. intros H.
  apply andb_true_iff in H as [H H4]. apply andb_true_iff in H as [H H3].
  apply andb_true_iff in H as [H1 H2].
  destruct (d !! "gpa"), (d !! "budget"), (d !! "test_score"), (d !! "ielts_score");
    try discriminate; eauto.
Qed.

Lemma missing_fields_object d :
  filterR (fun field => negb <$> payload_contains (PObject d) field) app.required_fields
  = Ok (filter (fun field => d !! field = None) app.required_fields).
Proof.
  unfold app.required_fields.
  assert (E : forall f, negb <$> payload_contains (PObject d) f
                        = Ok (bool_decide (d !! f = None))).
  { intros f. cbn. f_equal. destruct (d !! f) eqn:Hf.
    - rewrite bool_decide_eq_true_2 by eauto. rewrite bool_decide_eq_false_2; [reflexivity|].
      discriminate.
    - rewrite bool_decide_eq_false_2 by (intros [? ?]; discriminate).
      rewrite bool_decide_eq_true_2; reflexivity. }
  cbn [filterR]. rewrite !E. cbn [mbind result_bind]. rewrite !filter_cons, filter_nil.
  repeat match goal with
         | |- context [bool_decide (?P)] => destruct (decide P) as [?|?];
             [rewrite (bool_decide_eq_true_2 P) by assumption
             |rewrite (bool_decide_eq_false_2 P) by assumption]
         end; reflexivity.
Qed.

(** The handler after the validation. *)
Lemma recommend_handler_valid (rec : recommender) d h :
  valid_request d = true ->
  app.recommend rec (PObject d) h =
    respond (recommendations ← recommend rec d;
             top_recommendations ← list_slice_to 20 recommendations;
             count ← list_len top_recommendations;
             total_matches ← list_len recommendations;
             records ← json_records top_recommendations;
             mret {| body := [("success", JBool true);
                              ("count", JInt count);
                              ("total_matches", JInt total_matches);
                              ("user_profile", JRecord d);
                              ("recommendations", records)];
                     status := 200 |}) h.
Proof.
  intros V. pose proof (valid_request_fields d V) as ((g & Hg) & (b & Hb) & (t & Ht) & (i & Hi)).
  unfold app.recommend, respond.
  assert (N : payload_bool (PObject d) = true).
  { cbn. rewrite bool_decide_eq_false_2; [reflexivity|]. intros ->.
    rewrite lookup_empty in Hg. discriminate. }
  rewrite N. cbn [negb]. rewrite M_bind_eq. unfold lift at 1.
  rewrite missing_fields_object. unfold app.required_fields.
  rewrite !filter_cons, filter_nil, Hg, Hb, Ht, Hi.
  repeat (rewrite decide_False by discriminate).
  rewrite bool_decide_eq_true_2 by reflexivity. cbn [negb].
  unfold valid_request in V.
  apply andb_true_iff in V as [V V4]. apply andb_true_iff in V as [V V3].
  apply andb_true_iff in V as [V1 V2].
  rewrite M_bind_eq. unfold lift at 1. rewrite invalid_gpa_spec, V1. cbn [negb].
  rewrite M_bind_eq. unfold lift at 1. rewrite invalid_budget_spec, V2. cbn [negb].
  rewrite M_bind_eq. unfold lift at 1. rewrite invalid_test_score_spec, V3. cbn [negb].
  rewrite M_bind_eq. unfold lift at 1. rewrite invalid_ielts_score_spec, V4. cbn [negb].
  reflexivity.
Qed.

Lemma recommend_handler_invalid (rec : recommender) d h :
  valid_request d = false -> status (app.recommend rec (PObject d) h) = 400.
Proof.
  intros V. unfold app.recommend, respond.
  destruct (payload_bool (PObject d)) eqn:N; cbn [negb]; [|reflexivity].
  rewrite M_bind_eq. unfold lift at 1. rewrite missing_fields_object.
  destruct (bool_decide (filter (fun field => d !! field = None) app.required_fields = []))
    eqn:Mi; cbn [negb]; [|reflexivity].
  apply bool_decide_eq_true in Mi.
  unfold valid_request in V.
  rewrite M_bind_eq. unfold lift at 1. rewrite invalid_gpa_spec.
  destruct (field_ok d "gpa" (not_outside 0 4)); cbn [negb andb] in V |- *; [|reflexivity].
  rewrite M_bind_eq. unfold lift at 1. rewrite invalid_budget_spec.
  destruct (field_ok d "budget" not_negative); cbn [negb andb] in V |- *; [|reflexivity].
  rewrite M_bind_eq. unfold lift at 1. rewrite invalid_test_score_spec.
  destruct (field_ok d "test_score" (int_between 400 1600)); cbn [negb andb] in V |- *;
    [|reflexivity].
  rewrite M_bind_eq. unfold lift at 1. rewrite invalid_ielts_score_spec.
  rewrite V. reflexivity.
Qed.

Lemma mapM_lookup_dict_app h ext l ds :
  mapM (lookup_dict h) l = Ok ds -> mapM (lookup_dict (h ++ ext)) l = Ok ds.
Proof.
  revert ds. induction l as [|x l IH]; intros ds; [auto|].
  rewrite !mapM_cons_Ok. intros (y & k & Hy & Hk & ->). exists y, k.
  split; [apply lookup_dict_app, Hy|]. split; [apply IH, Hk | reflexivity].
Qed.

(** The response when the engine returns. *)
Lemma recommend_handler_served (rec : recommender) d h r h' ranked top :
  valid_request d = true ->
  recommend rec d h = Ok (r, h') ->
  lookup_list h' r = Ok ranked ->
  mapM (lookup_dict h') (take 20 ranked) = Ok top ->
  app.recommend rec (PObject d) h
  = recommendations_response (PObject d) (length ranked) top.
Proof.
  intros V Hrec Hr Htop. rewrite (recommend_handler_valid rec d h V). unfold respond.
  rewrite M_bind_eq, Hrec. rewrite M_bind_eq. unfold list_slice_to.
  rewrite M_bind_eq. unfold read_list at 1. rewrite Hr. cbn [mbind result_bind].
  unfold alloc. rewrite M_bind_eq. unfold list_len at 1. rewrite M_bind_eq.
  pose proof (lookup_list_last h' [] (take 20 ranked)) as L. rewrite app_nil_r in L.
  cbn [app] in L. unfold read_list at 1. rewrite L. cbn [mbind result_bind mret M_ret].
  rewrite M_bind_eq. unfold list_len. rewrite M_bind_eq. unfold read_list at 1.
  rewrite (lookup_list_app _ _ _ _ Hr). cbn [mbind result_bind mret M_ret].
  rewrite M_bind_eq. unfold json_records. rewrite L. cbn [mbind result_bind].
  rewrite (mapM_lookup_dict_app _ _ _ _ Htop). cbn [mbind result_bind].
  unfold recommendations_response. cbn [payload_json].
  rewrite (mapM_Ok_length _ _ _ Htop). reflexivity.
Qed.

Lemma recommend_handler_failed (rec : recommender) d h e :
  valid_request d = true ->
  recommend rec d h = Raise e ->
  app.recommend rec (PObject d) h = error_response (JMessage e) 500.
Proof.
  intros V Hrec. rewrite (recommend_handler_valid rec d h V). unfold respond.
  rewrite M_bind_eq, Hrec. reflexivity.
Qed.

(** The records of the list that [recommend] returns. *)
Lemma recommend_returns_records rec d h r h' :
  recommend rec d h = Ok (r, h') ->
  exists ranked ds, lookup_list h' r = Ok ranked /\ mapM (lookup_dict h') ranked = Ok ds.
Proof.
  intros H. apply returned_records in H as (dataset & outl & _ & Hl & Hc).
  exists outl. destruct (mapM_total (lookup_dict h') outl) as (ds & Hds); [|eauto].
  apply Forall_forall. intros c Hin.
  destruct (Hc c Hin) as (_ & u & d0 & sc & _ & _ & _ & _ & _ & _ & _ & Hd). eauto.
Qed.

Lemma mapM_take {A B} (f : A -> result B) l ds n :
  mapM f l = Ok ds -> mapM f (take n l) = Ok (take n ds).
Proof.
  revert ds n. induction l as [|x l IH]; intros ds n.
  - intros [= <-]. destruct n; reflexivity.
  - rewrite mapM_cons_Ok. intros (y & k & Hy & Hk & ->). destruct n; [reflexivity|].
    cbn [take]. apply mapM_cons_Ok. exists y, (take n k). auto.
Qed.

(** ** [GET /api/universities] *)

Lemma and_then_Ok (b : bool) r : and_then (Ok b) r = if b then r else Ok false.
Proof. reflexivity. Qed.

Lemma and_then_Raise e r : and_then (Raise e) r = Raise e.
Proof. reflexivity. Qed.

(** Two filters in a row select what one filter with both tests selects. *)
Lemma filterR_fuse {A} (f g : A -> result bool) (e0 : exn) l :
  (forall x e, x ∈ l -> f x = Raise e -> e = e0) ->
  (forall x e, x ∈ l -> g x = Raise e -> e = e0) ->
  (out ← filterR f l; filterR g out) = filterR (fun x => and_then (f x) (g x)) l.
Proof.
  induction l as [|x l IH]; intros Hf Hg; [reflexivity|].
  assert (IH' : (out ← filterR f l; filterR g out)
                = filterR (fun x => and_then (f x) (g x)) l).
  { apply IH; intros y e Hy; [apply Hf | apply Hg]; right; exact Hy. }
  clear IH. rewrite !filterR_cons. cbv beta.
  destruct (f x) as [[]|e] eqn:Fx; rewrite ?and_then_Ok, ?and_then_Raise;
    cbn [mbind result_bind].
  - destruct (filterR f l) as [r|e] eqn:Fl; cbn [mbind result_bind] in IH' |- *.
    + rewrite filterR_cons, IH'. reflexivity.
    + rewrite <- IH'. destruct (g x) as [b|e'] eqn:Gx; cbn [mbind result_bind].
      * reflexivity.
      * assert (e' = e0) as -> by (eapply Hg; [left|exact Gx]).
        assert (X : exists y, y ∈ l /\ f y = Raise e) by (apply filterR_Raise, Fl).
        destruct X as (y & Hy & Fy).
        assert (e = e0) as -> by (eapply Hf; [right; exact Hy|exact Fy]). reflexivity.
  - rewrite <- IH'. destruct (filterR f l) as [a|]; cbn [mbind result_bind];
      [destruct (filterR g a)|]; reflexivity.
  - assert (e = e0) as -> by (eapply Hf; [left|exact Fx]). reflexivity.
Qed.

Lemma filterR_true {A} (l : list A) : filterR (fun _ => Ok true) l = Ok l.
Proof. induction l as [|x l IH]; [reflexivity|]. rewrite filterR_cons, IH. reflexivity. Qed.

Lemma reads_records_ext cond cond' h l :
  records h l ->
  (forall d, cond d = cond' d) ->
  filterR (reads cond h) l = filterR (reads cond' h) l.
Proof.
  intros _ E. apply filterR_ext. intros x _. unfold reads.
  destruct (lookup_dict h x); [apply E | reflexivity].
Qed.

Lemma filterR_reads_true h l : records h l -> filterR (reads (fun _ => Ok true) h) l = Ok l.
Proof.
  intros Hl. rewrite <- (filterR_true l). apply filterR_ext. intros x Hx.
  unfold records in Hl. rewrite Forall_forall in Hl. destruct (Hl x Hx) as (d & Hd).
  unfold reads. rewrite Hd. reflexivity.
Qed.

(** A stage of the handler: a comprehension when the parameter is given. *)
Lemma query_stage_eq {A} (o : option A) (test : A -> dict -> result bool) u h ext l :
  Forall is_list_object ext -> lookup_list (h ++ ext) u = Ok l -> records h l ->
  match filterR (reads (when_given o test) h) l with
  | Ok l' =>
      exists u' ext',
        match o with Some a => list_comp (test a) u | None => mret u end (h ++ ext)
        = Ok (u', h ++ ext') /\
        Forall is_list_object ext' /\ lookup_list (h ++ ext') u' = Ok l'
  | Raise e =>
      match o with Some a => list_comp (test a) u | None => mret u end (h ++ ext)
      = Raise e
  end.
Proof.
  intros Hext Hl Hr. destruct o as [a|].
  - pose proof (list_comp_eq (test a) u h ext l Hext Hl) as E.
    change (when_given (Some a) test) with (test a).
    destruct (filterR (reads (test a) h) l) as [l'|e]; [|exact E].
    exists (length (h ++ ext)), (ext ++ [OList l']). split; [exact E|].
    split; [apply Forall_lists_snoc, Hext | apply lookup_list_last].
  - change (when_given None test) with (fun _ : dict => @Ok bool true).
    rewrite (filterR_reads_true h l Hr). exists u, ext. auto.
Qed.

Lemma result_bind_assoc {A B C} (m : result A) (f : A -> result B) (g : B -> result C) :
  (m ≫= f) ≫= g = m ≫= (fun x => f x ≫= g).
Proof. destruct m; reflexivity. Qed.

Lemma and_then_Raise_inv a b e e0 :
  (forall e, a = Raise e -> e = e0) -> (forall e, b = Raise e -> e = e0) ->
  and_then a b = Raise e -> e = e0.
Proof.
  intros Ha Hb. destruct a as [[]|e1]; rewrite ?and_then_Ok, ?and_then_Raise.
  - apply Hb.
  - discriminate.
  - intros [= <-]. apply Ha. reflexivity.
Qed.

(** Filters on the records of a list, one after the other. *)
Lemma filterR_reads_fuse c1 c2 h l :
  records h l ->
  (forall d e, c1 d = Raise e -> e = TypeError) ->
  (forall d e, c2 d = Raise e -> e = TypeError) ->
  (out ← filterR (reads c1 h) l; filterR (reads c2 h) out)
  = filterR (reads (fun d => and_then (c1 d) (c2 d)) h) l.
Proof.
  intros Hl H1 H2. unfold records in Hl. rewrite Forall_forall in Hl.
  rewrite (filterR_fuse _ _ TypeError).
  - apply filterR_ext. intros x Hx. destruct (Hl x Hx) as (d & Hd).
    unfold reads. rewrite Hd. reflexivity.
  - intros x e Hx. destruct (Hl x Hx) as (d & Hd). unfold reads. rewrite Hd. apply H1.
  - intros x e Hx. destruct (Hl x Hx) as (d & Hd). unfold reads. rewrite Hd. apply H2.
Qed.

Lemma when_given_Raise {A} (o : option A) test d e :
  (forall a d e, test a d = Raise e -> e = TypeError) ->
  when_given o test d = Raise e -> e = TypeError.
Proof. intros H. destruct o; cbn; [apply H | discriminate]. Qed.

Lemma json_records_lists h ext u l ds :
  Forall is_list_object ext -> lookup_list (h ++ ext) u = Ok l ->
  mapM (lookup_dict h) l = Ok ds ->
  json_records u (h ++ ext) = Ok (JRecords ds, h ++ ext).
Proof.
  intros Hext Hl Hds. unfold json_records. rewrite Hl. cbn [mbind result_bind].
  rewrite (mapM_lookup_dict_app _ _ _ _ Hds). reflexivity.
Qed.

Lemma records_mapM h l : records h l -> exists ds, mapM (lookup_dict h) l = Ok ds.
Proof. intros H. apply mapM_total. exact H. Qed.

(** The handler computes the filters of the given parameters in turn. *)
Lemma get_universities_stages (rec : recommender) country max_tuition min_rank max_rank
    h ds :
  lookup_list h (universities rec) = Ok ds -> records h ds ->
  match
    l1 ← filterR (reads (when_given country (fun c u =>
            Ok (negb (py_bool (VStr c)) || value_eqb_str (get u "country" VNone) c))) h) ds;
    l2 ← filterR (reads (when_given max_tuition (fun m u =>
            py_le (get u "tuition_usd" (VInt 0)) (VFloat m))) h) l1;
    l3 ← filterR (reads (when_given min_rank (fun m u =>
            py_ge (get u "world_rank" (VInt 999)) (VInt m))) h) l2;
    filterR (reads (when_given max_rank (fun m u =>
            py_le (get u "world_rank" (VInt 999)) (VInt m))) h) l3
  with
  | Ok out =>
      exists recs, mapM (lookup_dict h) out = Ok recs /\
        app.get_universities rec country max_tuition min_rank max_rank h
        = universities_response recs
  | Raise e =>
      app.get_universities rec country max_tuition min_rank max_rank h
      = error_response (JMessage e) 500
  end.
Proof.
  intros Hds Hr. unfold app.get_universities, respond.
  rewrite M_bind_eq. unfold get_all_universities. cbn [mret M_ret].
  assert (E0 : Forall is_list_object []) by constructor.
  assert (L0 : lookup_list (h ++ []) (universities rec) = Ok ds) by (rewrite app_nil_r; exact Hds).
  (* country *)
  set (o1 := match country with
             | Some c => if py_bool (VStr c) then Some c else None
             | None => None
             end).
  assert (C1 : filterR (reads (when_given country (fun c u =>
                 Ok (negb (py_bool (VStr c)) || value_eqb_str (get u "country" VNone) c))) h) ds
               = filterR (reads (when_given o1 (fun c u =>
                 Ok (value_eqb_str (get u "country" VNone) c))) h) ds).
  { apply reads_records_ext; [exact Hr|]. intros d. unfold o1.
    destruct country as [c|]; [|reflexivity]. cbn [when_given].
    destruct (py_bool (VStr c)); reflexivity. }
  rewrite C1.
  pose proof (query_stage_eq o1 (fun c u => Ok (value_eqb_str (get u "country" VNone) c))
                _ h [] ds E0 L0 Hr) as S1.
  rewrite app_nil_r in S1. rewrite M_bind_eq.
  assert (X1 : (match country with
                | Some c =>
                    if py_bool (VStr c)
                    then list_comp (fun u => Ok (value_eqb_str (get u "country" VNone) c))
                           (universities rec)
                    else mret (universities rec)
                | None => mret (universities rec)
                end) h
               = (match o1 with
                  | Some a => list_comp (fun u => Ok (value_eqb_str (get u "country" VNone) a))
                                (universities rec)
                  | None => mret (universities rec)
                  end) h).
  { unfold o1. destruct country as [c|]; [|reflexivity].
    destruct (py_bool (VStr c)); reflexivity. }
  rewrite X1. clear X1 C1.
  destruct (filterR (reads (when_given o1 _) h) ds) as [l1|e] eqn:F1;
    cbn [mbind result_bind]; [|rewrite S1; reflexivity].
  destruct S1 as (u1 & ext1 & -> & E1 & L1).
  pose proof (sublist_records h _ _ (filterR_sublist _ _ _ F1) Hr) as R1.
  (* max_tuition *)
  pose proof (query_stage_eq max_tuition
                (fun m u => py_le (get u "tuition_usd" (VInt 0)) (VFloat m))
                _ h ext1 l1 E1 L1 R1) as S2.
  rewrite M_bind_eq.
  destruct (filterR (reads (when_given max_tuition _) h) l1) as [l2|e] eqn:F2;
    cbn [mbind result_bind]; [|rewrite S2; reflexivity].
  destruct S2 as (u2 & ext2 & -> & E2 & L2).
  pose proof (sublist_records h _ _ (filterR_sublist _ _ _ F2) R1) as R2.
  (* min_rank *)
  pose proof (query_stage_eq min_rank
                (fun m u => py_ge (get u "world_rank" (VInt 999)) (VInt m))
                _ h ext2 l2 E2 L2 R2) as S3.
  rewrite M_bind_eq.
  destruct (filterR (reads (when_given min_rank _) h) l2) as [l3|e] eqn:F3;
    cbn [mbind result_bind]; [|rewrite S3; reflexivity].
  destruct S3 as (u3 & ext3 & -> & E3 & L3).
  pose proof (sublist_records h _ _ (filterR_sublist _ _ _ F3) R2) as R3.
  (* max_rank *)
  pose proof (query_stage_eq max_rank
                (fun m u => py_le (get u "world_rank" (VInt 999)) (VInt m))
                _ h ext3 l3 E3 L3 R3) as S4.
  rewrite M_bind_eq.
  destruct (filterR (reads (when_given max_rank _) h) l3) as [l4|e] eqn:F4;
    [|rewrite S4; reflexivity].
  destruct S4 as (u4 & ext4 & -> & E4 & L4).
  pose proof (sublist_records h _ _ (filterR_sublist _ _ _ F4) R3) as R4.
  destruct (records_mapM h l4 R4) as (recs & Hrecs). exists recs. split; [exact Hrecs|].
  rewrite M_bind_eq. unfold list_len. rewrite M_bind_eq. unfold read_list. rewrite L4.
  cbn [mbind result_bind mret M_ret]. rewrite M_bind_eq.
  rewrite (json_records_lists h ext4 u4 l4 recs E4 L4 Hrecs).
  unfold universities_response. rewrite (mapM_Ok_length _ _ _ Hrecs). reflexivity.
Qed.

(** The handler selects the records that pass the tests of all the given
    parameters. *)
Lemma get_universities_select (rec : recommender) country max_tuition min_rank max_rank
    h ds :
  lookup_list h (universities rec) = Ok ds -> records h ds ->
  match filterR (reads (query_cond country max_tuition min_rank max_rank) h) ds with
  | Ok out =>
      exists recs, mapM (lookup_dict h) out = Ok recs /\
        app.get_universities rec country max_tuition min_rank max_rank h
        = universities_response recs
  | Raise e =>
      e = TypeError /\
      app.get_universities rec country max_tuition min_rank max_rank h
      = error_response (JMessage TypeError) 500
  end.
Proof.
  intros Hds Hr.
  pose proof (get_universities_stages rec country max_tuition min_rank max_rank h ds Hds Hr)
    as S.
  set (c1 := when_given country (fun c u =>
               Ok (negb (py_bool (VStr c)) || value_eqb_str (get u "country" VNone) c))) in *.
  set (c2 := when_given max_tuition (fun m u =>
               py_le (get u "tuition_usd" (VInt 0)) (VFloat m))) in *.
  set (c3 := when_given min_rank (fun m u =>
               py_ge (get u "world_rank" (VInt 999)) (VInt m))) in *.
  set (c4 := when_given max_rank (fun m u =>
               py_le (get u "world_rank" (VInt 999)) (VInt m))) in *.
  assert (T1 : forall d e, c1 d = Raise e -> e = TypeError).
  { intros d e. apply when_given_Raise. discriminate. }
  assert (T2 : forall d e, c2 d = Raise e -> e = TypeError).
  { intros d e. apply when_given_Raise. intros a d' e'. apply py_test_Raise. }
  assert (T3 : forall d e, c3 d = Raise e -> e = TypeError).
  { intros d e. apply when_given_Raise. intros a d' e'. apply py_test_Raise. }
  assert (T4 : forall d e, c4 d = Raise e -> e = TypeError).
  { intros d e. apply when_given_Raise. intros a d' e'. apply py_test_Raise. }
  assert (T12 : forall d e, and_then (c1 d) (c2 d) = Raise e -> e = TypeError).
  { intros d e. apply and_then_Raise_inv; [apply T1 | apply T2]. }
  assert (T123 : forall d e, and_then (and_then (c1 d) (c2 d)) (c3 d) = Raise e ->
                             e = TypeError).
  { intros d e. apply and_then_Raise_inv; [apply T12 | apply T3]. }
  assert (E : filterR (reads (query_cond country max_tuition min_rank max_rank) h) ds
              = (l1 ← filterR (reads c1 h) ds; l2 ← filterR (reads c2 h) l1;
                 l3 ← filterR (reads c3 h) l2; filterR (reads c4 h) l3)).
  { unfold query_cond. fold c1 c2 c3 c4.
    rewrite <- (filterR_reads_fuse (fun d => and_then (and_then (c1 d) (c2 d)) (c3 d)) c4
                  h ds Hr T123 T4).
    rewrite <- (filterR_reads_fuse (fun d => and_then (c1 d) (c2 d)) c3 h ds Hr T12 T3).
    rewrite <- (filterR_reads_fuse c1 c2 h ds Hr T1 T2).
    rewrite !result_bind_assoc. reflexivity. }
  rewrite E.
  destruct (l1 ← filterR (reads c1 h) ds; l2 ← filterR (reads c2 h) l1;
            l3 ← filterR (reads c3 h) l2; filterR (reads c4 h) l3) as [out|e] eqn:Q.
  - exact S.
  - assert (e = TypeError) as ->; [|auto].
    assert (K : forall c l e, (forall d e, c d = Raise e -> e = TypeError) ->
                records h l -> filterR (reads c h) l = Raise e -> e = TypeError).
    { intros c l e' Hc Hl F. apply filterR_reads_Raise in F as (d & Hd); [|exact Hl].
      eapply Hc, Hd. }
    apply bind_Raise in Q as [Q|(l1 & F1 & Q)]; [eapply (K c1); eassumption|].
    pose proof (sublist_records h _ _ (filterR_sublist _ _ _ F1) Hr) as R1.
    apply bind_Raise in Q as [Q|(l2 & F2 & Q)]; [eapply (K c2); eassumption|].
    pose proof (sublist_records h _ _ (filterR_sublist _ _ _ F2) R1) as R2.
    apply bind_Raise in Q as [Q|(l3 & F3 & Q)]; [eapply (K c3); eassumption|].
    pose proof (sublist_records h _ _ (filterR_sublist _ _ _ F3) R2) as R3.
    eapply (K c4); eassumption.
Qed.



(** A valid request is answered with status 200 or 500. *)
Lemma recommend_handler_status (rec : recommender) d h :
  valid_request d = true ->
  status (app.recommend rec (PObject d) h) = 200 \/
  status (app.recommend rec (PObject d) h) = 500.
Proof.
  intros V. rewrite (recommend_handler_valid rec d h V). unfold respond.
  rewrite M_bind_eq. destruct (recommend rec d h) as [[r h1]|e]; [|right; reflexivity].
  rewrite M_bind_eq. destruct (list_slice_to 20 r h1) as [[t h2]|e]; [|right; reflexivity].
  rewrite M_bind_eq. destruct (list_len t h2) as [[c h3]|e]; [|right; reflexivity].
  rewrite M_bind_eq. destruct (list_len r h3) as [[m h4]|e]; [|right; reflexivity].
  rewrite M_bind_eq. destruct (json_records t h4) as [[j h5]|e]; [|right; reflexivity].
  left. reflexivity.
Qed.

(** [recommend] on documented data. *)
Lemma recommend_total self p h ds :
  lookup_list h (universities self) = Ok ds ->
  documented_records h ds -> documented_profile p ->
  exists r h', recommend self p h = Ok (r, h').
Proof.
  intros Hds Hr Hp. rewrite recommend_eq.
  destruct (run_pipeline_total self p h ds Hds Hr Hp) as (s & ->). eauto.
Qed.

Lemma score_at_copy h c sc (d : dict) :
  lookup_dict h c = Ok (<["match_score" := VNum sc]> d) -> score_at h c = Some sc.
Proof.
  intros H. apply lookup_dict_Ok in H. unfold score_at. rewrite H, lookup_insert_eq.
  reflexivity.
Qed.

Lemma recommend_scores self p h ds r h' outl :
  lookup_list h (universities self) = Ok ds ->
  documented_records h ds -> documented_profile p ->
  recommend self p h = Ok (r, h') -> lookup_list h' r = Ok outl ->
  forall c, c ∈ outl ->
    exists k q, score_at h' c = Some k /\ num_exact k = FFin q /\ (0 <= q <= 411 # 4)%Q.
Proof.
  intros Hds Hr Hp H Hl c Hc.
  apply returned_records in H as (dataset & outl' & Hds' & Hl' & Hall).
  assert (outl' = outl) as -> by congruence.
  assert (dataset = ds) as -> by congruence.
  destruct (Hall c Hc) as (_ & u & d & sc & Hu & Hd & _ & _ & _ & _ & Hsc & Hd').
  unfold documented_records in Hr. rewrite Forall_forall in Hr.
  destruct (Hr u Hu) as (d0 & Hd0 & Dd). assert (d0 = d) as -> by congruence.
  destruct (score_bounded d p Dd Hp) as (s & q & Hs & Es & Hq).
  assert (s = sc) as -> by congruence.
  exists sc, q. split; [eapply score_at_copy, Hd' | auto].
Qed.

(** ** Deciding the documented shapes *)

Lemma number_from_number lo v :
  number_from lo v = true -> exists q, number v q /\ (lo <= q)%Q.
Proof.
  destruct v as [|b|[z|[| |q]]|s|l]; cbn; try discriminate.
  - intros H. apply Qle_bool_iff in H. eexists. split; [apply number_bool | exact H].
  - intros H. apply andb_true_iff in H as [H H3]. apply andb_true_iff in H as [H1 H2].
    apply Z.leb_le in H1, H2. apply Qle_bool_iff in H3.
    eexists. split; [apply number_int; split; assumption | exact H3].
  - intros H. apply Qle_bool_iff in H. eexists. split; [apply number_float | exact H].
Qed.

Lemma is_numberb_number v : is_numberb v = true -> is_number v.
Proof.
  destruct v as [|b|[z|[| |q]]|s|l]; cbn; try discriminate.
  - intros _. eexists. apply number_bool.
  - intros H. apply andb_true_iff in H as [H1 H2]. apply Z.leb_le in H1, H2.
    eexists. apply number_int. split; assumption.
  - intros _. eexists. apply number_float.
Qed.

Lemma documented_recordb_ok d : documented_recordb d = true -> documented_record d.
Proof.
  unfold documented_recordb, documented_record. intros H.
  apply andb_true_iff in H as [H H7]. apply andb_true_iff in H as [H H6].
  apply andb_true_iff in H as [H H5]. apply andb_true_iff in H as [H H4].
  apply andb_true_iff in H as [H H3]. apply andb_true_iff in H as [H1 H2].
  split; [apply is_numberb_number, H1|]. split; [apply is_numberb_number, H2|].
  split; [apply number_from_number, H3|]. split; [apply is_numberb_number, H4|].
  split; [apply is_numberb_number, H5|]. split; [apply number_from_number, H6|].
  eapply bool_decide_eq_true, H7.
Qed.

Lemma list_or_falsyb_ok v : list_or_falsyb v = true -> list_or_falsy v.
Proof.
  unfold list_or_falsy, list_or_falsyb. intros H.
  destruct v; try (right; eexists; reflexivity); left; apply negb_true_iff; exact H.
Qed.

Lemma documented_profileb_ok p : documented_profileb p = true -> documented_profile p.
Proof.
  unfold documented_profileb, documented_profile. intros H.
  apply andb_true_iff in H as [H H6]. apply andb_true_iff in H as [H H5].
  apply andb_true_iff in H as [H H4]. apply andb_true_iff in H as [H H3].
  apply andb_true_iff in H as [H1 H2].
  split; [apply number_from_number, H1|]. split.
  { apply orb_true_iff in H2 as [N|N]; [left; eapply bool_decide_eq_true, N|].
    right. apply is_numberb_number, N. }
  split; [apply is_numberb_number, H3|]. split; [apply is_numberb_number, H4|].
  split; apply list_or_falsyb_ok; assumption.
Qed.

Lemma is_record_ok h l : forallb (is_record h) l = true -> records h l.
Proof.
  intros H. apply Forall_forall. intros u Hu.
  rewrite forallb_forall in H. specialize (H u (proj1 (list_elem_of_In _ _) Hu)).
  unfold is_record in H. unfold lookup_dict.
  destruct (h !! u) as [[d|]|]; try discriminate. eauto.
Qed.

Lemma is_documented_ok h l : forallb (is_documented h) l = true -> documented_records h l.
Proof.
  intros H. apply Forall_forall. intros u Hu.
  rewrite forallb_forall in H. specialize (H u (proj1 (list_elem_of_In _ _) Hu)).
  unfold is_documented in H. unfold lookup_dict.
  destruct (h !! u) as [[d|]|]; try discriminate. eauto using documented_recordb_ok.
Qed.


(** ** A request with a preference that is not a list *)

Lemma filterR_all_raise cond h u l e :
  records h (u :: l) -> (forall d, cond d = Raise e) ->
  filterR (reads cond h) (u :: l) = Raise e.
Proof.
  intros Hr Hc. apply Forall_cons in Hr as [(d & Hd) _].
  rewrite filterR_cons. change (reads cond h u) with (d ← lookup_dict h u; cond d).
  rewrite Hd. cbn [mbind result_bind].
  rewrite Hc. reflexivity.
Qed.

Lemma documented_records_records h l : documented_records h l -> records h l.
Proof. intros H. eapply Forall_impl; [exact H|]. intros u (d & Hd & _). eauto. Qed.

(** The four mandatory filters on documented data. *)
Lemma mandatory_filters_total (p : dict) h ds :
  documented_records h ds -> documented_profile p ->
  exists l1 l2 l3 l4,
    filterR (reads (gpa_cond p) h) ds = Ok l1 /\
    filterR (reads (budget_cond p) h) l1 = Ok l2 /\
    filterR (reads (test_score_cond (get p "test_score" (VInt 0)) (VInt 100)) h) l2
    = Ok l3 /\
    filterR (reads (ielts_cond p) h) l3 = Ok l4 /\
    documented_records h l4.
Proof.
  intros Hr Hp.
  pose proof Hp as ((g & Hg & _) & Hbud & Hts & Hi & Hpc & Hps).
  destruct (filterR_total_on documented_record (gpa_cond p) h ds Hr) as (l1 & F1).
  { intros d (Hm & _). apply py_test_total; [eexists; exact Hg | exact Hm]. }
  pose proof (sublist_documented h _ _ (filterR_sublist _ _ _ F1) Hr) as R1.
  destruct (filterR_total_on documented_record (budget_cond p) h l1 R1) as (l2 & F2).
  { intros d (_ & _ & (t & Ht & _) & _). unfold budget_cond, py_le.
    unfold get at 2. destruct (p !! "budget") as [bv|] eqn:Pb; cbn [default].
    - apply py_test_total; [eexists; exact Ht|].
      destruct Hbud as [N|H]; [discriminate|]. unfold get in H. rewrite Pb in H. exact H.
    - destruct (py_compare_inf (get d "tuition_usd" (VInt 0))) as (c & ->);
        [eexists; exact Ht | cbn; eauto]. }
  pose proof (sublist_documented h _ _ (filterR_sublist _ _ _ F2) R1) as R2.
  destruct (filterR_total_on documented_record
              (test_score_cond (get p "test_score" (VInt 0)) (VInt 100)) h l2 R2) as (l3 & F3).
  { intros d (_ & _ & _ & Htb & _). apply test_score_cond_total; [exact Hts| |exact Htb].
    eexists. exact number_100. }
  pose proof (sublist_documented h _ _ (filterR_sublist _ _ _ F3) R2) as R3.
  destruct (filterR_total_on documented_record (ielts_cond p) h l3 R3) as (l4 & F4).
  { intros d (_ & _ & _ & _ & Hm & _). apply py_test_total; [exact Hi | exact Hm]. }
  pose proof (sublist_documented h _ _ (filterR_sublist _ _ _ F4) R3) as R4.
  exists l1, l2, l3, l4. auto.
Qed.

Lemma get_delete_ne (p : dict) k k' dflt :
  k <> k' -> get (delete k p) k' dflt = get p k' dflt.
Proof. intros H. unfold get. rewrite lookup_delete_ne by exact H. reflexivity. Qed.

(** [recommend] with a truthy preference for the countries that is no
    container raises [TypeError] as soon as a record passes the mandatory
    filters. *)
Lemma recommend_scalar_countries self (p : dict) h ds u du :
  lookup_list h (universities self) = Ok ds -> documented_records h ds ->
  documented_profile (delete "preferred_countries" p) ->
  scalar_preference (get p "preferred_countries" (VList [])) ->
  u ∈ ds -> lookup_dict h u = Ok du ->
  gpa_cond p du = Ok true -> budget_cond p du = Ok true ->
  test_score_cond (get p "test_score" (VInt 0)) (VInt 100) du = Ok true ->
  ielts_cond p du = Ok true ->
  recommend self p h = Raise TypeError.
Proof.
  intros Hds Hr Hp Hv Hu Hd Cg Cb Ct Ci.
  destruct (mandatory_filters_total _ h ds Hr Hp) as (l1 & l2 & l3 & l4 & F1 & F2 & F3 & F4 & R4).
  assert (G : gpa_cond (delete "preferred_countries" p) = gpa_cond p).
  { unfold gpa_cond. rewrite get_delete_ne by discriminate. reflexivity. }
  assert (B : budget_cond (delete "preferred_countries" p) = budget_cond p).
  { unfold budget_cond. rewrite get_delete_ne by discriminate. reflexivity. }
  assert (I : ielts_cond (delete "preferred_countries" p) = ielts_cond p).
  { unfold ielts_cond. rewrite get_delete_ne by discriminate. reflexivity. }
  rewrite G in F1. rewrite B in F2. rewrite I in F4.
  rewrite get_delete_ne in F3 by discriminate.
  assert (H4 : u ∈ l4).
  { eapply filterR_keeps; [exact F4| |exact Hd|apply not_false_true, Ci].
    eapply filterR_keeps; [exact F3| |exact Hd|apply not_false_true, Ct].
    eapply filterR_keeps; [exact F2| |exact Hd|apply not_false_true, Cb].
    eapply filterR_keeps; [exact F1|exact Hu|exact Hd|apply not_false_true, Cg]. }
  rewrite recommend_eq. unfold run_pipeline. rewrite Hds. cbn [mbind result_bind].
  rewrite F1. cbn [mbind result_bind]. rewrite F2. cbn [mbind result_bind].
  rewrite F3. cbn [mbind result_bind]. rewrite F4. cbn [mbind result_bind].
  assert (S5 : optional_stage country_cond (get p "preferred_countries" (VList [])) h l4
               = Raise TypeError).
  { unfold optional_stage.
    assert (Hb : py_bool (get p "preferred_countries" (VList [])) = true)
      by (destruct Hv as [[Hb _]|[Hb _]]; exact Hb).
    rewrite Hb. destruct l4 as [|x l4]; [inversion H4|].
    apply filterR_all_raise; [apply documented_records_records, R4|].
    intros d. unfold country_cond, py_in.
    destruct Hv as [[_ (b & ->)]|[_ (n & ->)]]; reflexivity. }
  rewrite S5. reflexivity.
Qed.

(* ===================================================================== *)
(** * Part V.  Further properties of the engine and of the handlers *)
(* ===================================================================== *)

(** X1.  [calculate_match_score] raises nothing but [TypeError] (an operand
    that is not a number) and [OverflowError] (an integer too large for a
    float): whatever the record and the profile, no division by zero is
    reached, since every division is by a constant or behind a test
    [divisor > 0]. *)
Theorem X1_match_score_exceptions (university user_profile : dict) (e : exn) :
  calculate_match_score university user_profile = Raise e ->
  e = TypeError \/ e = OverflowError.
Proof. apply calculate_match_score_Raise. Qed.

Lemma X1_witness :
  calculate_match_score example_record (<["gpa" := VStr "3.5"]> example_profile)
  = Raise TypeError /\
  (TypeError = TypeError \/ TypeError = OverflowError).
Proof.
  split; [vm_compute; reflexivity|].
  apply (X1_match_score_exceptions example_record (<["gpa" := VStr "3.5"]> example_profile)).
  vm_compute. reflexivity.
Defined.

(** X2.  When the dataset is a list of records, [recommend] raises nothing
    but [TypeError], [AttributeError] (a [top_sectors] that has no [lower])
    and [OverflowError]. *)
Theorem X2_recommend_exceptions self p h ds e :
  lookup_list h (universities self) = Ok ds -> records h ds ->
  recommend self p h = Raise e ->
  e = TypeError \/ e = AttributeError \/ e = OverflowError.
Proof. apply recommend_Raise. Qed.

Lemma X2_witness :
  recommend {| universities := 1%nat |}
            (<["preferred_sectors" := VList ["Engineering"]]> example_profile)
            example_broken_store = Raise AttributeError /\
  (AttributeError = TypeError \/ AttributeError = AttributeError \/
   AttributeError = OverflowError).
Proof.
  split; [vm_compute; reflexivity|].
  apply (X2_recommend_exceptions {| universities := 1%nat |}
           (<["preferred_sectors" := VList ["Engineering"]]> example_profile)
           example_broken_store [0%nat]).
  - reflexivity.
  - apply is_record_ok. reflexivity.
  - vm_compute. reflexivity.
Defined.

(** X3.  On an empty dataset [recommend] evaluates no test: for every
    profile, whatever its values, it returns a new empty list and changes no
    object of the store. *)
Theorem X3_recommend_empty_dataset self p h :
  lookup_list h (universities self) = Ok [] ->
  exists r h',
    recommend self p h = Ok (r, h') /\ lookup_list h' r = Ok [] /\
    h !! r = None /\
    forall l o, h !! l = Some o -> h' !! l = Some o.
Proof.
  intros H. rewrite recommend_eq, (run_pipeline_empty self p h H).
  eexists _, _. split; [reflexivity|]. unfold result_store, result_loc. split; [|split].
  - apply lookup_list_Ok. rewrite app_assoc. rewrite lookup_app_r by (rewrite length_app; lia).
    rewrite length_app, Nat.sub_diag. reflexivity.
  - apply lookup_ge_None. lia.
  - intros l o Hl. rewrite lookup_app_l; [exact Hl|]. eapply lookup_lt_Some, Hl.
Qed.

Lemma X3_witness :
  exists r h',
    recommend {| universities := 0%nat |} (<["gpa" := VStr "high"]> ∅) example_empty_store
    = Ok (r, h') /\ lookup_list h' r = Ok [] /\
    example_empty_store !! r = None /\
    forall l o, example_empty_store !! l = Some o -> h' !! l = Some o.
Proof.
  apply (X3_recommend_empty_dataset {| universities := 0%nat |}
           (<["gpa" := VStr "high"]> ∅) example_empty_store).
  reflexivity.
Defined.

(** X4.  Every filter is idempotent: applied to the list it returned, with
    the same criterion, it returns a list with the same records. *)
Theorem X4_filters_idempotent
    (gpa budget test_score ielts_score countries sectors : value)
    (tolerance : option value) :
  idempotent (fun us => filter_by_gpa us gpa) /\
  idempotent (fun us => filter_by_budget us budget) /\
  idempotent (fun us => filter_by_test_score us test_score tolerance) /\
  idempotent (fun us => filter_by_ielts us ielts_score) /\
  idempotent (fun us => filter_by_country us countries) /\
  idempotent (fun us => filter_by_sectors us sectors).
Proof.
  repeat apply conj; try apply list_comp_idempotent.
  - apply filter_by_country_idempotent.
  - apply filter_by_sectors_idempotent.
Qed.

(** X5.  [filter_by_gpa], [filter_by_budget] and [filter_by_ielts] return a
    new list that holds, in their order, the records of the given list with
    [gpa >= gpa_min], [tuition_usd <= budget] and [ielts_score >= ielts_min]
    (a missing field read as 0); no object of the store is changed. *)
Theorem X5_filters_keep (gpa budget ielts_score : value) :
  keeps (fun u => py_ge gpa (get u "gpa_min" (VInt 0)))
        (fun us => filter_by_gpa us gpa) /\
  keeps (fun u => py_le (get u "tuition_usd" (VInt 0)) budget)
        (fun us => filter_by_budget us budget) /\
  keeps (fun u => py_ge ielts_score (get u "ielts_min" (VInt 0)))
        (fun us => filter_by_ielts us ielts_score).
Proof. repeat apply conj; apply list_comp_keeps. Qed.

(** X6.  [filter_by_country] with a non-empty list of names raises nothing
    on a list of records and returns, in their order, the records whose
    [country] is a string of the list; a record without a country is left
    out. *)
Theorem X6_country_filter us (c : string) (cs : list string) h usl :
  lookup_list h us = Ok usl -> records h usl ->
  exists r h' outl,
    filter_by_country us (VList (c :: cs)) h = Ok (r, h') /\
    lookup_list h' r = Ok outl /\ sublist outl usl /\
    forall u, u ∈ outl <->
      u ∈ usl /\ exists d s, lookup_dict h u = Ok d /\
                             d !! "country" = Some (VStr s) /\ s ∈ c :: cs.
Proof.
  intros Hus Hr. unfold filter_by_country. cbn [py_bool negb].
  destruct (filterR_total (country_cond (VList (c :: cs))) h usl Hr) as (outl & F).
  { intros d. rewrite country_cond_list. eauto. }
  pose proof (list_comp_eq (country_cond (VList (c :: cs))) us h [] usl) as E.
  rewrite !app_nil_r in E. rewrite F in E.
  exists (length h), (h ++ ([] ++ [OList outl])), outl.
  split; [apply E; [constructor | exact Hus]|]. split.
  { pose proof (lookup_list_last h [] outl) as L. rewrite app_nil_r in L. exact L. }
  split; [eapply filterR_sublist, F|].
  intros u. rewrite (filterR_Ok_elem _ _ _ u F), reads_Ok. split.
  - intros [Hu (d & Hd & Hc)]. split; [exact Hu|]. rewrite country_cond_list in Hc.
    destruct (d !! "country") as [[| | |s|]|] eqn:K; try discriminate.
    exists d, s. split; [exact Hd|]. split; [exact K|].
    injection Hc as Hc. eapply bool_decide_eq_true, Hc.
  - intros [Hu (d & s & Hd & K & Hs)]. split; [exact Hu|]. exists d. split; [exact Hd|].
    rewrite country_cond_list, K. f_equal. apply bool_decide_eq_true. exact Hs.
Qed.

Lemma X6_witness :
  exists r h' outl,
    filter_by_country 3%nat (VList ["Canada"]) example_catalogue = Ok (r, h') /\
    lookup_list h' r = Ok outl /\ sublist outl [0; 1; 2]%nat /\
    forall u, u ∈ outl <->
      u ∈ [0; 1; 2]%nat /\
      exists d s, lookup_dict example_catalogue u = Ok d /\
                  d !! "country" = Some (VStr s) /\ s ∈ ["Canada"].
Proof.
  apply (X6_country_filter 3%nat "Canada" [] example_catalogue [0; 1; 2]%nat).
  - reflexivity.
  - apply is_record_ok. reflexivity.
Defined.

(** X7.  [filter_by_sectors] with a non-empty list of keywords, on a list of
    records: when every [top_sectors] is a string (or missing, read as the
    empty string) it returns, in their order, the records in whose lowered
    text some lowered keyword occurs; when some [top_sectors] is not a
    string it raises [AttributeError]. *)
Theorem X7_sector_filter us (k : string) (ks : list string) h usl :
  lookup_list h us = Ok usl -> records h usl ->
  (Forall (fun u => exists d ts, lookup_dict h u = Ok d /\ sectors_text d = Some ts) usl ->
   exists r h' outl,
     filter_by_sectors us (VList (k :: ks)) h = Ok (r, h') /\
     lookup_list h' r = Ok outl /\ sublist outl usl /\
     forall u, u ∈ outl <->
       u ∈ usl /\ exists d ts, lookup_dict h u = Ok d /\ sectors_text d = Some ts /\
                               keyword_match (k :: ks) ts = true) /\
  ((exists u d, u ∈ usl /\ lookup_dict h u = Ok d /\ sectors_text d = None) ->
   filter_by_sectors us (VList (k :: ks)) h = Raise AttributeError).
Proof.
  intros Hus Hr.
  pose proof (filter_by_sectors_eq us (VList (k :: ks)) h [] usl eq_refl) as E.
  rewrite !app_nil_r in E. specialize (E (Forall_nil_2 _) Hus). split.
  - intros Ht.
    destruct (filterR_total_on (fun d => is_Some (sectors_text d))
                (sector_cond (VList (k :: ks))) h usl) as (outl & F).
    { eapply Forall_impl; [exact Ht|]. cbn. intros u (d & ts & Hd & Hs). eauto. }
    { intros d (ts & Hs). rewrite sector_cond_list, Hs. eauto. }
    rewrite F in E. exists (length h), (h ++ ([] ++ [OList outl])), outl.
    split; [exact E|]. split.
    { pose proof (lookup_list_last h [] outl) as L. rewrite app_nil_r in L. exact L. }
    split; [eapply filterR_sublist, F|].
    intros u. rewrite (filterR_Ok_elem _ _ _ u F), reads_Ok. split.
    + intros [Hu (d & Hd & Hc)]. split; [exact Hu|]. rewrite sector_cond_list in Hc.
      destruct (sectors_text d) as [ts|] eqn:K; [|discriminate].
      exists d, ts. split; [exact Hd|]. split; [exact K|]. congruence.
    + intros [Hu (d & ts & Hd & K & Hm)]. split; [exact Hu|]. exists d.
      split; [exact Hd|]. rewrite sector_cond_list, K, Hm. reflexivity.
  - intros (u & d & Hu & Hd & Hs). rewrite E.
    destruct (filterR (reads (sector_cond (VList (k :: ks))) h) usl) as [outl|e] eqn:F.
    + exfalso. destruct (filterR_Ok_all _ _ _ u F Hu) as (b & Hb).
      apply reads_Ok in Hb as (d' & Hd' & Hb). assert (d' = d) as -> by congruence.
      rewrite sector_cond_list, Hs in Hb. discriminate.
    + apply filterR_reads_Raise in F as (d' & Hc); [|exact Hr].
      rewrite sector_cond_list in Hc. destruct (sectors_text d'); [discriminate|].
      injection Hc as <-. reflexivity.
Qed.

Lemma X7_witness :
  (exists r h' outl,
     filter_by_sectors 3%nat (VList ["engineering"]) example_catalogue = Ok (r, h') /\
     lookup_list h' r = Ok outl /\ sublist outl [0; 1; 2]%nat /\
     forall u, u ∈ outl <->
       u ∈ [0; 1; 2]%nat /\
       exists d ts, lookup_dict example_catalogue u = Ok d /\ sectors_text d = Some ts /\
                    keyword_match ["engineering"] ts = true) /\
  filter_by_sectors 1%nat (VList ["engineering"]) example_broken_store
  = Raise AttributeError.
Proof.
  split.
  - apply (X7_sector_filter 3%nat "engineering" [] example_catalogue [0; 1; 2]%nat).
    + reflexivity.
    + apply is_record_ok. reflexivity.
    + repeat constructor; eexists _, _; split; reflexivity.
  - apply (X7_sector_filter 1%nat "engineering" [] example_broken_store [0%nat]).
    + reflexivity.
    + apply is_record_ok. reflexivity.
    + eexists 0%nat, _. split; [left|]. split; reflexivity.
Defined.

(** X8.  The sector filter does not distinguish the case of the letters of
    the keywords: two lists of keywords that are equal once lowered give the
    same result. *)
Theorem X8_sector_case us (l1 l2 : list string) h :
  str_lower <$> l1 = str_lower <$> l2 ->
  filter_by_sectors us (VList l1) h = filter_by_sectors us (VList l2) h.
Proof. apply filter_by_sectors_lower. Qed.

Lemma X8_witness :
  filter_by_sectors 3%nat (VList ["ENGINEERING"; "medicine"]) example_catalogue
  = filter_by_sectors 3%nat (VList ["Engineering"; "Medicine"]) example_catalogue.
Proof.
  apply (X8_sector_case 3%nat ["ENGINEERING"; "medicine"] ["Engineering"; "Medicine"]).
  reflexivity.
Defined.

(** X9.  The score does not increase with the rank number: for two records
    that differ only in [world_rank], numbers [w1 <= w2], the score for [w2]
    is not greater than the score for [w1], whenever both scores are
    returned and neither is NaN. *)
Theorem X9_rank_monotone (u p : dict) (w1 w2 : value) (x1 x2 : Q) (s1 s2 : num) :
  number w1 x1 -> number w2 x2 -> (x1 <= x2)%Q ->
  calculate_match_score (<["world_rank" := w1]> u) p = Ok s1 ->
  calculate_match_score (<["world_rank" := w2]> u) p = Ok s2 ->
  num_is_nan s1 = false -> num_is_nan s2 = false ->
  num_leb s2 s1 = true.
Proof. apply score_rank_mono. Qed.

(** X10.  The score does not increase with the tuition: for two records
    that differ only in [tuition_usd], numbers [t1 <= t2], and a profile
    whose budget is a number, the score for [t2] is not greater than the
    score for [t1], whenever both scores are returned and neither is NaN. *)
Theorem X10_tuition_monotone (u p : dict) (t1 t2 : value) (x1 x2 b : Q) (s1 s2 : num) :
  number t1 x1 -> number t2 x2 -> (x1 <= x2)%Q ->
  number (get p "budget" (VInt 0)) b ->
  calculate_match_score (<["tuition_usd" := t1]> u) p = Ok s1 ->
  calculate_match_score (<["tuition_usd" := t2]> u) p = Ok s2 ->
  num_is_nan s1 = false -> num_is_nan s2 = false ->
  num_leb s2 s1 = true.
Proof. apply score_tuition_mono. Qed.

Lemma X9_witness : num_leb (score_with "world_rank" 150) (score_with "world_rank" 10) = true.
Proof.
  apply (X9_rank_monotone example_record example_profile (VInt 10) (VInt 150)
           (inject_Z 10) (inject_Z 150)).
  - apply number_int_small. lia.
  - apply number_int_small. lia.
  - discriminate.
  - vm_compute. reflexivity.
  - vm_compute. reflexivity.
  - vm_compute. reflexivity.
  - vm_compute. reflexivity.
Defined.

Lemma X10_witness :
  num_leb (score_with "tuition_usd" 45000) (score_with "tuition_usd" 20000) = true.
Proof.
  apply (X10_tuition_monotone example_record example_profile (VInt 20000) (VInt 45000)
           (inject_Z 20000) (inject_Z 45000) (inject_Z 40000)).
  - apply number_int. json_int_tac.
  - apply number_int. json_int_tac.
  - discriminate.
  - apply (number_int 40000). json_int_tac.
  - vm_compute. reflexivity.
  - vm_compute. reflexivity.
  - vm_compute. reflexivity.
  - vm_compute. reflexivity.
Defined.

(** X11.  A record whose tuition equals the budget, a number above 0,
    passes the budget filter of [recommend], and its affordability is 0.0:
    the budget component adds [0.0] to the score. *)
Theorem X11_tuition_at_budget (u p : dict) (bv : value) (q : Q) (s : num) :
  p !! "budget" = Some bv -> number bv q -> (0 < q)%Q ->
  number (get u "tuition_usd" (VInt 0)) q ->
  budget_cond p u = Ok true /\
  affordability (get u "tuition_usd" (VInt 0)) bv = Ok (NFloat (FFin 0)) /\
  add_budget_score s u p = num_add s (NFloat (FFin 0)).
Proof. apply tuition_at_budget. Qed.

Lemma X11_witness :
  budget_cond example_profile (<["tuition_usd" := VFloat (FFin 40000)]> example_record)
  = Ok true /\
  affordability
    (get (<["tuition_usd" := VFloat (FFin 40000)]> example_record) "tuition_usd" (VInt 0))
    (VInt 40000) = Ok (NFloat (FFin 0)) /\
  add_budget_score (NInt 0) (<["tuition_usd" := VFloat (FFin 40000)]> example_record)
    example_profile = num_add (NInt 0) (NFloat (FFin 0)).
Proof.
  apply (X11_tuition_at_budget (<["tuition_usd" := VFloat (FFin 40000)]> example_record)
           example_profile (VInt 40000) (inject_Z 40000) (NInt 0)).
  - reflexivity.
  - apply number_int. json_int_tac.
  - reflexivity.
  - rewrite get_insert_eq. apply number_float.
Defined.

(** X12.  [recommend] reads six keys of the profile and no other: adding or
    changing any other key does not change what it returns. *)
Theorem X12_other_keys_ignored self (p : dict) (k : string) (v : value) h :
  k ∉ ["gpa"; "budget"; "test_score"; "ielts_score";
       "preferred_countries"; "preferred_sectors"] ->
  recommend self (<[k := v]> p) h = recommend self p h.
Proof. apply recommend_other_key. Qed.

Lemma X12_witness :
  recommend example_self (<["name" := VStr "Ada"]> example_profile) example_store
  = recommend example_self example_profile example_store.
Proof.
  apply (X12_other_keys_ignored example_self example_profile "name" (VStr "Ada")).
  intros H. apply list_elem_of_In in H. cbn in H.
  repeat (destruct H as [H|H]; [discriminate H|]). exact H.
Defined.

(** X13.  On a dataset of documented records and for a documented profile
    (finite numbers, tuition and GPA not negative, rank at least 1, sectors
    a text, preferences absent or lists of strings), [recommend] raises no
    exception, and every score it attaches is a number between 0 and
    102.75. *)
Theorem X13_recommend_total self p h ds :
  lookup_list h (universities self) = Ok ds ->
  documented_records h ds -> documented_profile p ->
  exists r h' outl,
    recommend self p h = Ok (r, h') /\ lookup_list h' r = Ok outl /\
    forall c, c ∈ outl ->
      exists k q, score_at h' c = Some k /\ num_exact k = FFin q /\
                  (0 <= q <= 411 # 4)%Q.
Proof.
  intros Hds Hr Hp. destruct (recommend_total self p h ds Hds Hr Hp) as (r & h' & H).
  destruct (recommend_returns_records _ _ _ _ _ H) as (outl & _ & Hl & _).
  exists r, h', outl. split; [exact H|]. split; [exact Hl|].
  eapply recommend_scores; eassumption.
Qed.

Lemma X13_witness :
  exists r h' outl,
    recommend {| universities := 3%nat |}
      (<["preferred_countries" := VList ["Canada"; "United States"]]> example_profile)
      example_catalogue = Ok (r, h') /\
    lookup_list h' r = Ok outl /\
    forall c, c ∈ outl ->
      exists k q, score_at h' c = Some k /\ num_exact k = FFin q /\
                  (0 <= q <= 411 # 4)%Q.
Proof.
  apply (X13_recommend_total {| universities := 3%nat |}
           (<["preferred_countries" := VList ["Canada"; "United States"]]> example_profile)
           example_catalogue [0; 1; 2]%nat).
  - reflexivity.
  - apply is_documented_ok. vm_compute. reflexivity.
  - apply documented_profileb_ok. vm_compute. reflexivity.
Defined.

(** X14.  [POST /api/recommend] with a JSON object answers with status 400
    exactly when the request is not valid: a required field is missing, or
    [gpa], [budget] or [ielts_score] is not a bool or number, or is below 0,
    or [gpa] is above 4, [ielts_score] above 9, or [test_score] is not an int
    between 400 and 1600 (a bool is refused here; NaN passes as [gpa],
    [budget] and [ielts_score]).  A valid request is answered with status
    200 or 500. *)
Theorem X14_request_validation (rec : recommender) (d : dict) (h : store) :
  (valid_request d = false <-> status (app.recommend rec (PObject d) h) = 400) /\
  (valid_request d = true <->
   status (app.recommend rec (PObject d) h) = 200 \/
   status (app.recommend rec (PObject d) h) = 500).
Proof.
  destruct (valid_request d) eqn:V.
  - destruct (recommend_handler_status rec d h V) as [E|E]; rewrite E;
      (split; split; [discriminate | discriminate | auto | reflexivity]).
  - rewrite (recommend_handler_invalid rec d h V).
    split; split; try reflexivity; try discriminate. intros [C|C]; discriminate C.
Qed.

(** X15.  For a valid request with a documented profile, on a dataset of
    documented records, [POST /api/recommend] answers with status 200:
    [total_matches] is the length of the list that the engine returns,
    [recommendations] are its first 20 records, [count] is their number and
    [user_profile] is the request. *)
Theorem X15_request_served (rec : recommender) (d : dict) (h : store) ds :
  lookup_list h (universities rec) = Ok ds ->
  documented_records h ds -> documented_profile d -> valid_request d = true ->
  exists r h' ranked top,
    recommend rec d h = Ok (r, h') /\ lookup_list h' r = Ok ranked /\
    mapM (lookup_dict h') (take 20 ranked) = Ok top /\
    length top = (20 `min` length ranked)%nat /\
    app.recommend rec (PObject d) h =
      {| body := [("success", JBool true);
                  ("count", JInt (Z.of_nat (length top)));
                  ("total_matches", JInt (Z.of_nat (length ranked)));
                  ("user_profile", JRecord d);
                  ("recommendations", JRecords top)];
         status := 200 |}.
Proof.
  intros Hds Hr Hp V. destruct (recommend_total rec d h ds Hds Hr Hp) as (r & h' & H).
  destruct (recommend_returns_records _ _ _ _ _ H) as (ranked & recs & Hl & Hrecs).
  pose proof (mapM_take _ _ _ 20 Hrecs) as Htop.
  exists r, h', ranked, (take 20 recs). split; [exact H|]. split; [exact Hl|].
  split; [exact Htop|]. split.
  - rewrite (mapM_Ok_length _ _ _ Htop). apply length_take.
  - apply (recommend_handler_served rec d h r h' ranked _ V H Hl Htop).
Qed.

Lemma X15_witness :
  exists r h' ranked top,
    recommend example_self example_profile example_store = Ok (r, h') /\
    lookup_list h' r = Ok ranked /\
    mapM (lookup_dict h') (take 20 ranked) = Ok top /\
    length top = (20 `min` length ranked)%nat /\
    app.recommend example_self (PObject example_profile) example_store =
      {| body := [("success", JBool true);
                  ("count", JInt (Z.of_nat (length top)));
                  ("total_matches", JInt (Z.of_nat (length ranked)));
                  ("user_profile", JRecord example_profile);
                  ("recommendations", JRecords top)];
         status := 200 |}.
Proof.
  apply (X15_request_served example_self example_profile example_store [0; 1; 2; 0]%nat).
  - reflexivity.
  - apply is_documented_ok. vm_compute. reflexivity.
  - apply documented_profileb_ok. vm_compute. reflexivity.
  - vm_compute. reflexivity.
Defined.


(** X17.  [GET /api/universities] on a dataset of records answers with the
    records that pass the test of every parameter that is given, in the
    order of the dataset, and with their number; an empty [country] is not a
    test.  When a test raises, the answer has status 500. *)
Theorem X17_universities_query (rec : recommender)
    (country : option string) (max_tuition : option float) (min_rank max_rank : option Z)
    (h : store) ds :
  lookup_list h (universities rec) = Ok ds -> records h ds ->
  match filterR (reads (query_cond country max_tuition min_rank max_rank) h) ds with
  | Ok out =>
      exists recs, mapM (lookup_dict h) out = Ok recs /\
        app.get_universities rec country max_tuition min_rank max_rank h
        = {| body := [("success", JBool true);
                      ("count", JInt (Z.of_nat (length recs)));
                      ("universities", JRecords recs)];
             status := 200 |}
  | Raise e =>
      e = TypeError /\
      app.get_universities rec country max_tuition min_rank max_rank h
      = {| body := [("success", JBool false); ("error", JMessage TypeError)];
           status := 500 |}
  end.
Proof. apply get_universities_select. Qed.


Lemma X17_witness :
  exists recs,
    mapM (lookup_dict example_catalogue) [1%nat] = Ok recs /\
    app.get_universities {| universities := 3%nat |}
      (Some "Canada") (Some (FFin 50000)) None (Some 100) example_catalogue
    = {| body := [("success", JBool true);
                  ("count", JInt (Z.of_nat (length recs)));
                  ("universities", JRecords recs)];
         status := 200 |}.
Proof.
  pose proof (X17_universities_query {| universities := 3%nat |}
                (Some "Canada") (Some (FFin 50000)) None (Some 100)
                example_catalogue [0; 1; 2]%nat eq_refl
                (is_record_ok example_catalogue [0; 1; 2]%nat eq_refl)) as W.
  assert (F : filterR (reads (query_cond (Some "Canada") (Some (FFin 50000)) None (Some 100))
                         example_catalogue) [0; 1; 2]%nat = Ok [1%nat])
    by (vm_compute; reflexivity).
  rewrite F in W. exact W.
Defined.

(** X18.  The preferences of a request are not validated: a valid request
    whose [preferred_countries] is a true bool or a number other than 0 is
    answered with status 500, the message being that of a [TypeError], as
    soon as a record of the dataset passes the four mandatory filters. *)
Theorem X18_preferences_not_validated (rec : recommender) (d : dict) h ds u du :
  lookup_list h (universities rec) = Ok ds -> documented_records h ds ->
  documented_profile (delete "preferred_countries" d) -> valid_request d = true ->
  scalar_preference (get d "preferred_countries" (VList [])) ->
  u ∈ ds -> lookup_dict h u = Ok du ->
  gpa_cond d du = Ok true -> budget_cond d du = Ok true ->
  test_score_cond (get d "test_score" (VInt 0)) (VInt 100) du = Ok true ->
  ielts_cond d du = Ok true ->
  app.recommend rec (PObject d) h
  = {| body := [("success", JBool false); ("error", JMessage TypeError)];
       status := 500 |}.
Proof.
  intros Hds Hr Hp V Hv Hu Hd Cg Cb Ct Ci.
  apply (recommend_handler_failed rec d h TypeError V).
  eapply recommend_scalar_countries; eassumption.
Qed.

Lemma X18_witness :
  app.recommend example_self
    (PObject (<["preferred_countries" := VInt 5]> example_profile)) example_store
  = {| body := [("success", JBool false); ("error", JMessage TypeError)];
       status := 500 |}.
Proof.
  apply (X18_preferences_not_validated example_self
           (<["preferred_countries" := VInt 5]> example_profile) example_store
           [0; 1; 2; 0]%nat 0%nat example_record).
  - reflexivity.
  - apply is_documented_ok. vm_compute. reflexivity.
  - apply documented_profileb_ok. vm_compute. reflexivity.
  - vm_compute. reflexivity.
  - right. split; [reflexivity | eexists; reflexivity].
  - left.
  - reflexivity.
  - vm_compute. reflexivity.
  - vm_compute. reflexivity.
  - vm_compute. reflexivity.
  - vm_compute. reflexivity.
Defined.

Lemma X4_witness :
  exists out r2 h2,
    lookup_list [ODict example_record; OList [0%nat]; OList [0%nat]] 2%nat = Ok out /\
    filter_by_budget 2%nat (VInt 40000)
      [ODict example_record; OList [0%nat]; OList [0%nat]] = Ok (r2, h2) /\
    lookup_list h2 r2 = Ok out.
Proof.
  apply (proj1 (proj2 (X4_filters_idempotent VNone (VInt 40000) VNone VNone VNone VNone None))
           1%nat [0%nat] single_store).
  - reflexivity.
  - vm_compute. reflexivity.
Defined.

Lemma X5_witness :
  exists usl outl,
    lookup_list example_store 3%nat = Ok usl /\ example_store !! 4%nat = None /\
    lookup_list (example_store ++ [OList [0; 2; 0]%nat]) 4%nat = Ok outl /\
    (forall l o, example_store !! l = Some o ->
                 (example_store ++ [OList [0; 2; 0]%nat]) !! l = Some o) /\
    sublist outl usl /\
    forall u, u ∈ outl <->
      u ∈ usl /\ exists d, lookup_dict example_store u = Ok d /\
                           py_le (get d "tuition_usd" (VInt 0)) (VInt 40000) = Ok true.
Proof.
  apply (proj1 (proj2 (X5_filters_keep VNone (VInt 40000) VNone)) 3%nat example_store).
  vm_compute. reflexivity.
Defined.

Lemma X14_witness :
  valid_request (<["test_score" := VBool true]> example_profile) = false /\
  status (app.recommend example_self
            (PObject (<["test_score" := VBool true]> example_profile)) example_store) = 400.
Proof.
  split; [vm_compute; reflexivity|].
  apply (proj1 (X14_request_validation example_self
                  (<["test_score" := VBool true]> example_profile) example_store)).
  vm_compute. reflexivity.
Defined.
